(** * Customer segmentation pipeline: RFM features, trainers and query service

    A shallow embedding of the Python sources
    [src/data.py], [src/preprocessing.py], [src/train_kmeans.py],
    [src/train_dbscan.py] and [app/app.py], followed by the properties
    the specification states about them.

    Conventions of the embedding.
    - A pandas table is a list of rows, in row order.  The transaction
      tables have a fixed schema and are records; the persisted labelled
      dataset has optional columns and is a [DataFrame]: a column list with
      rows that map column names to cells.
    - A cell of a numeric column is a [Number]: an [int64], whose
      arithmetic wraps around, or a [float64].  A [float64] is the
      rational it denotes, an infinity or NaN; to which value a float
      operation rounds is left to the library ([float64_mul],
      [float64_sum], [float64_of_int64]).  A pandas column has one dtype;
      the operations below are given cell by cell and agree with pandas on
      every column whose cells have the same dtype.
    - A missing value (NaN, None, NaT) is [None] in a record and [Null] in
      a frame.  Timestamps are [Z] nanoseconds since the epoch, as in
      [datetime64[ns]].
    - A Python call that may raise returns a [result]; the file system and
      the service's module-level cache are threaded explicitly.
    - pandas date parsing, the float operations, numpy's [log1p] and the
      scikit-learn estimators are libraries outside the repository: they
      are the fields of the [Extern] class. *)

From Stdlib Require Import ZArith QArith Lia.
From stdpp Require Import base option list sorting gmap strings pretty.

Local Open Scope Z_scope.

(** ** Python results *)

Inductive exn :=
  | FileNotFoundError (path : string)
  | ValueError (msg : string)
  | KeyError (key : string)
  | AttributeError (name : string)
  | UnpicklingError (path : string)
  | TypeError (ufunc : string)
  | OverflowError (msg : string).

Inductive result (A : Type) :=
  | Ok (a : A)
  | Raise (e : exn).
Arguments Ok {A} a.
Arguments Raise {A} e.

#[global] Instance result_bind : MBind result := fun A B k m =>
  match m with
  | Ok a => k a
  | Raise e => Raise e
  end.

Fixpoint mapM {A B} (f : A -> result B) (l : list A) : result (list B) :=
  match l with
  | [] => Ok []
  | a :: l' => b ← f a; bs ← mapM f l'; Ok (b :: bs)
  end.

Lemma mapM_length {A B} (f : A -> result B) (l : list A) (out : list B) :
  mapM f l = Ok out -> length out = length l.
Proof.
  revert out. induction l as [|a l IH]; intros out; simpl.
  - by intros [= <-].
  - destruct (f a) as [b|e]; [|discriminate]. simpl.
    destruct (mapM f l) as [bs|e]; [|discriminate]. simpl.
    intros [= <-]. simpl. f_equal. by apply IH.
Qed.

#[global] Instance Qlt_decision (x y : Q) : Decision (x < y)%Q.
Proof. unfold Qlt. apply _. Defined.

(** ** Numbers *)

(** A Python float, which is a numpy [float64]: [float("inf")] and
    [float("nan")] are floats too. *)
Inductive float64 :=
  | Finite (q : Q)
  | PosInf
  | NegInf
  | NaN.

(** A cell of a numeric column.  [I64 z] is the [int64] [z] for
    [-2^63 <= z < 2^63]; files hold such cells, and the integer
    operations below return such cells. *)
Inductive Number :=
  | I64 (z : Z)
  | F64 (x : float64).

(** The [int64] that an exact integer result wraps around to. *)
Definition wrap64 (z : Z) : Z := (z + 2 ^ 63) mod 2 ^ 64 - 2 ^ 63.

(** The mask [column > 0] on one cell; NaN compares false. *)
Definition positive (a : Number) : Prop :=
  match a with
  | I64 z => 0 < z
  | F64 (Finite q) => (0 < q)%Q
  | F64 PosInf => True
  | F64 _ => False
  end.

#[global] Instance positive_dec a : Decision (positive a).
Proof. destruct a as [z|[q| | |]]; simpl; apply _. Defined.

(** The cells of a column when its dtype is [int64]. *)
Fixpoint int64_column (x : list Number) : option (list Z) :=
  match x with
  | [] => Some []
  | I64 z :: x' => cons z <$> int64_column x'
  | F64 _ :: _ => None
  end.

(** ** External libraries *)

Class Extern := {
  (** [pd.to_datetime] on the raw date column, one call for the whole
      column: a missing cell becomes NaT ([None]), and the call raises
      when the column does not parse.  The result has one timestamp per
      cell. *)
  to_datetime : list (option string) -> result (list (option Z));
  to_datetime_length : ∀ x out, to_datetime x = Ok out -> length out = length x;
  (** The [float64] arithmetic of numpy and pandas: the conversion of an
      [int64], the product of two cells and the sum of a column. *)
  float64_of_int64 : Z -> float64;
  float64_mul : float64 -> float64 -> float64;
  float64_sum : list float64 -> float64;
  (** The float type of the feature matrices and [np.log1p] into it. *)
  F : Type;
  log1p : float64 -> F;
  (** [sklearn.preprocessing.StandardScaler]: the fitted state, [fit] and
      [transform] on a matrix with the three feature columns; both
      validate their input and may raise. *)
  StandardScaler : Type;
  fit : list (F * F * F) -> result StandardScaler;
  transform : StandardScaler -> list (F * F * F) -> result (list (F * F * F));
  (** [KMeans(n_clusters, random_state).fit_predict] and
      [DBSCAN(eps, min_samples).fit_predict]: one label per row, or a
      fit failure. *)
  KMeans_fit_predict : Z -> Z -> list (F * F * F) -> result (list Z);
  DBSCAN_fit_predict : Q -> Z -> list (F * F * F) -> result (list Z);
}.

Section numbers.
Context `{!Extern}.

(** A cell as a [float64], as numpy converts it before a float operation. *)
Definition to_float64 (a : Number) : float64 :=
  match a with
  | I64 z => float64_of_int64 z
  | F64 x => x
  end.

(** [column * column] on one pair of cells: the product of two [int64]
    wraps around, any other product is a [float64] product. *)
Definition mul (a b : Number) : Number :=
  match a, b with
  | I64 x, I64 y => I64 (wrap64 (x * y))
  | _, _ => F64 (float64_mul (to_float64 a) (to_float64 b))
  end.
End numbers.

(** ** Tables with optional columns *)

Inductive Cell :=
  | Null
  | Int (z : Z)
  | Num (q : Q)
  | Inf (negative : bool)
  | Str (s : string).

#[global] Instance Q_eq_dec : EqDecision Q.
Proof. solve_decision. Defined.

#[global] Instance Cell_eq_dec : EqDecision Cell.
Proof. solve_decision. Defined.

(** A float as a cell of a frame; NaN is the null of a float column. *)
Definition cell_of_float64 (x : float64) : Cell :=
  match x with
  | Finite q => Num q
  | PosInf => Inf false
  | NegInf => Inf true
  | NaN => Null
  end.

Definition cell_of_number (a : Number) : Cell :=
  match a with
  | I64 z => Int z
  | F64 x => cell_of_float64 x
  end.

Record DataFrame := {
  columns : list string;
  rows : list (gmap string Cell);
}.

(** [name in df.columns] *)
Definition has_column (name : string) (df : DataFrame) : bool :=
  bool_decide (name ∈ columns df).

(** [df[name]]: the cells of one column, or [KeyError]. *)
Definition get_column (name : string) (df : DataFrame) : result (list Cell) :=
  if has_column name df
  then Ok (map (fun r => default Null (r !! name)) (rows df))
  else Raise (KeyError name).

(** [df[name] = values]: a new or replaced column; the lengths must agree. *)
Definition assign_column (name : string) (values : list Cell) (df : DataFrame)
  : result DataFrame :=
  if bool_decide (length values = length (rows df))
  then Ok {| columns := if has_column name df then columns df else columns df ++ [name];
             rows := zip_with (fun r v => <[name := v]> r) (rows df) values |}
  else Raise (ValueError "Length of values does not match length of index").

(** [df[[c1, ..., cn]]]: the listed columns, or [KeyError] on the first
    one that is absent. *)
Definition select (cols : list string) (df : DataFrame) : result DataFrame :=
  match list_find (fun c => c ∉ columns df) cols with
  | Some (_, c) => Raise (KeyError c)
  | None => Ok {| columns := cols;
                  rows := map (filter (fun kv => kv.1 ∈ cols)) (rows df) |}
  end.

(** Two rows agree on the join key. *)
Definition key_match (on : string) (l r : gmap string Cell) : Prop :=
  is_Some (l !! on) ∧ l !! on = r !! on.

#[global] Instance key_match_dec on l r : Decision (key_match on l r).
Proof. unfold key_match. apply _. Defined.

(** The cells a left row gets when no right row matches it. *)
Definition null_row (cols : list string) : gmap string Cell :=
  list_to_map (map (fun c => (c, Null)) cols).

(** [left.merge(right, on=on, how="left")] for frames that share no column
    but the key: every left row in order, once per matching right row, and
    once with nulls when none matches. *)
Definition merge_left (on : string) (left right : DataFrame) : DataFrame :=
  let extra := filter (fun c => c ≠ on) (columns right) in
  {| columns := columns left ++ extra;
     rows := l ← rows left;
             match filter (key_match on l) (rows right) with
             | [] => [l ∪ null_row extra]
             | ms => map (fun r => l ∪ r) ms
             end |}.

(** ** src/config.py *)

Module config.
(** [Path / name]; paths are relative to the project root. *)
Definition path_join (dir name : string) : string := dir +:+ "/" +:+ name.
Infix "</>" := path_join (at level 40, left associativity).

Definition DATA_DIR : string := "data".
Definition RAW_DATA_PATH : string := DATA_DIR </> "raw" </> "online_retail.csv".
Definition PROCESSED_DIR : string := DATA_DIR </> "processed".
Definition MODELS_DIR : string := "models".

Definition SCALER_FILENAME : string := "scaler.joblib".
Definition KMEANS_FILENAME : string := "kmeans.joblib".
Definition DBSCAN_FILENAME : string := "dbscan.joblib".
Definition RFM_FILENAME : string := "rfm_with_segments.parquet".
Definition SEGMENT_MAP_FILENAME : string := "segment_map.joblib".
End config.

(** ** src/data.py *)

Module data.

(** An invoice ID is numeric or text, as [read_csv] delivers it. *)
Inductive InvoiceId :=
  | InvNum (n : Z)
  | InvStr (s : string).

#[global] Instance InvoiceId_eq_dec : EqDecision InvoiceId.
Proof. solve_decision. Defined.

(** [Series.astype(str)] on a cell of the invoice column; a missing cell
    becomes the text "nan".  (In a float column a number prints with a
    decimal point; no number's text starts with a letter.) *)
Definition astype_str (i : option InvoiceId) : string :=
  match i with
  | None => "nan"
  | Some (InvNum n) => pretty n
  | Some (InvStr s) => s
  end.

(** [str.startswith] *)
Definition startswith (p s : string) : bool := String.prefix p s.

(** A row as [read_csv] delivers it: the invoice ID, the date and the
    customer ID may be missing; a missing quantity or price is the
    [float64] NaN. *)
Module Raw.
Record row := {
  InvoiceNo : option InvoiceId;
  StockCode : string;
  Quantity : Number;
  InvoiceDate : option string;
  UnitPrice : Number;
  CustomerID : option Z;
}.
End Raw.

(** A row of the cleaned table: the customer ID is present, the date is a
    timestamp or NaT. *)
Module Clean.
Record row := {
  InvoiceNo : option InvoiceId;
  StockCode : string;
  Quantity : Number;
  InvoiceDate : option Z;
  UnitPrice : Number;
  CustomerID : Z;
  TotalPrice : Number;
}.
End Clean.

(** Line 13, [dropna(subset=["CustomerID"])]: the rows that have a
    customer ID, each with that ID. *)
Definition dropna (df : list Raw.row) : list (Z * Raw.row) :=
  omap (fun r => c ← Raw.CustomerID r; Some (c, r)) df.

(** The boolean mask [~inv.str.startswith("C")] of line 17. *)
Definition not_cancelled (r : Raw.row) : Prop :=
  startswith "C" (astype_str (Raw.InvoiceNo r)) = false.

#[global] Instance not_cancelled_dec r : Decision (not_cancelled r).
Proof. unfold not_cancelled. apply _. Defined.

Section clean.
Context `{!Extern}.

(** A row of the returned table, from a surviving row with its customer
    ID, its cell of the [TotalPrice] column and its cell of the parsed date
    column, which takes the place of the text. *)
Definition assign (cr : Z * Raw.row) (TotalPrice : Number) (InvoiceDate : option Z)
    : Clean.row :=
  {| Clean.InvoiceNo := Raw.InvoiceNo cr.2;
     Clean.StockCode := Raw.StockCode cr.2;
     Clean.Quantity := Raw.Quantity cr.2;
     Clean.InvoiceDate := InvoiceDate;
     Clean.UnitPrice := Raw.UnitPrice cr.2;
     Clean.CustomerID := cr.1;
     Clean.TotalPrice := TotalPrice |}.

(** Lines 13-17 filter row by row; line 18 multiplies cell by cell; line 19
    is one [pd.to_datetime] call on the whole date column of the rows that
    are left, and what it raises, [clean_transactions] raises. *)
Definition clean_transactions (df : list Raw.row) : result (list Clean.row) :=
  let df := dropna df in
  let df := filter (fun cr => positive (Raw.Quantity cr.2)) df in
  let df := filter (fun cr => positive (Raw.UnitPrice cr.2)) df in
  let df := filter (fun cr => not_cancelled cr.2) df in
  let TotalPrice := (fun cr => mul (Raw.Quantity cr.2) (Raw.UnitPrice cr.2)) <$> df in
  InvoiceDate ← to_datetime ((fun cr => Raw.InvoiceDate cr.2) <$> df);
  Ok (zip_with (fun ct date => assign ct.1 ct.2 date) (zip df TotalPrice) InvoiceDate).
End clean.

End data.

(** ** The persistent store

    The artifact directory, the processed-data directory and the raw file
    are one map from paths to file contents.  A trainer is a computation
    over it that returns a value or raises; the store it leaves behind is
    kept in both cases. *)

Section store.
Context `{!Extern}.

(** What [joblib.dump] pickles. *)
Inductive Artifact :=
  | ScalerObj (scaler : StandardScaler)
  | KMeansObj (n_clusters random_state : Z) (labels_ : list Z)
  | DBSCANObj (eps : Q) (min_samples : Z) (labels_ : list Z)
  | SegmentMapObj (segment_map : gmap Z string).

Inductive File :=
  | CsvFile (table : list data.Raw.row)
  | JoblibFile (obj : Artifact)
  | ParquetFile (df : DataFrame).

Definition M (A : Type) : Type := gmap string File -> result A * gmap string File.

#[global] Instance M_ret : MRet M := fun A a fs => (Ok a, fs).

#[global] Instance M_bind : MBind M := fun A B k m fs =>
  match m fs with
  | (Ok a, fs') => k a fs'
  | (Raise e, fs') => (Raise e, fs')
  end.

(** A pure step that may raise. *)
Definition lift {A} (r : result A) : M A := fun fs => (r, fs).

(** [path.exists()] *)
Definition path_exists (path : string) : M bool :=
  fun fs => (Ok (bool_decide (is_Some (fs !! path))), fs).

(** [joblib.load(path)]: opening a missing file raises
    [FileNotFoundError], whose message carries the path. *)
Definition joblib_load (path : string) : M Artifact := fun fs =>
  match fs !! path with
  | None => (Raise (FileNotFoundError path), fs)
  | Some (JoblibFile obj) => (Ok obj, fs)
  | Some _ => (Raise (UnpicklingError path), fs)
  end.

(** [joblib.dump(obj, path)] *)
Definition joblib_dump (obj : Artifact) (path : string) : M unit :=
  fun fs => (Ok tt, <[path := JoblibFile obj]> fs).

(** [pd.read_csv(path, delimiter=",")] *)
Definition read_csv (path : string) : M (list data.Raw.row) := fun fs =>
  match fs !! path with
  | None => (Raise (FileNotFoundError path), fs)
  | Some (CsvFile table) => (Ok table, fs)
  | Some _ => (Raise (ValueError path), fs)
  end.

(** [pd.read_parquet(path)] *)
Definition read_parquet (path : string) : M DataFrame := fun fs =>
  match fs !! path with
  | None => (Raise (FileNotFoundError path), fs)
  | Some (ParquetFile df) => (Ok df, fs)
  | Some _ => (Raise (ValueError path), fs)
  end.

(** [df.to_parquet(path, index=False)] *)
Definition to_parquet (df : DataFrame) (path : string) : M unit :=
  fun fs => (Ok tt, <[path := ParquetFile df]> fs).
End store.

(** ** src/data.py, the loaders (lines 7-9 and 23-25)

    The trainers import [load_clean] under the module name [data_loader]. *)

Module data_load.
Import config data.
Section load.
Context `{!Extern}.

Definition load_raw (data_path : option string) : M (list Raw.row) :=
  let path := default RAW_DATA_PATH data_path in
  read_csv path.

Definition load_clean (data_path : option string) : M (list Clean.row) :=
  df ← load_raw data_path;
  lift (clean_transactions df).
End load.
End data_load.

(** ** src/preprocessing.py *)

Module preprocessing.
Import data.

(** A row of the RFM table.  [Recency] is NaN ([None]) for a customer
    none of whose rows has a date. *)
Record RFM := {
  CustomerID : Z;
  Recency : option Z;
  Frequency : Z;
  Monetary : Number;
}.

(** One day, [pd.Timedelta(days=1)], in nanoseconds. *)
Definition Timedelta_day : Z := 86400 * 1000000000.

(** [Series.max] of a timestamp column: the latest of the timestamps that
    are not NaT; NaT ([None]) when there is none. *)
Definition series_max (x : list (option Z)) : option Z :=
  match omap id x with
  | [] => None
  | t :: x' => Some (foldl Z.max t x')
  end.

(** [Timedelta.days]: whole days, rounded towards minus infinity. *)
Definition days (delta : Z) : Z := delta / Timedelta_day.

(** [Series.nunique]: the distinct values; missing values do not count. *)
Definition nunique (x : list (option InvoiceId)) : Z :=
  Z.of_nat (length (remove_dups (omap id x))).

Section sum.
Context `{!Extern}.

(** [Series.sum] of a group of the [TotalPrice] column: an [int64] sum
    wraps around, any other is the library's [float64] sum. *)
Definition series_sum (x : list Number) : Number :=
  match int64_column x with
  | Some zs => I64 (wrap64 (foldl Z.add 0 zs))
  | None => F64 (float64_sum (to_float64 <$> x))
  end.
End sum.

(** The rows of one group of [df.groupby("CustomerID")]. *)
Definition group (df : list Clean.row) (c : Z) : list Clean.row :=
  filter (fun t => Clean.CustomerID t = c) df.

(** The group keys: distinct customer IDs in ascending order. *)
Definition group_keys (df : list Clean.row) : list Z :=
  merge_sort Z.le (remove_dups (map Clean.CustomerID df)).

(** Line 7: one day past the latest invoice date of the whole table; NaT
    when no row has a date. *)
Definition snapshot_date (df : list Clean.row) : option Z :=
  (fun latest => latest + Timedelta_day) <$> series_max (map Clean.InvoiceDate df).

(** [(snapshot_date - x.max()).days]; with NaT on either side the
    difference is NaT and its [days] is NaN. *)
Definition recency (snapshot_date latest : option Z) : option Z :=
  match snapshot_date, latest with
  | Some s, Some m => Some (days (s - m))
  | _, _ => None
  end.

Section rfm.
Context `{!Extern}.

(** The three named aggregations of one group. *)
Definition agg (snapshot_date : option Z) (c : Z) (g : list Clean.row) : RFM :=
  {| CustomerID := c;
     Recency := recency snapshot_date (series_max (map Clean.InvoiceDate g));
     Frequency := nunique (map Clean.InvoiceNo g);
     Monetary := series_sum (map Clean.TotalPrice g) |}.

(** One record per group, in key order; [reset_index] makes the key an
    ordinary column, here the field [CustomerID]. *)
Definition compute_rfm (df : list Clean.row) : list RFM :=
  map (fun c => agg (snapshot_date df) c (group df c)) (group_keys df).
End rfm.

(** The cells of one row of [rfm.reset_index()]. *)
Definition cells (r : RFM) : gmap string Cell :=
  {[ "CustomerID" := Int (CustomerID r);
     "Recency" := from_option Int Null (Recency r);
     "Frequency" := Int (Frequency r);
     "Monetary" := cell_of_number (Monetary r) ]}.

(** The RFM table seen as a frame, for the code that adds columns to
    it: the four columns of [rfm.reset_index()]. *)
Definition to_frame (rfm : list RFM) : DataFrame :=
  {| columns := ["CustomerID"; "Recency"; "Frequency"; "Monetary"];
     rows := map cells rfm |}.

Section scaling.
Context `{!Extern}.

(** [np.log1p] on the three feature cells of one row. *)
Definition log1p_row (r : RFM) : F * F * F :=
  (log1p (from_option float64_of_int64 NaN (Recency r)),
   log1p (float64_of_int64 (Frequency r)),
   log1p (to_float64 (Monetary r))).

(** [rfm[["Recency", "Frequency", "Monetary"]].apply(np.log1p)]; on a
    table without rows the columns have no numeric dtype and [np.log1p]
    raises [TypeError]. *)
Definition apply_log1p (rfm : list RFM) : result (list (F * F * F)) :=
  match rfm with
  | [] => Raise (TypeError "log1p")
  | _ => Ok (map log1p_row rfm)
  end.

(** [scaler.fit_transform(X)] is [scaler.fit(X).transform(X)]. *)
Definition fit_transform (X : list (F * F * F))
  : result (list (F * F * F) * StandardScaler) :=
  scaler ← fit X;
  X' ← transform scaler X;
  Ok (X', scaler).

Definition prepare_for_clustering (rfm : list RFM)
  : result (list (F * F * F) * list (F * F * F) * StandardScaler) :=
  rfm_log ← apply_log1p rfm;
  '(rfm_scaled, scaler) ← fit_transform rfm_log;
  Ok (rfm_log, rfm_scaled, scaler).
End scaling.

End preprocessing.

(** ** src/train_kmeans.py *)

Module train_kmeans.
Import config data data_load preprocessing.

Definition DEFAULT_SEGMENT_MAP : gmap Z string :=
  {[ 0 := "High Value"; 1 := "Loyal"; 2 := "At Risk"; 3 := "Low Value" ]}.

(** [Series.map(dict)] on one cell: a value that is no key of the
    dictionary becomes null. *)
Definition series_map (m : gmap Z string) (c : Cell) : Cell :=
  match c with
  | Int k => match m !! k with Some name => Str name | None => Null end
  | _ => Null
  end.

Section train.
Context `{!Extern}.

Definition train_and_save (n_clusters random_state : Z) (save_rfm : bool)
  : M DataFrame :=
  df ← load_clean None;
  let rfm := compute_rfm df in
  '(_, rfm_scaled, scaler) ← lift (prepare_for_clustering rfm);
  labels ← lift (KMeans_fit_predict n_clusters random_state rfm_scaled);
  rfm ← lift (assign_column "Cluster" (Int <$> labels) (to_frame rfm));
  cluster ← lift (get_column "Cluster" rfm);
  rfm ← lift (assign_column "Segment" (series_map DEFAULT_SEGMENT_MAP <$> cluster) rfm);
  joblib_dump (ScalerObj scaler) (MODELS_DIR </> SCALER_FILENAME);;
  joblib_dump (KMeansObj n_clusters random_state labels) (MODELS_DIR </> KMEANS_FILENAME);;
  joblib_dump (SegmentMapObj DEFAULT_SEGMENT_MAP) (MODELS_DIR </> SEGMENT_MAP_FILENAME);;
  (if save_rfm
   then to_parquet rfm (PROCESSED_DIR </> RFM_FILENAME)
   else mret tt);;
  mret rfm.
End train.
End train_kmeans.

(** ** src/train_dbscan.py *)

Module train_dbscan.
Import config data data_load preprocessing.

Section train.
Context `{!Extern}.

(** Line 16: [scaler.transform] on whatever object was unpickled. *)
Definition scaler_transform (obj : Artifact) (X : list (F * F * F))
  : result (list (F * F * F)) :=
  match obj with
  | ScalerObj scaler => transform scaler X
  | _ => Raise (AttributeError "transform")
  end.

(** Lines 12-16: the scaled features of the freshly computed RFM table. *)
Definition scaled_features : M (list preprocessing.RFM * list (F * F * F)) :=
  scaler ← joblib_load (MODELS_DIR </> SCALER_FILENAME);
  df ← load_clean None;
  let rfm := compute_rfm df in
  rfm_log ← lift (apply_log1p rfm);
  rfm_scaled ← lift (scaler_transform scaler rfm_log);
  mret (rfm, rfm_scaled).

(** Lines 12-21: the RFM table with its [DBSCAN_Cluster] column, the
    fitted model dumped. *)
Definition fit_dbscan (eps : Q) (min_samples : Z) : M DataFrame :=
  '(rfm, rfm_scaled) ← scaled_features;
  labels ← lift (DBSCAN_fit_predict eps min_samples rfm_scaled);
  rfm ← lift (assign_column "DBSCAN_Cluster" (Int <$> labels) (to_frame rfm));
  joblib_dump (DBSCANObj eps min_samples labels) (MODELS_DIR </> DBSCAN_FILENAME);;
  mret rfm.

(** Lines 23-34: join the earlier labels, if any, and write the file. *)
Definition merge_and_save (rfm : DataFrame) : M DataFrame :=
  let path := PROCESSED_DIR </> RFM_FILENAME in
  present ← path_exists path;
  rfm ← (if present : bool then
           existing ← read_parquet path;
           if has_column "Segment" existing && has_column "Cluster" existing
           then
             labelled ← lift (select ["CustomerID"; "Cluster"; "Segment"] existing);
             mret (merge_left "CustomerID" rfm labelled)
           else mret rfm
         else mret rfm);
  to_parquet rfm path;;
  mret rfm.

Definition train_and_save (eps : Q) (min_samples : Z) : M DataFrame :=
  rfm ← fit_dbscan eps min_samples;
  merge_and_save rfm.
End train.
End train_dbscan.

(** ** app/app.py *)

Module app.
Import config.

(** A Python float is a [float64]: [float("inf")] and [float("nan")]
    parse too. *)
Definition PyFloat : Type := float64.

(** What [jsonify] serialises. *)
#[local] Unset Elimination Schemes.
Inductive Json :=
  | JNaN
  | JInt (z : Z)
  | JNum (q : Q)
  | JInf (negative : bool)
  | JStr (s : string)
  | JList (items : list Json)
  | JObj (fields : list (string * Json)).
#[local] Set Elimination Schemes.

Record Response := {
  body : Json;
  status : Z;
}.

(** The builtins and pandas aggregations the routes call. *)
Class Builtins := {
  (** [float(s)] and [int(s)] on text; [None] is [ValueError]. *)
  py_float : string -> option PyFloat;
  py_int : string -> option Z;
  (** [Series.value_counts().to_dict()], most frequent first. *)
  value_counts : list Cell -> list (string * Z);
  (** The [groupby("Segment")] aggregations of the segments and summary
      routes, as [to_dict(orient="records")] lists. *)
  segment_stats : DataFrame -> result Json;
  segment_means : DataFrame -> result Json;
}.

(** The comparison [rfm["CustomerID"] == cid] on one cell. *)
Definition cell_eq_float (c : Cell) (x : PyFloat) : bool :=
  match c, x with
  | Int z, Finite q => Qeq_bool (inject_Z z) q
  | Num p, Finite q => Qeq_bool p q
  | Inf false, PosInf => true
  | Inf true, NegInf => true
  | _, _ => false
  end.

(** A float as [jsonify] serialises it. *)
Definition json_of_float (x : PyFloat) : Json :=
  match x with
  | Finite q => JNum q
  | PosInf => JInf false
  | NegInf => JInf true
  | NaN => JNaN
  end.

(** [Series.nunique()] on a column of cells; nulls do not count. *)
Definition nunique (x : list Cell) : Z :=
  Z.of_nat (length (remove_dups (filter (fun c => c ≠ Null) x))).

(** [r[name]] on a row of the frame [df]. *)
Definition item (df : DataFrame) (r : gmap string Cell) (name : string) : result Cell :=
  if has_column name df then Ok (default Null (r !! name)) else Raise (KeyError name).

Section service.
Context `{!Extern, !Builtins}.

(** [float(c)] on a cell *)
Definition float_ (c : Cell) : result Json :=
  match c with
  | Null => Ok JNaN
  | Int z => Ok (JNum (inject_Z z))
  | Num q => Ok (JNum q)
  | Inf negative => Ok (JInf negative)
  | Str s => match py_float s with
             | Some x => Ok (json_of_float x)
             | None => Raise (ValueError "could not convert string to float")
             end
  end.

(** [int(c)] on a cell: truncation, [ValueError] on a null and
    [OverflowError] on an infinity. *)
Definition int_ (c : Cell) : result Json :=
  match c with
  | Null => Raise (ValueError "cannot convert float NaN to integer")
  | Int z => Ok (JInt z)
  | Num q => Ok (JInt (Z.quot (Qnum q) (Z.pos (Qden q))))
  | Inf _ => Raise (OverflowError "cannot convert float infinity to integer")
  | Str s => match py_int s with
             | Some z => Ok (JInt z)
             | None => Raise (ValueError "invalid literal for int()")
             end
  end.

(** [r["Segment"]] as it is serialised. *)
Definition json_of_cell (c : Cell) : Json :=
  match c with
  | Null => JNaN
  | Int z => JInt z
  | Num q => JNum q
  | Inf negative => JInf negative
  | Str s => JStr s
  end.

(** The process: the files it reads and the module-level [_rfm_df].
    The other cached handles are read by no route. *)
Record state := {
  disk : gmap string File;
  _rfm_df : option DataFrame;
}.

(** A route returns a response or raises (an unhandled error). *)
Definition App (A : Type) : Type := state -> result A * state.

#[global] Instance App_ret : MRet App := fun A a st => (Ok a, st).

#[global] Instance App_bind : MBind App := fun A B k m st =>
  match m st with
  | (Ok a, st') => k a st'
  | (Raise e, st') => (Raise e, st')
  end.

Definition pure {A} (r : result A) : App A := fun st => (r, st).

(** Run a file operation on the process's disk. *)
Definition on_disk {A} (m : M A) : App A := fun st =>
  let '(r, fs) := m (disk st) in
  (r, {| disk := fs; _rfm_df := _rfm_df st |}).

Definition read_rfm_df : App (option DataFrame) :=
  fun st => (Ok (_rfm_df st), st).

Definition write_rfm_df (df : DataFrame) : App unit :=
  fun st => (Ok tt, {| disk := disk st; _rfm_df := Some df |}).

Definition get_rfm_df : App (option DataFrame) :=
  cached ← read_rfm_df;
  match cached with
  | None =>
      let path := PROCESSED_DIR </> RFM_FILENAME in
      present ← on_disk (path_exists path);
      if negb present then mret None
      else
        df ← on_disk (read_parquet path);
        write_rfm_df df;;
        mret (Some df)
  | Some df => mret (Some df)
  end.

Definition error (msg : string) (code : Z) : Response :=
  {| body := JObj [("error", JStr msg)]; status := code |}.

Definition no_data : Response :=
  error "No processed RFM data. Run: python -m src.train_kmeans" 503.

Definition analytics_overview : App Response :=
  rfm ← get_rfm_df;
  match rfm with
  | None => mret no_data
  | Some rfm =>
      segment ← pure (get_column "Segment" rfm);
      let counts := value_counts segment in
      ids ← pure (get_column "CustomerID" rfm);
      let total := nunique ids in
      mret {| body := JObj [("total_customers", JInt total);
                            ("segment_counts", JObj (map (fun kv => (kv.1, JInt kv.2)) counts));
                            ("segments", JList (map (fun kv => JStr kv.1) counts))];
              status := 200 |}
  end.

Definition analytics_segments : App Response :=
  rfm ← get_rfm_df;
  match rfm with
  | None => mret no_data
  | Some rfm =>
      seg ← pure (segment_stats rfm);
      mret {| body := seg; status := 200 |}
  end.

Definition analytics_summary : App Response :=
  rfm ← get_rfm_df;
  match rfm with
  | None => mret no_data
  | Some rfm =>
      summary ← pure (segment_means rfm);
      mret {| body := summary; status := 200 |}
  end.

Definition analytics_customer (customer_id : string) : App Response :=
  rfm ← get_rfm_df;
  match rfm with
  | None => mret no_data
  | Some rfm =>
      match py_float customer_id with
      | None => mret (error "customer_id must be numeric" 400)
      | Some cid =>
          _ ← pure (get_column "CustomerID" rfm);
          let row := filter (fun r => cell_eq_float (default Null (r !! "CustomerID")) cid = true)
                            (rows rfm) in
          match row with
          | [] => mret (error ("Customer " +:+ customer_id +:+ " not found") 404)
          | r :: _ =>
              id ← pure (item rfm r "CustomerID" ≫= float_);
              segment ← pure (item rfm r "Segment");
              cluster ← pure (item rfm r "Cluster" ≫= int_);
              recency ← pure (item rfm r "Recency" ≫= float_);
              frequency ← pure (item rfm r "Frequency" ≫= float_);
              monetary ← pure (item rfm r "Monetary" ≫= float_);
              let out := [("CustomerID", id); ("Segment", json_of_cell segment);
                          ("Cluster", cluster); ("Recency", recency);
                          ("Frequency", frequency); ("Monetary", monetary)] in
              if has_column "DBSCAN_Cluster" rfm
              then
                dbscan ← pure (item rfm r "DBSCAN_Cluster" ≫= int_);
                mret {| body := JObj (out ++ [("DBSCAN_Cluster", dbscan)]); status := 200 |}
              else mret {| body := JObj out; status := 200 |}
          end
      end
  end.
End service.
End app.

(** ** Notions of the specification *)

Section spec.
Import data preprocessing.
Context `{!Extern}.

(** The rows the specification keeps: customer ID present, positive
    quantity and unit price, invoice text not starting with "C". *)
Definition spec_valid_row (r : Raw.row) : Prop :=
  is_Some (Raw.CustomerID r) ∧ positive (Raw.Quantity r) ∧
  positive (Raw.UnitPrice r) ∧ startswith "C" (astype_str (Raw.InvoiceNo r)) = false.

#[global] Instance spec_valid_row_dec r : Decision (spec_valid_row r).
Proof. unfold spec_valid_row. apply _. Defined.

(** The cleaned row [t] is the raw row [r] with its [TotalPrice] added;
    the date is the one field that cleaning replaces. *)
Definition cleaned_from (r : Raw.row) (t : Clean.row) : Prop :=
  Clean.InvoiceNo t = Raw.InvoiceNo r ∧
  Clean.StockCode t = Raw.StockCode r ∧
  Clean.Quantity t = Raw.Quantity r ∧
  Clean.UnitPrice t = Raw.UnitPrice r ∧
  Raw.CustomerID r = Some (Clean.CustomerID t) ∧
  Clean.TotalPrice t = mul (Clean.Quantity t) (Clean.UnitPrice t).

(** The exact product of an integer quantity and an integer price. *)
Definition exact_price (quantity price : Number) : option Z :=
  match quantity, price with
  | I64 q, I64 p => Some (q * p)
  | _, _ => None
  end.

(** An integer is an [int64]. *)
Definition in_int64 (z : Z) : Prop := - 2 ^ 63 ≤ z < 2 ^ 63.

#[global] Instance InvoiceId_countable : Countable InvoiceId.
Proof.
  refine (inj_countable'
    (fun i => match i with InvNum n => inl n | InvStr s => inr s end)
    (fun x => match x with inl n => InvNum n | inr s => InvStr s end) _).
  by intros [].
Defined.

(** The set of invoice IDs on the rows of customer [c]. *)
Definition invoices_of (df : list Clean.row) (c : Z) : gset InvoiceId :=
  list_to_set (omap Clean.InvoiceNo (filter (fun t => Clean.CustomerID t = c) df)).

(** What cleaning guarantees of every row. *)
Definition clean_row (t : Clean.row) : Prop :=
  positive (Clean.Quantity t) ∧ positive (Clean.UnitPrice t) ∧
  Clean.TotalPrice t = mul (Clean.Quantity t) (Clean.UnitPrice t).

(** The sum of a list of integers. *)
Definition Zsum (x : list Z) : Z := foldr Z.add 0 x.

(** A [float64] that is not NaN and not negative. *)
Definition nonnegative (a : Number) : Prop :=
  match a with
  | I64 z => 0 ≤ z
  | F64 (Finite q) => (0 <= q)%Q
  | F64 PosInf => True
  | F64 _ => False
  end.

End spec.

Section spec_frames.
Import config preprocessing train_kmeans app.
Context `{!Extern}.

(** The label columns of the earlier dataset, as line 29 selects them. *)
Definition label_columns : list string := ["CustomerID"; "Cluster"; "Segment"].

Definition labels_of (p : gmap string Cell) : gmap string Cell :=
  filter (fun kv : string * Cell => kv.1 ∈ label_columns) p.

(** The rows after lines 35-36: the RFM row with its cluster ID and the
    name the fixed map gives it. *)
Definition labelled_row (r : RFM) (k : Z) : gmap string Cell :=
  <["Segment" := series_map DEFAULT_SEGMENT_MAP (Int k)]>
    (<["Cluster" := Int k]> (cells r)).



(** The status line of a route's outcome; an unhandled error has none. *)
Definition status_code (r : result Response) : option Z :=
  match r with
  | Ok resp => Some (status resp)
  | Raise _ => None
  end.

(** No dataset file on disk and none cached by the process. *)
Definition dataset_absent (st : state) : Prop :=
  _rfm_df st = None ∧ disk st !! (PROCESSED_DIR </> RFM_FILENAME) = None.

(** The dataset [df] is what the routes read: cached, or on disk with
    nothing cached yet. *)
Definition dataset_served (st : state) (df : DataFrame) : Prop :=
  _rfm_df st = Some df ∨
  (_rfm_df st = None ∧
   disk st !! (PROCESSED_DIR </> RFM_FILENAME) = Some (ParquetFile df)).

End spec_frames.

(** ** Fixtures

    A small store and stand-ins for the external libraries, on which the
    statements below are evaluated. *)

Module fixtures.
Import config data preprocessing.

Definition day (n : Z) : Z := n * Timedelta_day.

(** Three dates of December 2011; any other text is not a date. *)
Definition parse_date (s : string) : result Z :=
  if String.eqb s "2011-12-01 08:26" then Ok (day 15309 + 30360000000000)
  else if String.eqb s "2011-12-05 10:00" then Ok (day 15313 + 36000000000000)
  else if String.eqb s "2011-12-09 12:50" then Ok (day 15317 + 46200000000000)
  else Raise (ValueError s).

(** A missing date is NaT. *)
Definition parse_cell (c : option string) : result (option Z) :=
  match c with
  | None => Ok None
  | Some s => d ← parse_date s; Ok (Some d)
  end.

(** Float arithmetic that is exact on finite values and follows the
    IEEE rules on the others. *)
Definition sign (x : float64) : option bool :=
  match x with
  | Finite q =>
      if decide (0 < q)%Q then Some false
      else if decide (q < 0)%Q then Some true else None
  | PosInf => Some false
  | NegInf => Some true
  | NaN => None
  end.

Definition exact_mul (x y : float64) : float64 :=
  match x, y with
  | Finite a, Finite b => Finite (a * b)
  | _, _ =>
      match sign x, sign y with
      | Some negative, Some negative' => if xorb negative negative' then NegInf else PosInf
      | _, _ => NaN
      end
  end.

Definition exact_add (x y : float64) : float64 :=
  match x, y with
  | Finite a, Finite b => Finite (a + b)
  | NaN, _ | _, NaN => NaN
  | PosInf, NegInf | NegInf, PosInf => NaN
  | PosInf, _ | _, PosInf => PosInf
  | NegInf, _ | _, NegInf => NegInf
  end.

(** The dates of a column parse one by one, float arithmetic is exact,
    features stay as they are, the scaler is the identity, KMeans puts
    every row in its last cluster and DBSCAN calls every row noise. *)
Definition toy : Extern := {|
  to_datetime := mapM parse_cell;
  to_datetime_length := mapM_length parse_cell;
  float64_of_int64 := fun z => Finite (inject_Z z);
  float64_mul := exact_mul;
  float64_sum := foldl exact_add (Finite 0);
  F := float64;
  log1p := fun x => x;
  StandardScaler := unit;
  fit := fun _ => Ok tt;
  transform := fun _ X => Ok X;
  KMeans_fit_predict := fun n_clusters _ X => Ok (map (fun _ => n_clusters - 1) X);
  DBSCAN_fit_predict := fun _ _ X => Ok (map (fun _ => -1) X);
|}.

#[local] Existing Instance toy.

(** A raw row with an integer quantity and a decimal price, as the
    retail file has them. *)
Definition raw (inv : InvoiceId) (qty : Z) (date : string) (price : Q)
    (cust : option Z) : Raw.row :=
  {| Raw.InvoiceNo := Some inv; Raw.StockCode := "85123A"; Raw.Quantity := I64 qty;
     Raw.InvoiceDate := Some date; Raw.UnitPrice := F64 (Finite price);
     Raw.CustomerID := cust |}.

(** Customer 17850 has two rows under invoice 536365 and one under
    536366; the other four rows are each invalid in one way. *)
Definition mixed_batch : list Raw.row :=
  [ raw (InvNum 536365) 6 "2011-12-01 08:26" (255 # 100) (Some 17850);
    raw (InvNum 536365) 2 "2011-12-01 08:26" (339 # 100) (Some 17850);
    raw (InvNum 536366) 1 "2011-12-05 10:00" (185 # 100) (Some 17850);
    raw (InvStr "C536379") 1 "2011-12-05 10:00" (2750 # 100) (Some 14527);
    raw (InvNum 536380) (-3) "2011-12-05 10:00" (165 # 100) (Some 14527);
    raw (InvNum 536381) 4 "2011-12-09 12:50" 0 (Some 14527);
    raw (InvNum 536382) 4 "not a date" (125 # 100) None;
    raw (InvNum 536383) 10 "2011-12-09 12:50" (125 # 100) (Some 13047) ].

Definition clean (inv : InvoiceId) (qty : Z) (date : Z) (price : Q) (cust : Z)
    : Clean.row :=
  {| Clean.InvoiceNo := Some inv; Clean.StockCode := "85123A"; Clean.Quantity := I64 qty;
     Clean.InvoiceDate := Some date; Clean.UnitPrice := F64 (Finite price);
     Clean.CustomerID := cust;
     Clean.TotalPrice := F64 (Finite (inject_Z qty * price)) |}.

Definition two_invoices : list Clean.row :=
  [ clean (InvNum 536365) 6 (day 15309) (255 # 100) 17850;
    clean (InvNum 536365) 2 (day 15309) (339 # 100) 17850;
    clean (InvNum 536366) 1 (day 15313) (185 # 100) 17850 ].

(** Its one RFM row. *)
Definition rfm_two_invoices : RFM :=
  {| CustomerID := 17850; Recency := Some 1; Frequency := 2;
     Monetary := F64 (Finite (23930000 # 1000000)) |}.

(** [mixed_batch] cleaned: its first three rows and its last. *)
Definition cleaned_batch : list Clean.row :=
  [ clean (InvNum 536365) 6 (day 15309 + 30360000000000) (255 # 100) 17850;
    clean (InvNum 536365) 2 (day 15309 + 30360000000000) (339 # 100) 17850;
    clean (InvNum 536366) 1 (day 15313 + 36000000000000) (185 # 100) 17850;
    clean (InvNum 536383) 10 (day 15317 + 46200000000000) (125 # 100) 13047 ].

(** The RFM rows of [cleaned_batch]; sums are left unreduced. *)
Definition rfm_13047 : RFM :=
  {| CustomerID := 13047; Recency := Some 1; Frequency := 1;
     Monetary := F64 (Finite (1250 # 100)) |}.
Definition rfm_17850 : RFM :=
  {| CustomerID := 17850; Recency := Some 5; Frequency := 2;
     Monetary := F64 (Finite (23930000 # 1000000)) |}.

(** *** Integer prices and missing cells

    A file whose prices are all whole numbers: [read_csv] reads the
    quantity and the price as [int64] columns. *)
Definition int_raw (inv : option InvoiceId) (qty : Z) (date : option string) (price : Z)
    (cust : option Z) : Raw.row :=
  {| Raw.InvoiceNo := inv; Raw.StockCode := "21258"; Raw.Quantity := I64 qty;
     Raw.InvoiceDate := date; Raw.UnitPrice := I64 price; Raw.CustomerID := cust |}.

Definition int_clean (inv : option InvoiceId) (qty : Z) (date : option Z) (price : Z)
    (cust : Z) (total : Z) : Clean.row :=
  {| Clean.InvoiceNo := inv; Clean.StockCode := "21258"; Clean.Quantity := I64 qty;
     Clean.InvoiceDate := date; Clean.UnitPrice := I64 price; Clean.CustomerID := cust;
     Clean.TotalPrice := I64 total |}.

(** Customer 17850 has one ordinary row.  The one row of customer 14527
    has no invoice ID and no date.  The one row of customer 13047 has a
    quantity and a price whose product is beyond [int64]. *)
Definition sparse_batch : list Raw.row :=
  [ int_raw (Some (InvNum 536365)) 6 (Some "2011-12-01 08:26") 3 (Some 17850);
    int_raw None 2 None 13 (Some 14527);
    int_raw (Some (InvNum 536390)) 3037000500 (Some "2011-12-05 10:00") 3037000500
            (Some 13047) ].

Definition sparse_cleaned : list Clean.row :=
  [ int_clean (Some (InvNum 536365)) 6 (Some (day 15309 + 30360000000000)) 3 17850 18;
    int_clean None 2 None 13 14527 26;
    int_clean (Some (InvNum 536390)) 3037000500 (Some (day 15313 + 36000000000000))
              3037000500 13047 (-9223372036709301616) ].

(** The RFM rows of customers 14527 and 13047 in [sparse_cleaned]. *)
Definition rfm_undated : RFM :=
  {| CustomerID := 14527; Recency := None; Frequency := 0; Monetary := I64 26 |}.
Definition rfm_wrapped : RFM :=
  {| CustomerID := 13047; Recency := Some 1; Frequency := 1;
     Monetary := I64 (-9223372036709301616) |}.

(** Two valid rows; the text in the date cell of the second is no date. *)
Definition unparsed_batch : list Raw.row :=
  [ int_raw (Some (InvNum 536365)) 6 (Some "2011-12-01 08:26") 3 (Some 17850);
    int_raw (Some (InvNum 536367)) 2 (Some "not a date") 13 (Some 13047) ].

(** Two rows with integer quantities and prices, for one customer. *)
Definition integer_batch : list Raw.row :=
  [ int_raw (Some (InvNum 536400)) 3 (Some "2011-12-05 10:00") 4 (Some 15100);
    int_raw (Some (InvNum 536401)) 5 (Some "2011-12-09 12:50") 2 (Some 15100) ].

Definition integer_cleaned : list Clean.row :=
  [ int_clean (Some (InvNum 536400)) 3 (Some (day 15313 + 36000000000000)) 4 15100 12;
    int_clean (Some (InvNum 536401)) 5 (Some (day 15317 + 46200000000000)) 2 15100 10 ].

Definition rfm_15100 : RFM :=
  {| CustomerID := 15100; Recency := Some 1; Frequency := 2; Monetary := I64 22 |}.

(** *** Stores *)

(** Only the raw file: no trainer has run. *)
Definition untrained : gmap string File :=
  {[ RAW_DATA_PATH := CsvFile mixed_batch ]}.

(** The centroid trainer has run, with four clusters, when customer
    17850 was the only one in the raw file. *)
Definition after_kmeans : gmap string File :=
  (train_kmeans.train_and_save 4 42 true
     {[ RAW_DATA_PATH := CsvFile (take 3 mixed_batch) ]}).2.

(** The dataset that run persisted. *)
Definition kmeans_dataset : DataFrame :=
  {| columns := ["CustomerID"; "Recency"; "Frequency"; "Monetary"; "Cluster"; "Segment"];
     rows := [ {[ "CustomerID" := Int 17850; "Recency" := Int 1; "Frequency" := Int 2;
                  "Monetary" := Num (23930000 # 1000000);
                  "Cluster" := Int 3; "Segment" := Str "Low Value" ]} ] |}.

(** Since then the raw file has gained customer 13047. *)
Definition new_customer : gmap string File :=
  <[ RAW_DATA_PATH := CsvFile mixed_batch ]> after_kmeans.

(** What the density trainer computes on [new_customer] before the join,
    and the store it has then written its model to. *)
Definition fresh_table : DataFrame :=
  {| columns := ["CustomerID"; "Recency"; "Frequency"; "Monetary"; "DBSCAN_Cluster"];
     rows := [ {[ "CustomerID" := Int 13047; "Recency" := Int 1; "Frequency" := Int 1;
                  "Monetary" := Num (1250 # 100); "DBSCAN_Cluster" := Int (-1) ]};
               {[ "CustomerID" := Int 17850; "Recency" := Int 5; "Frequency" := Int 2;
                  "Monetary" := Num (23930000 # 1000000);
                  "DBSCAN_Cluster" := Int (-1) ]} ] |}.

Definition dbscan_dumped : gmap string File :=
  <[ MODELS_DIR </> DBSCAN_FILENAME := JoblibFile (DBSCANObj (1 # 2) 5 [-1; -1]) ]>
    new_customer.

(** The join: 13047 is new and has null labels, 17850 keeps its own. *)
Definition merged_table : DataFrame :=
  {| columns := ["CustomerID"; "Recency"; "Frequency"; "Monetary"; "DBSCAN_Cluster";
                 "Cluster"; "Segment"];
     rows := [ {[ "CustomerID" := Int 13047; "Recency" := Int 1; "Frequency" := Int 1;
                  "Monetary" := Num (1250 # 100); "DBSCAN_Cluster" := Int (-1);
                  "Cluster" := Null; "Segment" := Null ]};
               {[ "CustomerID" := Int 17850; "Recency" := Int 5; "Frequency" := Int 2;
                  "Monetary" := Num (23930000 # 1000000);
                  "DBSCAN_Cluster" := Int (-1);
                  "Cluster" := Int 3; "Segment" := Str "Low Value" ]} ] |}.

(** *** The service *)

Fixpoint digits (s : string) (acc : Z) : option Z :=
  match s with
  | EmptyString => Some acc
  | String c s' =>
      let d := Z.of_nat (Ascii.nat_of_ascii c) - 48 in
      if bool_decide (0 ≤ d ≤ 9) then digits s' (10 * acc + d) else None
  end.

(** [float] and [int] on unsigned decimal literals only, counts in order
    of first appearance, and no group statistics. *)
Definition builtins : app.Builtins := {|
  app.py_float := fun s =>
    match s with
    | EmptyString => None
    | _ => (fun n => Finite (inject_Z n)) <$> digits s 0
    end;
  app.py_int := fun s => match s with EmptyString => None | _ => digits s 0 end;
  app.value_counts := fun x =>
    let names := omap (fun c => match c with Str name => Some name | _ => None end) x in
    map (fun name => (name, Z.of_nat (length (filter (fun n => n = name) names))))
        (remove_dups names);
  app.segment_stats := fun _ => Ok (app.JList []);
  app.segment_means := fun _ => Ok (app.JList []);
|}.

#[local] Existing Instance builtins.

(** A process started before any training. *)
Definition cold : app.state := {| app.disk := untrained; app._rfm_df := None |}.

(** A process started after the centroid run, before its first request. *)
Definition warm : app.state := {| app.disk := after_kmeans; app._rfm_df := None |}.

(** The same process after it has answered one request and the dataset
    file has then been removed from disk. *)
Definition stale : app.state :=
  let st := (app.analytics_customer "17850" warm).2 in
  {| app.disk := delete (PROCESSED_DIR </> RFM_FILENAME) (app.disk st);
     app._rfm_df := app._rfm_df st |}.
End fixtures.

(** ** app/app.py, the cached handles and the health route

    The getters of lines 36-62 and the route of lines 320-340.  The four
    handles are module-level variables of their own; the getters read the
    disk and never write it. *)

Module app_handles.
Import config.

Section handles.
Context `{!Extern}.

Record handles := {
  _scaler : option Artifact;
  _kmeans : option Artifact;
  _dbscan : option Artifact;
  _segment_map : option Artifact;
}.

Definition set_scaler (obj : Artifact) (h : handles) : handles :=
  {| _scaler := Some obj; _kmeans := _kmeans h; _dbscan := _dbscan h;
     _segment_map := _segment_map h |}.

Definition set_kmeans (obj : Artifact) (h : handles) : handles :=
  {| _scaler := _scaler h; _kmeans := Some obj; _dbscan := _dbscan h;
     _segment_map := _segment_map h |}.

Definition set_dbscan (obj : Artifact) (h : handles) : handles :=
  {| _scaler := _scaler h; _kmeans := _kmeans h; _dbscan := Some obj;
     _segment_map := _segment_map h |}.

Definition set_segment_map (obj : Artifact) (h : handles) : handles :=
  {| _scaler := _scaler h; _kmeans := _kmeans h; _dbscan := _dbscan h;
     _segment_map := Some obj |}.

Definition get_scaler (fs : gmap string File) (h : handles) : result Artifact * handles :=
  match _scaler h with
  | None =>
      match joblib_load (MODELS_DIR </> "scaler.joblib") fs with
      | (Ok obj, _) => (Ok obj, set_scaler obj h)
      | (Raise e, _) => (Raise e, h)
      end
  | Some obj => (Ok obj, h)
  end.

Definition get_kmeans (fs : gmap string File) (h : handles) : result Artifact * handles :=
  match _kmeans h with
  | None =>
      match joblib_load (MODELS_DIR </> "kmeans.joblib") fs with
      | (Ok obj, _) => (Ok obj, set_kmeans obj h)
      | (Raise e, _) => (Raise e, h)
      end
  | Some obj => (Ok obj, h)
  end.

Definition get_segment_map (fs : gmap string File) (h : handles) : result Artifact * handles :=
  match _segment_map h with
  | None =>
      match joblib_load (MODELS_DIR </> "segment_map.joblib") fs with
      | (Ok obj, _) => (Ok obj, set_segment_map obj h)
      | (Raise e, _) => (Raise e, h)
      end
  | Some obj => (Ok obj, h)
  end.

(** [path.exists()] *)
Definition exists_ (path : string) (fs : gmap string File) : bool :=
  bool_decide (is_Some (fs !! path)).

(** [get_dbscan] loads only while the handle is empty and the file exists,
    and returns the handle, which may still be [None]. *)
Definition get_dbscan (fs : gmap string File) (h : handles)
  : result (option Artifact) * handles :=
  let path := MODELS_DIR </> "dbscan.joblib" in
  match _dbscan h with
  | None =>
      if exists_ path fs then
        match joblib_load path fs with
        | (Ok obj, _) => (Ok (Some obj), set_dbscan obj h)
        | (Raise e, _) => (Raise e, h)
        end
      else (Ok None, h)
  | Some obj => (Ok (Some obj), h)
  end.

(** The body of the health response. *)
Record Health := {
  status : string;
  models_loaded : bool;
  dbscan_loaded : bool;
  rfm_data_available : bool;
}.

Definition health (fs : gmap string File) : Health :=
  let models_ok := exists_ (MODELS_DIR </> "scaler.joblib") fs
                   && exists_ (MODELS_DIR </> "kmeans.joblib") fs in
  let dbscan_ok := exists_ (MODELS_DIR </> "dbscan.joblib") fs in
  let rfm_ok := exists_ (PROCESSED_DIR </> RFM_FILENAME) fs in
  {| status := "ok"; models_loaded := models_ok; dbscan_loaded := dbscan_ok;
     rfm_data_available := rfm_ok |}.
End handles.
End app_handles.

(** ** Notions for the further properties *)

Section more_notions.
Import data preprocessing.

(** The date of the latest invoice of customer [c]. *)
Definition last_invoice (df : list Clean.row) (c : Z) : option Z :=
  series_max (Clean.InvoiceDate <$> group df c).

End more_notions.

Section more_notions_service.
Import config app.
Context `{!Extern, !Builtins}.

(** The rows that [rfm[rfm["CustomerID"] == cid]] selects. *)
Definition matching_rows (df : DataFrame) (cid : PyFloat) : list (gmap string Cell) :=
  filter (fun r => cell_eq_float (default Null (r !! "CustomerID")) cid = true) (rows df).

(** A computation of the service that neither reads nor writes the
    process state. *)
Definition stateless {A} (m : App A) : Prop := ∃ r, ∀ st, m st = (r, st).

End more_notions_service.

(** ** Further fixtures *)

Module more_fixtures.
Import config data preprocessing fixtures.
#[local] Existing Instance toy.

(** The raw file when customer 17850 was the only one. *)
Definition one_customer : gmap string File :=
  {[ RAW_DATA_PATH := CsvFile (take 3 mixed_batch) ]}.

(** The density trainer on [after_kmeans], before its join. *)
Definition fresh_one : DataFrame :=
  {| columns := ["CustomerID"; "Recency"; "Frequency"; "Monetary"; "DBSCAN_Cluster"];
     rows := [ {[ "CustomerID" := Int 17850; "Recency" := Int 1; "Frequency" := Int 2;
                  "Monetary" := Num (23930000 # 1000000);
                  "DBSCAN_Cluster" := Int (-1) ]} ] |}.

Definition dumped_one : gmap string File :=
  <[ MODELS_DIR </> DBSCAN_FILENAME := JoblibFile (DBSCANObj (1 # 2) 5 [-1]) ]> after_kmeans.

(** The store after the density run on [new_customer]. *)
Definition after_dbscan : gmap string File :=
  <[ PROCESSED_DIR </> RFM_FILENAME := ParquetFile merged_table ]> dbscan_dumped.

(** A process started after that density run. *)
Definition merged : app.state := {| app.disk := after_dbscan; app._rfm_df := None |}.

(** A process that finds only a dataset written by the density trainer
    with no centroid run before it. *)
Definition density_only : app.state :=
  {| app.disk := {[ PROCESSED_DIR </> RFM_FILENAME := ParquetFile fresh_table ]};
     app._rfm_df := None |}.

(** The rows of customers 17850 and 13047 in those datasets. *)
Definition fresh_17850 : gmap string Cell :=
  {[ "CustomerID" := Int 17850; "Recency" := Int 5; "Frequency" := Int 2;
     "Monetary" := Num (23930000 # 1000000); "DBSCAN_Cluster" := Int (-1) ]}.

Definition merged_13047 : gmap string Cell :=
  {[ "CustomerID" := Int 13047; "Recency" := Int 1; "Frequency" := Int 1;
     "Monetary" := Num (1250 # 100); "DBSCAN_Cluster" := Int (-1);
     "Cluster" := Null; "Segment" := Null ]}.

(** No handle loaded yet. *)
Definition no_handles : app_handles.handles :=
  {| app_handles._scaler := None; app_handles._kmeans := None;
     app_handles._dbscan := None; app_handles._segment_map := None |}.
End more_fixtures.

(** * Properties *)

(** ** Cleaning (src/data.py) *)

Section cleaning.
Import data.
Context `{!Extern}.

(** The rows that reach lines 18-19, each with its customer ID. *)
Definition kept (df : list Raw.row) : list (Z * Raw.row) :=
  filter (fun cr => not_cancelled cr.2)
    (filter (fun cr => positive (Raw.UnitPrice cr.2))
       (filter (fun cr => positive (Raw.Quantity cr.2)) (dropna df))).

(** Lines 18-19 on one of them: the row of the returned table. *)
Definition finish_row (c : Z) (r : Raw.row) (date : option Z) : Clean.row :=
  assign (c, r) (mul (Raw.Quantity r) (Raw.UnitPrice r)) date.

Lemma zip_assign (l : list (Z * Raw.row)) (dates : list (option Z)) :
  zip_with (fun ct date => assign ct.1 ct.2 date)
    (zip l ((fun cr => mul (Raw.Quantity cr.2) (Raw.UnitPrice cr.2)) <$> l)) dates
  = zip_with (fun cr date => finish_row cr.1 cr.2 date) l dates.
Proof.
  revert dates. induction l as [|[c r] l IH]; intros [|d dates]; simpl; try done.
  by rewrite IH.
Qed.

Lemma clean_transactions_kept (df : list Raw.row) :
  clean_transactions df
  = (InvoiceDate ← to_datetime ((fun cr => Raw.InvoiceDate cr.2) <$> kept df);
     Ok (zip_with (fun cr date => finish_row cr.1 cr.2 date) (kept df) InvoiceDate)).
Proof.
  unfold clean_transactions. fold (kept df).
  destruct (to_datetime _) as [dates|e]; simpl; [|done].
  by rewrite zip_assign.
Qed.

Lemma kept_cons (r : Raw.row) (df : list Raw.row) :
  kept (r :: df)
  = match Raw.CustomerID r with
    | Some c => if decide (spec_valid_row r) then (c, r) :: kept df else kept df
    | None => kept df
    end.
Proof.
  unfold kept, dropna. simpl.
  destruct (Raw.CustomerID r) as [c|] eqn:Hc; simpl; [|done].
  rewrite !filter_cons. simpl.
  destruct (decide (spec_valid_row r)) as [Hv|Hv].
  - destruct Hv as (_ & Hq & Hp & Hn).
    rewrite decide_True by done. rewrite filter_cons. simpl.
    rewrite decide_True by done. rewrite filter_cons. simpl.
    by rewrite decide_True by done.
  - destruct (decide (positive (Raw.Quantity r))) as [Hq|Hq]; [|done].
    rewrite filter_cons. simpl.
    destruct (decide (positive (Raw.UnitPrice r))) as [Hp|Hp]; [|done].
    rewrite filter_cons. simpl.
    destruct (decide (not_cancelled r)) as [Hn|Hn]; [|done].
    destruct Hv. unfold spec_valid_row. rewrite Hc. eauto.
Qed.

(** The four successive filters keep the rows that are valid, in order,
    and [dropna] pairs each with its own customer ID. *)
Lemma kept_rows (df : list Raw.row) : (kept df).*2 = filter spec_valid_row df.
Proof.
  induction df as [|r df IH]; [done|].
  rewrite kept_cons, filter_cons.
  destruct (Raw.CustomerID r) as [c|] eqn:Hc.
  - destruct (decide (spec_valid_row r)); [|done]. by rewrite fmap_cons, IH.
  - rewrite decide_False; [done|]. intros ([c Hc'] & _). congruence.
Qed.

Lemma kept_ids (df : list Raw.row) :
  Forall (fun cr => Raw.CustomerID cr.2 = Some cr.1) (kept df).
Proof.
  induction df as [|r df IH]; [constructor|].
  rewrite kept_cons.
  destruct (Raw.CustomerID r) as [c|] eqn:Hc; [|done].
  destruct (decide (spec_valid_row r)); [|done]. by constructor.
Qed.

Lemma kept_dates (df : list Raw.row) :
  (fun cr => Raw.InvoiceDate cr.2) <$> kept df
  = Raw.InvoiceDate <$> filter spec_valid_row df.
Proof. by rewrite <- kept_rows, <- list_fmap_compose. Qed.

Lemma finish_row_cleaned (c : Z) (r : Raw.row) (date : option Z) :
  Raw.CustomerID r = Some c -> cleaned_from r (finish_row c r date).
Proof. intros Hc. unfold cleaned_from. simpl. by rewrite Hc. Qed.

Lemma zip_finish_rows (l : list (Z * Raw.row)) (dates : list (option Z)) :
  Forall (fun cr => Raw.CustomerID cr.2 = Some cr.1) l ->
  length dates = length l ->
  Clean.InvoiceDate <$> zip_with (fun cr date => finish_row cr.1 cr.2 date) l dates = dates ∧
  Forall2 cleaned_from l.*2 (zip_with (fun cr date => finish_row cr.1 cr.2 date) l dates).
Proof.
  intros Hids. revert dates.
  induction Hids as [|[c r] l Hc _ IH]; intros [|d dates] Hlen; try discriminate.
  - split; [done|constructor].
  - simpl in Hlen. destruct (IH dates) as [Hd Hall]; [lia|].
    split.
    + rewrite <- Hd at 2. reflexivity.
    + simpl. constructor; [|done]. by apply finish_row_cleaned.
Qed.

(** When the parser returns, cleaning returns the valid rows. *)
Lemma clean_transactions_Ok (df : list Raw.row) (dates : list (option Z)) :
  to_datetime (Raw.InvoiceDate <$> filter spec_valid_row df) = Ok dates ->
  ∃ out, clean_transactions df = Ok out ∧
    Clean.InvoiceDate <$> out = dates ∧
    Forall2 cleaned_from (filter spec_valid_row df) out.
Proof.
  intros Hdates. rewrite clean_transactions_kept, kept_dates, Hdates. simpl.
  eexists. split; [reflexivity|].
  rewrite <- kept_rows. apply zip_finish_rows; [apply kept_ids|].
  apply to_datetime_length in Hdates.
  by rewrite Hdates, <- kept_rows, !length_fmap.
Qed.

(** Whenever cleaning returns, the parser has returned the dates of its
    rows, which come one for one, in order, from the valid rows of the
    input. *)
Lemma clean_transactions_rows (df : list Raw.row) (out : list Clean.row) :
  clean_transactions df = Ok out ->
  to_datetime (Raw.InvoiceDate <$> filter spec_valid_row df)
    = Ok (Clean.InvoiceDate <$> out) ∧
  Forall2 cleaned_from (filter spec_valid_row df) out.
Proof.
  destruct (to_datetime (Raw.InvoiceDate <$> filter spec_valid_row df))
    as [dates|e] eqn:Hdates.
  - destruct (clean_transactions_Ok df dates Hdates) as (out' & -> & <- & Hall).
    by intros [= <-].
  - rewrite clean_transactions_kept, kept_dates, Hdates. discriminate.
Qed.

Lemma clean_transactions_Raise (df : list Raw.row) (e : exn) :
  clean_transactions df = Raise e ↔
  to_datetime (Raw.InvoiceDate <$> filter spec_valid_row df) = Raise e.
Proof.
  rewrite clean_transactions_kept, kept_dates.
  destruct (to_datetime (Raw.InvoiceDate <$> filter spec_valid_row df)); simpl;
    [split; discriminate|split; by intros [= ->]].
Qed.

Lemma wrap64_id (z : Z) : in_int64 z -> wrap64 z = z.
Proof. unfold in_int64, wrap64. intros Hz. rewrite Z.mod_small; lia. Qed.

Lemma mul_exact (a b : Number) (z : Z) :
  exact_price a b = Some z -> in_int64 z -> mul a b = I64 z.
Proof.
  destruct a as [x|x], b as [y|y]; simpl; try discriminate.
  intros [= <-] Hz. by rewrite wrap64_id.
Qed.

(** C4 (amended). For every input table, [clean_transactions] returns
    exactly when [pd.to_datetime] returns on the date column of the rows
    with a customer ID, quantity > 0, unit price > 0 and an invoice text
    that does not start with "C".  What it returns is, in order and one
    for one, exactly those rows: each carries the raw row's fields, its
    date parsed, and [TotalPrice = Quantity * UnitPrice] in the arithmetic
    of the columns, which is the exact product when both are integers and
    the product is an [int64]. *)
Theorem C4_clean_transactions_exact (df : list Raw.row) :
  (∀ dates,
     to_datetime (Raw.InvoiceDate <$> filter spec_valid_row df) = Ok dates ->
     ∃ out, clean_transactions df = Ok out) ∧
  (∀ out, clean_transactions df = Ok out ->
     to_datetime (Raw.InvoiceDate <$> filter spec_valid_row df)
       = Ok (Clean.InvoiceDate <$> out) ∧
     Forall2 cleaned_from (filter spec_valid_row df) out ∧
     (∀ r, r ∈ df -> (∃ t, t ∈ out ∧ cleaned_from r t) ↔ spec_valid_row r) ∧
     (∀ t z, t ∈ out ->
        exact_price (Clean.Quantity t) (Clean.UnitPrice t) = Some z -> in_int64 z ->
        Clean.TotalPrice t = I64 z)).
Proof.
  split.
  - intros dates Hdates.
    destruct (clean_transactions_Ok df dates Hdates) as (out & Hout & _). eauto.
  - intros out [Hdates Hrows]%clean_transactions_rows.
    split; [done|]. split; [done|]. split.
    + intros r Hin. split.
      * intros (t & Ht & Hrt).
        destruct (proj1 (list_elem_of_lookup out t) Ht) as [i Hi].
        destruct (Forall2_lookup_r _ _ _ _ _ Hrows Hi) as (r' & Hr' & Hc).
        apply list_elem_of_lookup_2, list_elem_of_filter in Hr' as [Hv _].
        destruct Hv as (_ & Hq & Hp & Hn), Hc as (Hi1 & _ & Hq1 & Hp1 & _).
        destruct Hrt as (Hi2 & _ & Hq2 & Hp2 & Hc2 & _).
        unfold spec_valid_row.
        rewrite <- Hi2, Hi1, <- Hq2, Hq1, <- Hp2, Hp1, Hc2. eauto.
      * intros Hr.
        assert (r ∈ filter spec_valid_row df) as Hf by (by apply list_elem_of_filter).
        destruct (proj1 (list_elem_of_lookup _ r) Hf) as [i Hi].
        destruct (Forall2_lookup_l _ _ _ _ _ Hrows Hi) as (t & Ht & Hc).
        exists t. split; [|done]. apply list_elem_of_lookup. eauto.
    + intros t z Ht Hz Hrange.
      destruct (proj1 (list_elem_of_lookup out t) Ht) as [i Hi].
      destruct (Forall2_lookup_r _ _ _ _ _ Hrows Hi) as (r' & _ & Hc).
      destruct Hc as (_ & _ & _ & _ & _ & ->). by apply mul_exact.
Qed.
End cleaning.

(** ** RFM features (src/preprocessing.py) *)

Section rfm.
Import data preprocessing.
Context `{!Extern}.

Lemma foldl_max_ge_init (l : list Z) (t : Z) : t ≤ foldl Z.max t l.
Proof.
  revert t. induction l as [|x l IH]; intros t; simpl; [lia|].
  specialize (IH (Z.max t x)). lia.
Qed.

Lemma foldl_max_upper (l : list Z) (t x : Z) : x ∈ l -> x ≤ foldl Z.max t l.
Proof.
  revert t. induction l as [|y l IH]; intros t; simpl.
  - by intros ?%elem_of_nil.
  - intros [->|Hx]%elem_of_cons; [|by apply IH].
    pose proof (foldl_max_ge_init l (Z.max t y)). lia.
Qed.

Lemma foldl_max_elem (l : list Z) (t : Z) :
  foldl Z.max t l = t ∨ foldl Z.max t l ∈ l.
Proof.
  revert t. induction l as [|y l IH]; intros t; simpl; [by left|].
  destruct (IH (Z.max t y)) as [->|Hin].
  - destruct (Z.max_spec t y) as [[_ ->]|[_ ->]]; [right; left|by left].
  - right. by right.
Qed.

Lemma elem_of_present (x : list (option Z)) (t : Z) : t ∈ omap id x ↔ Some t ∈ x.
Proof.
  rewrite list_elem_of_omap. split.
  - intros (o & Ho & Heq). simpl in Heq. by subst.
  - intros Ht. by exists (Some t).
Qed.

(** The maximum is the latest of the timestamps that are present. *)
Lemma series_max_spec (x : list (option Z)) (m : Z) :
  series_max x = Some m -> Some m ∈ x ∧ ∀ t, Some t ∈ x -> t ≤ m.
Proof.
  unfold series_max.
  destruct (omap id x) as [|t0 l] eqn:Hx; [discriminate|]. intros [= <-]. split.
  - apply elem_of_present. rewrite Hx.
    destruct (foldl_max_elem l t0) as [->|Hin]; [left|by right].
  - intros t Ht%elem_of_present. rewrite Hx in Ht.
    apply elem_of_cons in Ht as [->|Ht];
      [apply foldl_max_ge_init|by apply foldl_max_upper].
Qed.

Lemma series_max_is_Some (x : list (option Z)) (t : Z) :
  Some t ∈ x -> is_Some (series_max x).
Proof.
  intros Ht%elem_of_present. unfold series_max.
  destruct (omap id x); [by apply elem_of_nil in Ht|]. eauto.
Qed.

(** It is NaT exactly when every timestamp is NaT. *)
Lemma series_max_None (x : list (option Z)) :
  series_max x = None ↔ ∀ o, o ∈ x -> o = None.
Proof.
  split.
  - intros Hnone [t|] Ho; [|done].
    destruct (series_max_is_Some x t Ho) as [m Hm]. congruence.
  - intros Hall. destruct (series_max x) as [m|] eqn:Hm; [|done].
    apply series_max_spec in Hm as [Hm _]. by apply Hall in Hm.
Qed.

Lemma elem_of_group_keys (df : list Clean.row) (c : Z) :
  c ∈ group_keys df ↔ ∃ t, t ∈ df ∧ Clean.CustomerID t = c.
Proof.
  unfold group_keys. rewrite merge_sort_Permutation, elem_of_remove_dups.
  rewrite list_elem_of_fmap. split.
  - intros (t & -> & Ht). eauto.
  - intros (t & Ht & <-). eauto.
Qed.

Lemma elem_of_group (df : list Clean.row) (c : Z) (t : Clean.row) :
  t ∈ group df c ↔ Clean.CustomerID t = c ∧ t ∈ df.
Proof. unfold group. by rewrite list_elem_of_filter. Qed.

(** Every output row is the aggregate of a non-empty group. *)
Lemma elem_of_compute_rfm (df : list Clean.row) (r : RFM) :
  r ∈ compute_rfm df ->
  ∃ t, t ∈ group df (CustomerID r) ∧
       r = agg (snapshot_date df) (CustomerID r) (group df (CustomerID r)).
Proof.
  unfold compute_rfm.
  intros (c & -> & Hc)%list_elem_of_fmap.
  apply elem_of_group_keys in Hc as (t & Ht & Hct).
  exists t. split; [|done]. simpl. by apply elem_of_group.
Qed.

(** The dates of customer [c], NaT included. *)
Lemma elem_of_group_dates (df : list Clean.row) (c : Z) (o : option Z) :
  o ∈ map Clean.InvoiceDate (group df c) ↔
  ∃ t, t ∈ df ∧ Clean.CustomerID t = c ∧ Clean.InvoiceDate t = o.
Proof.
  change (o ∈ Clean.InvoiceDate <$> group df c ↔
          ∃ t, t ∈ df ∧ Clean.CustomerID t = c ∧ Clean.InvoiceDate t = o).
  rewrite list_elem_of_fmap. split.
  - intros (t & -> & [Hc Ht]%elem_of_group). eauto.
  - intros (t & Ht & Hc & <-). exists t. split; [done|]. by apply elem_of_group.
Qed.

(** The Recency of a customer who has a dated row: whole days from that
    customer's latest date to the day after the table's latest date. *)
Lemma recency_of_row (df : list Clean.row) (r : RFM) (t : Clean.row) (d : Z) :
  r ∈ compute_rfm df ->
  t ∈ df -> Clean.CustomerID t = CustomerID r -> Clean.InvoiceDate t = Some d ->
  ∃ latest own,
    series_max (Clean.InvoiceDate <$> df) = Some latest ∧
    last_invoice df (CustomerID r) = Some own ∧
    d ≤ own ∧ own ≤ latest ∧
    Recency r = Some (days (latest + Timedelta_day - own)).
Proof.
  intros (t0 & _ & Hr)%elem_of_compute_rfm Ht Hc Hd.
  destruct (series_max_is_Some (Clean.InvoiceDate <$> group df (CustomerID r)) d)
    as [own Hown].
  { apply elem_of_group_dates. eauto. }
  destruct (series_max_is_Some (Clean.InvoiceDate <$> df) d) as [latest Hlatest].
  { rewrite <- Hd. by apply list_elem_of_fmap_2. }
  exists latest, own. split; [done|]. split; [done|].
  pose proof (series_max_spec _ _ Hown) as [Hin Hle].
  pose proof (series_max_spec _ _ Hlatest) as [_ Hall].
  split; [|split].
  - apply Hle, elem_of_group_dates. eauto.
  - apply elem_of_group_dates in Hin as (t' & Ht' & _ & Hd').
    apply Hall. rewrite <- Hd'. by apply list_elem_of_fmap_2.
  - rewrite Hr at 1. simpl. unfold snapshot_date.
    change (map Clean.InvoiceDate) with (fmap (M:=list) Clean.InvoiceDate).
    by rewrite Hown, Hlatest.
Qed.

Lemma days_ge_1 (latest own : Z) : own ≤ latest -> 1 ≤ days (latest + Timedelta_day - own).
Proof.
  intros Hle. unfold days. apply Z.div_le_lower_bound; [done|].
  unfold Timedelta_day in *. lia.
Qed.

Lemma compute_rfm_recency (df : list Clean.row) (r : RFM) :
  r ∈ compute_rfm df ->
  (∃ t, t ∈ df ∧ Clean.CustomerID t = CustomerID r ∧ is_Some (Clean.InvoiceDate t)) ->
  ∃ n, Recency r = Some n ∧ 1 ≤ n.
Proof.
  intros Hr (t & Ht & Hc & [d Hd]).
  destruct (recency_of_row df r t d Hr Ht Hc Hd) as (latest & own & _ & _ & _ & Hle & ->).
  eexists. split; [done|]. by apply days_ge_1.
Qed.

(** A customer none of whose rows has a date has a NaN Recency. *)
Lemma compute_rfm_recency_nan (df : list Clean.row) (r : RFM) :
  r ∈ compute_rfm df ->
  (∀ t, t ∈ df -> Clean.CustomerID t = CustomerID r -> Clean.InvoiceDate t = None) ->
  Recency r = None.
Proof.
  intros (t0 & _ & ->)%elem_of_compute_rfm Hnone. simpl.
  assert (series_max (map Clean.InvoiceDate (group df (CustomerID r))) = None) as ->.
  { apply series_max_None. intros o (t & Ht & Hc & <-)%elem_of_group_dates.
    by apply Hnone. }
  unfold recency. by destruct (snapshot_date df).
Qed.

Lemma omap_id_fmap {A B} (f : A -> option B) (l : list A) : omap id (map f l) = omap f l.
Proof.
  induction l as [|a l IH]; [done|]. cbn. destruct (f a); cbn; [f_equal|]; exact IH.
Qed.

Lemma compute_rfm_frequency (df : list Clean.row) (r : RFM) :
  r ∈ compute_rfm df ->
  Frequency r = Z.of_nat (size (invoices_of df (CustomerID r))).
Proof.
  intros (t & _ & ->)%elem_of_compute_rfm. simpl.
  unfold nunique, invoices_of, group. f_equal. rewrite omap_id_fmap.
  rewrite <- (size_list_to_set (C:=gset InvoiceId) (remove_dups _))
    by apply NoDup_remove_dups.
  f_equal. apply set_eq. intros i.
  by rewrite !elem_of_list_to_set, elem_of_remove_dups.
Qed.

Lemma compute_rfm_customer (df : list Clean.row) (t : Clean.row) :
  t ∈ df -> ∃ r, r ∈ compute_rfm df ∧ CustomerID r = Clean.CustomerID t.
Proof.
  intros Ht. unfold compute_rfm. eexists. split.
  - apply list_elem_of_fmap_2, elem_of_group_keys. eauto.
  - done.
Qed.

(** C5. Every customer of a cleaned table has a row in the RFM table, and
    the Frequency of a row of that customer is the number of distinct
    invoice IDs on the customer's rows (not the number of those rows). *)
Theorem C5_frequency_counts_distinct_invoices (df : list Clean.row) (t : Clean.row) :
  t ∈ df ->
  let c := Clean.CustomerID t in
  (∃ r, r ∈ compute_rfm df ∧ CustomerID r = c) ∧
  (∀ r, r ∈ compute_rfm df -> CustomerID r = c ->
        Frequency r = Z.of_nat (size (invoices_of df c))).
Proof.
  intros Ht c. split.
  - by apply compute_rfm_customer.
  - intros r Hr <-. by apply compute_rfm_frequency.
Qed.
End rfm.

Section rfm_bounds.
Import data preprocessing.
Context `{!Extern}.

Lemma compute_rfm_frequency_pos (df : list Clean.row) (r : RFM) :
  r ∈ compute_rfm df ->
  (∃ t, t ∈ group df (CustomerID r) ∧ is_Some (Clean.InvoiceNo t)) ->
  1 ≤ Frequency r.
Proof.
  intros (t0 & _ & ->)%elem_of_compute_rfm (t & Ht & [i Hi]). simpl.
  unfold nunique. rewrite omap_id_fmap.
  assert (i ∈ remove_dups (omap Clean.InvoiceNo (group df (CustomerID r)))) as Hin.
  { apply elem_of_remove_dups, list_elem_of_omap. eauto. }
  destruct (remove_dups _); [by apply elem_of_nil in Hin|]. simpl. lia.
Qed.

Lemma compute_rfm_frequency_zero (df : list Clean.row) (r : RFM) :
  r ∈ compute_rfm df ->
  (∀ t, t ∈ group df (CustomerID r) -> Clean.InvoiceNo t = None) ->
  Frequency r = 0.
Proof.
  intros (t0 & _ & ->)%elem_of_compute_rfm Hnone. simpl.
  unfold nunique. rewrite omap_id_fmap.
  destruct (omap Clean.InvoiceNo (group df (CustomerID r))) as [|i l] eqn:Hl; [done|].
  assert (i ∈ omap Clean.InvoiceNo (group df (CustomerID r))) as Hin
    by (rewrite Hl; left).
  apply list_elem_of_omap in Hin as (t & Ht & Hi).
  rewrite (Hnone t Ht) in Hi. discriminate.
Qed.

Lemma clean_transactions_clean_row (raw : list Raw.row) (df : list Clean.row) :
  clean_transactions raw = Ok df -> Forall clean_row df.
Proof.
  intros [_ Hrows]%clean_transactions_rows.
  assert (Forall spec_valid_row (filter spec_valid_row raw)) as Hvalid.
  { apply Forall_forall. by intros r [? _]%list_elem_of_filter. }
  induction Hrows as [|r t l k Hc _ IH]; constructor.
  - apply Forall_cons in Hvalid as [(_ & Hq & Hp & _) _].
    destruct Hc as (_ & _ & Hq' & Hp' & _ & Htot).
    split; [by rewrite Hq'|split; [by rewrite Hp'|done]].
  - apply IH. by apply Forall_cons in Hvalid as [_ ?].
Qed.

Lemma foldl_add_Zsum (x : list Z) (acc : Z) : foldl Z.add acc x = acc + Zsum x.
Proof.
  revert acc. induction x as [|z x IH]; intros acc; simpl; [lia|].
  rewrite IH. lia.
Qed.

Lemma Zsum_nonneg (x : list Z) : Forall (fun z => 0 < z) x -> 0 ≤ Zsum x.
Proof. induction 1 as [|z x Hz _ IH]; simpl; lia. Qed.

Lemma exact_prices_pos (g : list Clean.row) (prices : list Z) :
  Forall clean_row g ->
  Forall2 (fun t z => exact_price (Clean.Quantity t) (Clean.UnitPrice t) = Some z) g prices ->
  Forall (fun z => 0 < z) prices.
Proof.
  intros Hclean Hall. revert Hclean.
  induction Hall as [|t z g prices Hz Hall IH]; intros Hclean; [constructor|].
  apply Forall_cons in Hclean as [(Hq & Hp & _) Hclean].
  constructor; [|by apply IH].
  destruct (Clean.Quantity t) as [q|x], (Clean.UnitPrice t) as [p|y]; try discriminate.
  simpl in Hz, Hq, Hp. injection Hz as <-. by apply Z.mul_pos_pos.
Qed.

Lemma exact_prices_column (g : list Clean.row) (prices : list Z) :
  Forall clean_row g ->
  Forall2 (fun t z => exact_price (Clean.Quantity t) (Clean.UnitPrice t) = Some z) g prices ->
  Zsum prices < 2 ^ 63 ->
  int64_column (map Clean.TotalPrice g) = Some prices.
Proof.
  intros Hclean Hall. revert Hclean.
  induction Hall as [|t z g prices Hz Hall IH]; intros Hclean Hsum; [done|].
  assert (Forall (fun z => 0 < z) (z :: prices)) as Hpos
    by (apply (exact_prices_pos (t :: g)); [done|by constructor]).
  apply Forall_cons in Hpos as [Hzpos Hpos]. apply Zsum_nonneg in Hpos.
  apply Forall_cons in Hclean as [(_ & _ & Htot) Hclean].
  simpl in Hsum. simpl. rewrite Htot, (mul_exact _ _ z Hz) by (unfold in_int64; lia).
  rewrite IH by (done || lia). done.
Qed.

(** A group of rows whose quantities and prices are integers, with an
    exact total below 2^63: nothing wraps around, and the sum is exact. *)
Lemma series_sum_exact (g : list Clean.row) (prices : list Z) :
  Forall clean_row g ->
  Forall2 (fun t z => exact_price (Clean.Quantity t) (Clean.UnitPrice t) = Some z) g prices ->
  Zsum prices < 2 ^ 63 ->
  series_sum (map Clean.TotalPrice g) = I64 (Zsum prices) ∧ 0 ≤ Zsum prices.
Proof.
  intros Hclean Hall Hsum.
  pose proof (Zsum_nonneg _ (exact_prices_pos _ _ Hclean Hall)) as Hge.
  split; [|done]. unfold series_sum.
  rewrite (exact_prices_column g prices) by done.
  rewrite foldl_add_Zsum, wrap64_id; [done|]. unfold in_int64. lia.
Qed.
End rfm_bounds.

Section rfm_claims.
Import data preprocessing.
Context `{!Extern}.

(** The sum of a group no row of which has both an integer quantity and
    an integer price is a [float64] sum of [float64] products; it is not
    negative when the float library keeps the sign of its operands. *)
Lemma series_sum_float (g : list Clean.row) :
  (∀ z, 0 < z -> positive (F64 (float64_of_int64 z))) ->
  (∀ x y, positive (F64 x) -> positive (F64 y) -> nonnegative (F64 (float64_mul x y))) ->
  (∀ l, Forall (fun x => nonnegative (F64 x)) l -> nonnegative (F64 (float64_sum l))) ->
  g ≠ [] -> Forall clean_row g ->
  Forall (fun t => exact_price (Clean.Quantity t) (Clean.UnitPrice t) = None) g ->
  nonnegative (series_sum (map Clean.TotalPrice g)).
Proof.
  intros Hconv Hmul Hsum Hne Hclean Hfloat.
  assert (∀ a, positive a -> positive (F64 (to_float64 a))) as Hpos.
  { intros [z|x] Ha; [by apply Hconv|done]. }
  assert (Forall (fun a => ∃ x, a = F64 x ∧ nonnegative (F64 x)) (map Clean.TotalPrice g))
    as Hcells.
  { clear Hne. induction g as [|t g IH]; [constructor|].
    apply Forall_cons in Hclean as [(Hq & Hp & Htot) Hclean].
    apply Forall_cons in Hfloat as [Ht Hfloat].
    simpl. constructor; [|by apply IH].
    rewrite Htot. exists (float64_mul (to_float64 (Clean.Quantity t))
                                     (to_float64 (Clean.UnitPrice t))).
    split; [|by apply Hmul; apply Hpos].
    by destruct (Clean.Quantity t), (Clean.UnitPrice t). }
  unfold series_sum.
  destruct (map Clean.TotalPrice g) as [|a l] eqn:Hl; [by destruct g|].
  pose proof Hcells as [(x & -> & _) _]%Forall_cons.
  change (nonnegative (F64 (float64_sum (to_float64 <$> F64 x :: l)))).
  apply Hsum, Forall_fmap. eapply Forall_impl; [exact Hcells|].
  by intros a (x' & -> & Hx).
Qed.

(** C6 (amended). For every output of [clean_transactions] and every row
    of the RFM table computed from it: Frequency is at least 1 when one of
    the customer's rows carries an invoice ID, and 0 when none does;
    Recency is a number, not negative, when one of the customer's rows
    has a date, and NaN when none has; Monetary is the exact total, not
    negative, when the customer's quantities and prices are integers and
    that total is below 2^63; and Monetary is not negative when none of the
    customer's rows has both an integer quantity and an integer price,
    provided the float conversion, product and sum of the library keep the
    sign of their operands. *)
Theorem C6_rfm_bounds (raw : list Raw.row) (df : list Clean.row) (r : RFM) :
  clean_transactions raw = Ok df ->
  r ∈ compute_rfm df ->
  let g := group df (CustomerID r) in
  ((∃ t, t ∈ g ∧ is_Some (Clean.InvoiceNo t)) -> 1 ≤ Frequency r) ∧
  ((∀ t, t ∈ g -> Clean.InvoiceNo t = None) -> Frequency r = 0) ∧
  ((∃ t, t ∈ g ∧ is_Some (Clean.InvoiceDate t)) -> ∃ n, Recency r = Some n ∧ 0 ≤ n) ∧
  ((∀ t, t ∈ g -> Clean.InvoiceDate t = None) -> Recency r = None) ∧
  (∀ prices,
     Forall2 (fun t z => exact_price (Clean.Quantity t) (Clean.UnitPrice t) = Some z)
             g prices ->
     Zsum prices < 2 ^ 63 ->
     Monetary r = I64 (Zsum prices) ∧ 0 ≤ Zsum prices) ∧
  ((∀ z, 0 < z -> positive (F64 (float64_of_int64 z))) ->
   (∀ x y, positive (F64 x) -> positive (F64 y) -> nonnegative (F64 (float64_mul x y))) ->
   (∀ l, Forall (fun x => nonnegative (F64 x)) l -> nonnegative (F64 (float64_sum l))) ->
   Forall (fun t => exact_price (Clean.Quantity t) (Clean.UnitPrice t) = None) g ->
   nonnegative (Monetary r)).
Proof.
  intros Hclean%clean_transactions_clean_row Hr g.
  assert (Forall clean_row g) as Hg.
  { apply Forall_forall. intros t [_ Ht]%elem_of_group.
    by apply (proj1 (Forall_forall _ _) Hclean). }
  pose proof (elem_of_compute_rfm df r Hr) as (t0 & Ht0 & Hagg).
  split; [by apply (compute_rfm_frequency_pos df)|].
  split; [by apply (compute_rfm_frequency_zero df)|].
  split; [|split; [|split]].
  - intros (t & [Hc Ht]%elem_of_group & Hd).
    destruct (compute_rfm_recency df r Hr) as (n & Hn & Hge); [by eauto|].
    exists n. split; [done|lia].
  - intros Hnone. apply (compute_rfm_recency_nan df); [done|].
    intros t Ht Hc. apply Hnone. by apply elem_of_group.
  - intros prices Hall Hsum. rewrite Hagg at 1. simpl. by apply series_sum_exact.
  - intros Hconv Hmul Hsum Hfloat. rewrite Hagg. simpl.
    apply series_sum_float; try done. intros Hnil.
    rewrite Hnil in Ht0. by apply elem_of_nil in Ht0.
Qed.

(** C9 (amended). Every RFM row of a customer who has a row with an
    invoice date has Recency >= 1: the snapshot date lies one day past the
    latest invoice date of the whole table.  A customer none of whose rows
    has a date, which cleaning does not remove, has a NaN Recency. *)
Theorem C9_recency_strictly_positive (df : list Clean.row) (r : RFM) :
  r ∈ compute_rfm df ->
  ((∃ t, t ∈ df ∧ Clean.CustomerID t = CustomerID r ∧ is_Some (Clean.InvoiceDate t)) ->
   ∃ n, Recency r = Some n ∧ 1 ≤ n) ∧
  ((∀ t, t ∈ df -> Clean.CustomerID t = CustomerID r -> Clean.InvoiceDate t = None) ->
   Recency r = None).
Proof.
  intros Hr. split; [by apply compute_rfm_recency|by apply compute_rfm_recency_nan].
Qed.
End rfm_claims.

(** ** Cleaning and RFM features on the fixtures *)

Section pipeline_witnesses.
Import data preprocessing fixtures.
#[local] Existing Instance toy.

Example clean_mixed_batch : clean_transactions mixed_batch = Ok cleaned_batch.
Proof. vm_compute. reflexivity. Qed.

Example rfm_cleaned_batch : compute_rfm cleaned_batch = [rfm_13047; rfm_17850].
Proof. vm_compute. reflexivity. Qed.

Example clean_sparse_batch : clean_transactions sparse_batch = Ok sparse_cleaned.
Proof. vm_compute. reflexivity. Qed.

Example clean_integer_batch : clean_transactions integer_batch = Ok integer_cleaned.
Proof. vm_compute. reflexivity. Qed.

(** C4, as stated, fails on two counts.  [clean_transactions] raises,
    and returns no table, on a batch of valid rows one of whose dates
    [pd.to_datetime] does not parse; and on a row with an integer quantity
    and price whose product is beyond [int64], [TotalPrice] is the product
    wrapped around, not the product. *)
Lemma C4_counterexample :
  (Forall spec_valid_row unparsed_batch ∧
   ¬ (∃ out, clean_transactions unparsed_batch = Ok out)) ∧
  (clean_transactions sparse_batch = Ok sparse_cleaned ∧
   ∃ t, t ∈ sparse_cleaned ∧
        exact_price (Clean.Quantity t) (Clean.UnitPrice t)
          = Some (3037000500 * 3037000500) ∧
        Clean.TotalPrice t = I64 (-9223372036709301616) ∧
        Clean.TotalPrice t ≠ I64 (3037000500 * 3037000500)).
Proof.
  split; [split|split].
  - repeat constructor; by eexists.
  - intros [out Hout]. vm_compute in Hout. discriminate.
  - vm_compute. reflexivity.
  - eexists. split; [do 2 right; left|]. by vm_compute.
Qed.

(** The stand-in float library keeps the sign of its operands. *)
Lemma toy_conversion (z : Z) : 0 < z -> positive (F64 (float64_of_int64 z)).
Proof. intros Hz. simpl. unfold Qlt. simpl. lia. Qed.

Lemma toy_product (x y : float64) :
  positive (F64 x) -> positive (F64 y) -> nonnegative (F64 (float64_mul x y)).
Proof.
  destruct x as [a| | |], y as [b| | |]; simpl; try done.
  - intros Ha Hb. apply Qmult_le_0_compat; by apply Qlt_le_weak.
  - intros Ha _. by rewrite decide_True.
  - intros _ Hb. by rewrite decide_True.
Qed.

Lemma toy_sum (l : list float64) :
  Forall (fun x => nonnegative (F64 x)) l -> nonnegative (F64 (float64_sum l)).
Proof.
  simpl. assert (nonnegative (F64 (Finite 0))) as Hacc by done.
  revert Hacc. generalize (Finite 0).
  intros acc Hacc Hl. revert acc Hacc.
  induction Hl as [|x l Hx _ IH]; intros acc Hacc; simpl; [done|].
  apply IH. destruct acc as [a| | |], x as [b| | |]; simpl in *; try done.
  apply (Qle_trans _ (0 + 0)%Q); [done|]. by apply Qplus_le_compat.
Qed.

Lemma C5_witness :
  length (group two_invoices 17850) = 3%nat ∧
  rfm_two_invoices ∈ compute_rfm two_invoices ∧
  Frequency rfm_two_invoices = 2 ∧
  Frequency rfm_two_invoices = Z.of_nat (size (invoices_of two_invoices 17850)).
Proof.
  assert (rfm_two_invoices ∈ compute_rfm two_invoices) as Hin.
  { vm_compute. left. }
  split; [reflexivity|]. split; [exact Hin|]. split; [reflexivity|].
  refine (proj2 (C5_frequency_counts_distinct_invoices two_invoices
                   (clean (InvNum 536365) 6 (day 15309) (255 # 100) 17850) _)
                rfm_two_invoices Hin eq_refl).
  left.
Defined.

(** C6 as amended, on the decimal prices of [mixed_batch] and on the
    integer prices of [integer_batch]. *)
Lemma C6_witness :
  (clean_transactions mixed_batch = Ok cleaned_batch ∧
   rfm_17850 ∈ compute_rfm cleaned_batch ∧
   1 ≤ Frequency rfm_17850 ∧
   (∃ n, Recency rfm_17850 = Some n ∧ 0 ≤ n) ∧
   nonnegative (Monetary rfm_17850)) ∧
  (clean_transactions integer_batch = Ok integer_cleaned ∧
   rfm_15100 ∈ compute_rfm integer_cleaned ∧
   Monetary rfm_15100 = I64 22).
Proof.
  assert (clean_transactions mixed_batch = Ok cleaned_batch) as Hclean.
  { vm_compute. reflexivity. }
  assert (rfm_17850 ∈ compute_rfm cleaned_batch) as Hin.
  { vm_compute. right. left. }
  assert (clean_transactions integer_batch = Ok integer_cleaned) as Hclean'.
  { vm_compute. reflexivity. }
  assert (rfm_15100 ∈ compute_rfm integer_cleaned) as Hin'.
  { vm_compute. left. }
  split.
  - split; [exact Hclean|]. split; [exact Hin|].
    destruct (C6_rfm_bounds mixed_batch cleaned_batch rfm_17850 Hclean Hin)
      as (Hfreq & _ & Hrec & _ & _ & Hmon).
    split; [|split].
    + apply Hfreq. eexists. split; [vm_compute; left|]. vm_compute. eauto.
    + apply Hrec. eexists. split; [vm_compute; left|]. vm_compute. eauto.
    + apply Hmon; [exact toy_conversion|exact toy_product|exact toy_sum|].
      vm_compute. repeat constructor.
  - split; [exact Hclean'|]. split; [exact Hin'|].
    destruct (C6_rfm_bounds integer_batch integer_cleaned rfm_15100 Hclean' Hin')
      as (_ & _ & _ & _ & Hmon & _).
    apply (Hmon [12; 10]); [|vm_compute; reflexivity].
    vm_compute. repeat constructor.
Defined.

(** C6, as stated, fails on a file with whole-number prices: the row
    without an invoice ID survives cleaning and its customer has
    Frequency 0 and a NaN Recency, and the [int64] product of another
    customer's row wraps around to a negative Monetary. *)
Lemma C6_counterexample :
  clean_transactions sparse_batch = Ok sparse_cleaned ∧
  sparse_cleaned ≠ [] ∧
  rfm_undated ∈ compute_rfm sparse_cleaned ∧
  ¬ (1 ≤ Frequency rfm_undated) ∧
  ¬ (∃ n, Recency rfm_undated = Some n ∧ 0 ≤ n) ∧
  rfm_wrapped ∈ compute_rfm sparse_cleaned ∧
  ¬ nonnegative (Monetary rfm_wrapped).
Proof.
  split; [vm_compute; reflexivity|]. split; [discriminate|].
  split; [vm_compute; right; left|]. split; [vm_compute; by intros []|].
  split; [by intros (n & Hn & _)|].
  split; [vm_compute; left|]. vm_compute. by intros [].
Qed.

Lemma C9_witness :
  rfm_13047 ∈ compute_rfm cleaned_batch ∧ ∃ n, Recency rfm_13047 = Some n ∧ 1 ≤ n.
Proof.
  assert (rfm_13047 ∈ compute_rfm cleaned_batch) as Hin.
  { vm_compute. left. }
  split; [exact Hin|].
  apply (C9_recency_strictly_positive cleaned_batch rfm_13047 Hin).
  eexists. split; [vm_compute; do 3 right; left|]. split; [reflexivity|].
  vm_compute. eauto.
Defined.

(** C9, as stated, fails: a row without a date survives cleaning, and a
    customer whose only row it is has a NaN Recency, which is not >= 1. *)
Lemma C9_counterexample :
  clean_transactions sparse_batch = Ok sparse_cleaned ∧
  sparse_cleaned ≠ [] ∧
  rfm_undated ∈ compute_rfm sparse_cleaned ∧
  Recency rfm_undated = None ∧
  ¬ (∃ n, Recency rfm_undated = Some n ∧ 1 ≤ n).
Proof.
  split; [vm_compute; reflexivity|]. split; [discriminate|].
  split; [vm_compute; right; left|]. split; [reflexivity|].
  by intros (n & Hn & _).
Qed.
End pipeline_witnesses.

(** ** Frames *)

(** Membership of a name in a list of names that is written out. *)
Ltac in_list := by repeat constructor.
Ltac not_in_list := by apply (proj1 (bool_decide_eq_false _)).

Section frames.
Implicit Types (df : DataFrame) (r : gmap string Cell).

Lemma assign_column_Ok (name : string) (values : list Cell) df :
  length values = length (rows df) ->
  ∃ out, assign_column name values df = Ok out ∧
    rows out = zip_with (fun r v => <[name := v]> r) (rows df) values ∧
    columns out = (if has_column name df then columns df else columns df ++ [name]).
Proof.
  intros Hlen. unfold assign_column.
  rewrite bool_decide_eq_true_2 by done. eauto.
Qed.

Lemma assign_column_inv (name : string) (values : list Cell) df out :
  assign_column name values df = Ok out ->
  length values = length (rows df) ∧
  rows out = zip_with (fun r v => <[name := v]> r) (rows df) values ∧
  columns out = (if has_column name df then columns df else columns df ++ [name]).
Proof.
  unfold assign_column. case_bool_decide as Hlen; [|discriminate].
  by intros [= <-].
Qed.

Lemma has_column_true (name : string) df : has_column name df = true ↔ name ∈ columns df.
Proof. unfold has_column. apply bool_decide_eq_true. Qed.

Lemma select_Ok (cols : list string) df :
  Forall (fun c => c ∈ columns df) cols ->
  select cols df = Ok {| columns := cols;
                         rows := map (filter (fun kv => kv.1 ∈ cols)) (rows df) |}.
Proof.
  intros Hall. unfold select.
  destruct (list_find _ cols) as [[i c]|] eqn:Hfind; [|done].
  apply list_find_Some in Hfind as (Hi & Hc & _).
  apply list_elem_of_lookup_2 in Hi.
  by destruct Hc; apply (proj1 (Forall_forall _ _) Hall).
Qed.

Lemma lookup_select_row (cols : list string) r (c : string) :
  c ∈ cols -> filter (fun kv : string * Cell => kv.1 ∈ cols) r !! c = r !! c.
Proof.
  intros Hc. destruct (r !! c) as [v|] eqn:Hr.
  - by apply map_lookup_filter_Some.
  - apply map_lookup_filter_None. left. done.
Qed.

Lemma lookup_null_row (cols : list string) (c : string) :
  c ∈ cols -> null_row cols !! c = Some Null.
Proof.
  intros Hc. unfold null_row.
  induction cols as [|c' cols IH]; [by apply elem_of_nil in Hc|]. simpl.
  destruct (decide (c = c')) as [<-|Hne].
  - by rewrite lookup_insert_eq.
  - rewrite lookup_insert_ne by done. apply IH.
    by apply elem_of_cons in Hc as [?|?].
Qed.

(** The rows of a left join, one left row at a time. *)
Lemma elem_of_merge_left (on : string) (left right : DataFrame) (o : gmap string Cell) :
  o ∈ rows (merge_left on left right) ↔
  ∃ l, l ∈ rows left ∧
    ((∃ p, p ∈ rows right ∧ key_match on l p ∧ o = l ∪ p) ∨
     ((∀ p, p ∈ rows right -> ¬ key_match on l p) ∧
      o = l ∪ null_row (filter (fun c => c ≠ on) (columns right)))).
Proof.
  simpl. rewrite list_elem_of_bind. split.
  - intros (l & Ho & Hl). exists l. split; [done|].
    destruct (filter (key_match on l) (rows right)) as [|p ms] eqn:Hf.
    + right. apply list_elem_of_singleton in Ho. split; [|done].
      intros p Hp Hm.
      assert (p ∈ filter (key_match on l) (rows right)) as Hin
        by (by apply list_elem_of_filter).
      rewrite Hf in Hin. by apply elem_of_nil in Hin.
    + left. change (o ∈ (fun r => l ∪ r) <$> (p :: ms)) in Ho.
      apply list_elem_of_fmap in Ho as (p' & -> & Hp').
      rewrite <- Hf in Hp'. apply list_elem_of_filter in Hp' as [Hm Hp'].
      eauto.
  - intros (l & Hl & [(p & Hp & Hm & ->)|[Hnone ->]]); exists l; (split; [|done]).
    + assert (p ∈ filter (key_match on l) (rows right)) as Hin
        by (by apply list_elem_of_filter).
      destruct (filter (key_match on l) (rows right)) as [|p0 ms] eqn:Hf;
        [by apply elem_of_nil in Hin|].
      change (l ∪ p ∈ (fun r => l ∪ r) <$> (p0 :: ms)).
      by apply list_elem_of_fmap_2.
    + destruct (filter (key_match on l) (rows right)) as [|p0 ms] eqn:Hf;
        [by apply list_elem_of_singleton|].
      assert (p0 ∈ filter (key_match on l) (rows right)) as Hin
        by (rewrite Hf; left).
      apply list_elem_of_filter in Hin as [Hm Hp0]. by destruct (Hnone p0).
Qed.
End frames.

(** ** The density trainer's scaling (src/train_dbscan.py, lines 12-16) *)

Ltac store_steps :=
  unfold mbind, mret, M_bind, M_ret, lift, joblib_dump, to_parquet, path_exists.

Section scaling_claims.
Import config data data_load preprocessing train_dbscan.
Context `{!Extern}.
Implicit Types fs : gmap string File.

Lemma load_clean_store (data_path : option string) fs :
  (load_clean data_path fs).2 = fs.
Proof.
  unfold load_clean, load_raw, read_csv. store_steps.
  destruct (fs !! default RAW_DATA_PATH data_path) as [[]|]; done.
Qed.

Lemma scaled_features_inv fs fs' (rfm : list RFM) (X : list (F * F * F)) :
  scaled_features fs = (Ok (rfm, X), fs') ->
  ∃ scaler df,
    fs !! (MODELS_DIR </> SCALER_FILENAME) = Some (JoblibFile (ScalerObj scaler)) ∧
    load_clean None fs = (Ok df, fs) ∧
    rfm = compute_rfm df ∧
    (∃ rfm_log, apply_log1p rfm = Ok rfm_log ∧ transform scaler rfm_log = Ok X) ∧
    fs' = fs.
Proof.
  unfold scaled_features, joblib_load. store_steps.
  destruct (fs !! (MODELS_DIR </> SCALER_FILENAME)) as [[|obj|]|]; try discriminate.
  pose proof (load_clean_store None fs) as Hstore.
  destruct (load_clean None fs) as [[df|e] fs1]; simpl in Hstore; subst fs1;
    [|discriminate].
  destruct (apply_log1p (compute_rfm df)) as [rfm_log|e] eqn:Hlog; [|discriminate].
  destruct obj as [scaler| | |]; simpl; try discriminate.
  destruct (transform scaler rfm_log) as [X'|e] eqn:HX; [|discriminate].
  intros [= <- <- <-]. exists scaler, df. eauto 10.
Qed.

Lemma scaled_features_store fs : (scaled_features fs).2 = fs.
Proof.
  unfold scaled_features, joblib_load. store_steps.
  destruct (fs !! (MODELS_DIR </> SCALER_FILENAME)) as [[|obj|]|]; try done.
  pose proof (load_clean_store None fs) as Hstore.
  destruct (load_clean None fs) as [[df|e] fs1]; simpl in Hstore; subst fs1; [|done].
  destruct (apply_log1p (compute_rfm df)) as [rfm_log|e]; [|done].
  destruct obj as [scaler| | |]; simpl; try done.
  by destruct (transform scaler rfm_log).
Qed.

(** C3. Without the scaler artifact the density trainer raises at its
    first statement: the error carries the path of the missing artifact,
    and the store is left as it was (no model and no dataset written). *)
Theorem C3_density_requires_scaler (eps : Q) (min_samples : Z) fs :
  fs !! (MODELS_DIR </> SCALER_FILENAME) = None ->
  train_and_save eps min_samples fs
    = (Raise (FileNotFoundError (MODELS_DIR </> SCALER_FILENAME)), fs).
Proof.
  intros Hmissing.
  unfold train_and_save, fit_dbscan, scaled_features, joblib_load. store_steps.
  by rewrite Hmissing.
Qed.

End scaling_claims.

(** ** The density trainer (src/train_dbscan.py) *)

Section density.
Import config data data_load preprocessing train_dbscan.
Context `{!Extern}.
Implicit Types (fs : gmap string File) (l o p : gmap string Cell).

Lemma to_frame_row (rfm : list RFM) l :
  l ∈ rows (to_frame rfm) ->
  (∃ c, l !! "CustomerID" = Some (Int c)) ∧
  l !! "Cluster" = None ∧ l !! "Segment" = None ∧ l !! "DBSCAN_Cluster" = None.
Proof.
  simpl. intros (r & -> & _)%list_elem_of_fmap. unfold cells.
  split; [exists (CustomerID r)|]; by simplify_map_eq.
Qed.

Lemma fit_dbscan_inv (eps : Q) (min_samples : Z) fs fs1 (fresh : DataFrame) :
  fit_dbscan eps min_samples fs = (Ok fresh, fs1) ->
  ∃ rfm X labels,
    scaled_features fs = (Ok (rfm, X), fs) ∧
    DBSCAN_fit_predict eps min_samples X = Ok labels ∧
    assign_column "DBSCAN_Cluster" (Int <$> labels) (to_frame rfm) = Ok fresh ∧
    fs1 = <[MODELS_DIR </> DBSCAN_FILENAME := JoblibFile (DBSCANObj eps min_samples labels)]> fs.
Proof.
  unfold fit_dbscan.
  pose proof (scaled_features_store fs) as Hstore. revert Hstore.
  store_steps.
  destruct (scaled_features fs) as [[[rfm X]|e] fs0]; simpl; intros ->; [|discriminate].
  destruct (DBSCAN_fit_predict eps min_samples X) as [labels|e] eqn:Hfit; [|discriminate].
  destruct (assign_column _ _ _) as [out|e] eqn:Hassign; [|discriminate].
  intros [= <- <-]. by exists rfm, X, labels.
Qed.

Lemma fresh_columns (eps : Q) (min_samples : Z) fs fs1 (fresh : DataFrame) :
  fit_dbscan eps min_samples fs = (Ok fresh, fs1) ->
  columns fresh = ["CustomerID"; "Recency"; "Frequency"; "Monetary"; "DBSCAN_Cluster"].
Proof.
  intros (rfm & X & labels & _ & _ & Hassign & _)%fit_dbscan_inv.
  by apply assign_column_inv in Hassign as (_ & _ & ->).
Qed.

Lemma fresh_row (eps : Q) (min_samples : Z) fs fs1 (fresh : DataFrame) l :
  fit_dbscan eps min_samples fs = (Ok fresh, fs1) ->
  l ∈ rows fresh ->
  (∃ c, l !! "CustomerID" = Some (Int c)) ∧
  l !! "Cluster" = None ∧ l !! "Segment" = None.
Proof.
  intros (rfm & X & labels & _ & _ & Hassign & _)%fit_dbscan_inv.
  apply assign_column_inv in Hassign as (_ & -> & _).
  intros (r & v & -> & Hr & _)%elem_of_zip_with.
  apply to_frame_row in Hr as ([c Hc] & Hcl & Hseg & _).
  split; [exists c|]; by simplify_map_eq.
Qed.

Lemma fit_dbscan_dataset (eps : Q) (min_samples : Z) fs fs1 (fresh : DataFrame) :
  fit_dbscan eps min_samples fs = (Ok fresh, fs1) ->
  fs1 !! (PROCESSED_DIR </> RFM_FILENAME) = fs !! (PROCESSED_DIR </> RFM_FILENAME).
Proof.
  intros (rfm & X & labels & _ & _ & _ & ->)%fit_dbscan_inv.
  by apply lookup_insert_ne.
Qed.

(** Lines 23-34 when no earlier dataset is on disk. *)
Lemma merge_and_save_fresh (rfm : DataFrame) fs :
  fs !! (PROCESSED_DIR </> RFM_FILENAME) = None ->
  merge_and_save rfm fs
    = (Ok rfm, <[PROCESSED_DIR </> RFM_FILENAME := ParquetFile rfm]> fs).
Proof.
  intros Hnone. unfold merge_and_save. store_steps.
  rewrite Hnone. rewrite bool_decide_eq_false_2; [done|].
  by intros [? ?].
Qed.

(** Lines 23-34 when the earlier dataset lacks a label column. *)
Lemma merge_and_save_unlabelled (rfm existing : DataFrame) fs :
  fs !! (PROCESSED_DIR </> RFM_FILENAME) = Some (ParquetFile existing) ->
  ¬ ("Cluster" ∈ columns existing ∧ "Segment" ∈ columns existing) ->
  merge_and_save rfm fs
    = (Ok rfm, <[PROCESSED_DIR </> RFM_FILENAME := ParquetFile rfm]> fs).
Proof.
  intros Hfile Hcols. unfold merge_and_save, read_parquet. store_steps.
  rewrite Hfile. rewrite bool_decide_eq_true_2 by eauto. simpl. rewrite Hfile.
  destruct (has_column "Segment" existing) eqn:Hseg; [|done].
  destruct (has_column "Cluster" existing) eqn:Hcl; [|done].
  destruct Hcols. split; by apply has_column_true.
Qed.

(** Lines 23-34 when the earlier dataset has both label columns. *)
Lemma merge_and_save_labelled (rfm existing labelled : DataFrame) fs :
  fs !! (PROCESSED_DIR </> RFM_FILENAME) = Some (ParquetFile existing) ->
  "Cluster" ∈ columns existing -> "Segment" ∈ columns existing ->
  select ["CustomerID"; "Cluster"; "Segment"] existing = Ok labelled ->
  let out := merge_left "CustomerID" rfm labelled in
  merge_and_save rfm fs
    = (Ok out, <[PROCESSED_DIR </> RFM_FILENAME := ParquetFile out]> fs).
Proof.
  intros Hfile Hcl Hseg Hsel. unfold merge_and_save, read_parquet. store_steps.
  rewrite Hfile. rewrite bool_decide_eq_true_2 by eauto. simpl. rewrite Hfile.
  rewrite (proj2 (has_column_true "Segment" existing) Hseg).
  rewrite (proj2 (has_column_true "Cluster" existing) Hcl).
  simpl. by rewrite Hsel.
Qed.
End density.

Section density_merge.
Import config data data_load preprocessing train_dbscan.
Context `{!Extern}.
Implicit Types (fs : gmap string File) (l o p : gmap string Cell).

Lemma select_labels (existing : DataFrame) :
  "CustomerID" ∈ columns existing -> "Cluster" ∈ columns existing ->
  "Segment" ∈ columns existing ->
  select label_columns existing
    = Ok {| columns := label_columns; rows := map labels_of (rows existing) |}.
Proof.
  intros Hid Hcl Hseg. apply select_Ok.
  repeat (constructor; [done|]). constructor.
Qed.

Lemma lookup_labels_of p (c : string) : c ∈ label_columns -> labels_of p !! c = p !! c.
Proof. apply lookup_select_row. Qed.

(** The rows of the join of a table that has no label column with the
    labels of an earlier dataset. *)
Lemma elem_of_merge_labels (fresh existing : DataFrame) o :
  (∀ l, l ∈ rows fresh -> is_Some (l !! "CustomerID")) ->
  o ∈ rows (merge_left "CustomerID" fresh
              {| columns := label_columns; rows := map labels_of (rows existing) |}) ↔
  ∃ l, l ∈ rows fresh ∧
    ((∃ p, p ∈ rows existing ∧ p !! "CustomerID" = l !! "CustomerID" ∧
           o = l ∪ labels_of p) ∨
     ((∀ p, p ∈ rows existing -> p !! "CustomerID" ≠ l !! "CustomerID") ∧
      o = l ∪ null_row ["Cluster"; "Segment"])).
Proof.
  intros Hkey. rewrite elem_of_merge_left.
  assert (∀ l p, l ∈ rows fresh ->
            key_match "CustomerID" l (labels_of p) ↔ p !! "CustomerID" = l !! "CustomerID")
    as Hmatch.
  { intros l p Hl. unfold key_match.
    rewrite lookup_labels_of by in_list.
    split; [by intros [_ ->]|]. intros Heq. split; [by apply Hkey|done]. }
  split; intros (l & Hl & Hcase); exists l; (split; [done|]).
  - destruct Hcase as [(p' & Hp' & Hm & ->)|[Hnone ->]].
    + simpl in Hp'. apply list_elem_of_fmap in Hp' as (p & -> & Hp).
      left. exists p. split; [done|]. split; [|done]. by apply Hmatch.
    + right. split; [|done]. intros p Hp Heq.
      apply (Hnone (labels_of p)); [by apply list_elem_of_fmap_2|].
      by apply Hmatch.
  - destruct Hcase as [(p & Hp & Heq & ->)|[Hnone ->]].
    + left. exists (labels_of p). split; [by apply list_elem_of_fmap_2|].
      split; [|done]. by apply Hmatch.
    + right. split; [|done]. simpl.
      intros p' (p & -> & Hp)%list_elem_of_fmap Hm.
      apply (Hnone p Hp). by apply Hmatch.
Qed.

(** C1. Let [fresh] be the RFM-with-DBSCAN table that a run of the
    density trainer computes.  If the dataset on disk has the [Cluster]
    and [Segment] columns, the run returns and persists the left join of
    [fresh] with those columns on [CustomerID]: every row of the output
    extends a fresh row, with the labels of an earlier row of the same
    customer, or with null labels when the customer has no earlier row;
    every fresh row, and every pairing of it with an earlier row of its
    customer, is in the output.  If there is no dataset on disk, or it
    lacks one of the two columns, the run returns and persists [fresh],
    which has a [DBSCAN_Cluster] column and neither label column. *)
Theorem C1_density_merge_preserves_labels (eps : Q) (min_samples : Z)
    fs fs1 (fresh : DataFrame) :
  fit_dbscan eps min_samples fs = (Ok fresh, fs1) ->
  let path := PROCESSED_DIR </> RFM_FILENAME in
  (∀ existing,
     fs !! path = Some (ParquetFile existing) ->
     "CustomerID" ∈ columns existing ->
     "Cluster" ∈ columns existing -> "Segment" ∈ columns existing ->
     ∃ labelled out,
       select ["CustomerID"; "Cluster"; "Segment"] existing = Ok labelled ∧
       out = merge_left "CustomerID" fresh labelled ∧
       train_and_save eps min_samples fs = (Ok out, <[path := ParquetFile out]> fs1) ∧
       columns out = columns fresh ++ ["Cluster"; "Segment"] ∧
       (∀ o, o ∈ rows out ->
          ∃ l, l ∈ rows fresh ∧ l ⊆ o ∧
            ((∃ p, p ∈ rows existing ∧ p !! "CustomerID" = l !! "CustomerID" ∧
                   o !! "Cluster" = p !! "Cluster" ∧ o !! "Segment" = p !! "Segment") ∨
             ((∀ p, p ∈ rows existing -> p !! "CustomerID" ≠ l !! "CustomerID") ∧
              o !! "Cluster" = Some Null ∧ o !! "Segment" = Some Null))) ∧
       (∀ l, l ∈ rows fresh -> ∃ o, o ∈ rows out ∧ l ⊆ o) ∧
       (∀ l p, l ∈ rows fresh -> p ∈ rows existing ->
          p !! "CustomerID" = l !! "CustomerID" ->
          ∃ o, o ∈ rows out ∧ l ⊆ o ∧
               o !! "Cluster" = p !! "Cluster" ∧ o !! "Segment" = p !! "Segment")) ∧
  ((fs !! path = None ∨
    (∃ existing, fs !! path = Some (ParquetFile existing) ∧
                 ¬ ("Cluster" ∈ columns existing ∧ "Segment" ∈ columns existing))) ->
   train_and_save eps min_samples fs = (Ok fresh, <[path := ParquetFile fresh]> fs1) ∧
   "DBSCAN_Cluster" ∈ columns fresh ∧
   ("Cluster" ∉ columns fresh) ∧ ("Segment" ∉ columns fresh)).
Proof.
  intros Hfit path.
  pose proof (fit_dbscan_dataset _ _ _ _ _ Hfit) as Hdisk.
  pose proof (fresh_columns _ _ _ _ _ Hfit) as Hcols.
  assert (∀ l, l ∈ rows fresh -> is_Some (l !! "CustomerID")) as Hkey.
  { intros l Hl. destruct (fresh_row _ _ _ _ _ l Hfit Hl) as ([c Hc] & _). eauto. }
  assert (∀ l p, l ∈ rows fresh ->
            (l ∪ labels_of p) !! "Cluster" = p !! "Cluster" ∧
            (l ∪ labels_of p) !! "Segment" = p !! "Segment") as Hlabels.
  { intros l p Hl. destruct (fresh_row _ _ _ _ _ l Hfit Hl) as (_ & Hcl & Hseg).
    rewrite !lookup_union_r by done.
    split; apply lookup_labels_of; in_list. }
  assert (∀ l, l ∈ rows fresh ->
            (l ∪ null_row ["Cluster"; "Segment"]) !! "Cluster" = Some Null ∧
            (l ∪ null_row ["Cluster"; "Segment"]) !! "Segment" = Some Null) as Hnulls.
  { intros l Hl. destruct (fresh_row _ _ _ _ _ l Hfit Hl) as (_ & Hcl & Hseg).
    rewrite !lookup_union_r by done. split; apply lookup_null_row; in_list. }
  split.
  - intros existing Hfile Hid Hcl Hseg.
    pose proof (select_labels existing Hid Hcl Hseg) as Hsel.
    unfold label_columns in Hsel at 1.
    eexists _, _. split; [exact Hsel|]. split; [reflexivity|].
    split; [|split; [|split; [|split]]].
    + unfold train_and_save. store_steps. rewrite Hfit.
      apply (merge_and_save_labelled fresh existing); [rewrite Hdisk; exact Hfile|done..].
    + done.
    + intros o (l & Hl & Hcase)%elem_of_merge_labels; [|done].
      exists l. split; [done|].
      destruct Hcase as [(p & Hp & Heq & ->)|[Hnone ->]];
        (split; [apply map_union_subseteq_l|]).
      * left. exists p. destruct (Hlabels l p Hl). done.
      * right. destruct (Hnulls l Hl). done.
    + intros l Hl.
      destruct (decide (Exists (fun p => p !! "CustomerID" = l !! "CustomerID")
                               (rows existing))) as [Hex|Hnone].
      * apply Exists_exists in Hex as (p & Hp & Heq).
        exists (l ∪ labels_of p). split; [|apply map_union_subseteq_l].
        apply elem_of_merge_labels; [done|]. exists l. split; [done|]. left. eauto.
      * exists (l ∪ null_row ["Cluster"; "Segment"]).
        split; [|apply map_union_subseteq_l].
        apply elem_of_merge_labels; [done|]. exists l. split; [done|]. right.
        split; [|done]. intros p Hp Heq. apply Hnone, Exists_exists. eauto.
    + intros l p Hl Hp Heq. exists (l ∪ labels_of p).
      split; [|split; [apply map_union_subseteq_l|by apply Hlabels]].
      apply elem_of_merge_labels; [done|]. exists l. split; [done|]. left. eauto.
  - intros Hprior.
    split; [|rewrite Hcols; split; [in_list|split; not_in_list]].
    unfold train_and_save. store_steps. rewrite Hfit.
    destruct Hprior as [Hnone|(existing & Hfile & Hlack)].
    + apply merge_and_save_fresh. rewrite Hdisk. exact Hnone.
    + apply (merge_and_save_unlabelled fresh existing); [rewrite Hdisk; exact Hfile|done].
Qed.
End density_merge.

(** ** The centroid trainer (src/train_kmeans.py) *)

Section centroid.
Import config data data_load preprocessing train_kmeans.
Context `{!Extern}.
Implicit Types (fs : gmap string File) (row : gmap string Cell).

Lemma segment_map_outside (k : Z) : ¬ (0 ≤ k ≤ 3) -> DEFAULT_SEGMENT_MAP !! k = None.
Proof.
  intros Hk. unfold DEFAULT_SEGMENT_MAP.
  rewrite !lookup_insert_ne by lia. apply lookup_singleton_ne. lia.
Qed.

Lemma assign_labels (rfm : list RFM) (labels : list Z) :
  length labels = length rfm ->
  ∃ out1 out,
    assign_column "Cluster" (Int <$> labels) (to_frame rfm) = Ok out1 ∧
    get_column "Cluster" out1 = Ok (Int <$> labels) ∧
    assign_column "Segment" (series_map DEFAULT_SEGMENT_MAP <$> (Int <$> labels)) out1 = Ok out ∧
    rows out = zip_with labelled_row rfm labels ∧
    columns out = ["CustomerID"; "Recency"; "Frequency"; "Monetary"; "Cluster"; "Segment"].
Proof.
  intros Hlen.
  destruct (assign_column_Ok "Cluster" (Int <$> labels) (to_frame rfm))
    as (out1 & Hout1 & Hrows1 & Hcols1).
  { simpl. by rewrite !length_fmap. }
  assert (columns out1 = ["CustomerID"; "Recency"; "Frequency"; "Monetary"; "Cluster"])
    as Hcols1' by (by rewrite Hcols1).
  assert (map (fun r => default Null (r !! "Cluster")) (rows out1) = Int <$> labels) as Hcol.
  { rewrite Hrows1. simpl. clear -Hlen. revert labels Hlen.
    induction rfm as [|r rfm IH]; intros [|k labels] Hlen; try done.
    simpl. rewrite lookup_insert_eq. simpl. f_equal. apply IH. simpl in Hlen. lia. }
  destruct (assign_column_Ok "Segment" (series_map DEFAULT_SEGMENT_MAP <$> (Int <$> labels)) out1)
    as (out & Hout & Hrows & Hcols).
  { rewrite Hrows1. simpl. rewrite length_zip_with, !length_fmap. lia. }
  exists out1, out. split; [done|]. split.
  { unfold get_column, has_column. rewrite Hcols1'. by rewrite Hcol. }
  split; [done|]. split.
  - rewrite Hrows, Hrows1. simpl. clear. revert labels.
    induction rfm as [|r rfm IH]; intros [|k labels]; try done.
    simpl. f_equal. apply IH.
  - rewrite Hcols. unfold has_column. by rewrite Hcols1'.
Qed.

Lemma labelled_row_cells (r : RFM) (k : Z) :
  labelled_row r k !! "Cluster" = Some (Int k) ∧
  labelled_row r k !! "Segment" = Some (series_map DEFAULT_SEGMENT_MAP (Int k)).
Proof. unfold labelled_row. split; by simplify_map_eq. Qed.

(** C10. Whatever [n_clusters] is, a run whose load, feature scaling
    and KMeans fit return (one label per customer) returns the labelled
    dataset without raising: each row carries its cluster ID and the name
    the fixed four-entry map gives that ID, which is null for every ID
    outside 0..3; with [save_rfm] the same dataset is the one persisted. *)
Theorem C10_segments_from_fixed_map (n_clusters random_state : Z) (save_rfm : bool)
    fs (df : list Clean.row) (rfm_log rfm_scaled : list (F * F * F))
    (scaler : StandardScaler) (labels : list Z) :
  (load_clean None fs).1 = Ok df ->
  prepare_for_clustering (compute_rfm df) = Ok (rfm_log, rfm_scaled, scaler) ->
  KMeans_fit_predict n_clusters random_state rfm_scaled = Ok labels ->
  length labels = length (compute_rfm df) ->
  ∃ out fs',
    train_and_save n_clusters random_state save_rfm fs = (Ok out, fs') ∧
    rows out = zip_with labelled_row (compute_rfm df) labels ∧
    (∀ row, row ∈ rows out ->
       ∃ k, k ∈ labels ∧ row !! "Cluster" = Some (Int k) ∧
            (¬ (0 ≤ k ≤ 3) -> row !! "Segment" = Some Null) ∧
            (∀ name, DEFAULT_SEGMENT_MAP !! k = Some name ->
                     row !! "Segment" = Some (Str name))) ∧
    (save_rfm = true ->
     fs' !! (PROCESSED_DIR </> RFM_FILENAME) = Some (ParquetFile out)).
Proof.
  intros Hload Hprepare Hfit Hlen.
  destruct (assign_labels (compute_rfm df) labels Hlen)
    as (out1 & out & Hout1 & Hcol & Hout & Hrows & _).
  assert (∀ row, row ∈ rows out ->
            ∃ k, k ∈ labels ∧ row !! "Cluster" = Some (Int k) ∧
                 (¬ (0 ≤ k ≤ 3) -> row !! "Segment" = Some Null) ∧
                 (∀ name, DEFAULT_SEGMENT_MAP !! k = Some name ->
                          row !! "Segment" = Some (Str name))) as Hcells.
  { rewrite Hrows. intros row (r & k & -> & _ & Hk)%elem_of_zip_with.
    destruct (labelled_row_cells r k) as [Hcl Hseg].
    exists k. split; [done|]. split; [done|]. rewrite Hseg. simpl. split.
    - intros Hout_of_range. by rewrite segment_map_outside.
    - by intros name ->. }
  pose proof (load_clean_store None fs) as Hstore.
  unfold train_and_save. store_steps.
  destruct (load_clean None fs) as [r fs0]. simpl in Hload, Hstore. subst r fs0.
  rewrite Hprepare. simpl. rewrite Hfit, Hout1, Hcol, Hout.
  destruct save_rfm; eexists out, _; (split; [reflexivity|]);
    (split; [done|]); (split; [done|]); [|done].
  intros _. by rewrite lookup_insert_eq.
Qed.
End centroid.

Section density_frame.
Import config data data_load preprocessing train_dbscan.
Context `{!Extern}.
Implicit Types fs : gmap string File.

Lemma fit_dbscan_frame (eps : Q) (min_samples : Z) fs (path : string) :
  path ≠ MODELS_DIR </> DBSCAN_FILENAME ->
  (fit_dbscan eps min_samples fs).2 !! path = fs !! path.
Proof.
  intros Hpath. unfold fit_dbscan.
  pose proof (scaled_features_store fs) as Hstore. revert Hstore. store_steps.
  destruct (scaled_features fs) as [[[rfm X]|e] fs0]; simpl; intros ->; [|done].
  destruct (DBSCAN_fit_predict eps min_samples X) as [labels|e]; [|done].
  destruct (assign_column _ _ _) as [out|e]; [|done].
  simpl. by rewrite lookup_insert_ne.
Qed.

Lemma merge_and_save_frame (rfm : DataFrame) fs (path : string) :
  path ≠ PROCESSED_DIR </> RFM_FILENAME ->
  (merge_and_save rfm fs).2 !! path = fs !! path.
Proof.
  intros Hpath. unfold merge_and_save, read_parquet. store_steps.
  destruct (fs !! (PROCESSED_DIR </> RFM_FILENAME)) as [file|] eqn:Hfile.
  - rewrite bool_decide_eq_true_2 by eauto. simpl. rewrite Hfile.
    destruct file as [table|obj|existing]; try done.
    destruct (has_column "Segment" existing && has_column "Cluster" existing).
    + destruct (select _ existing) as [labelled|e]; [|done].
      simpl. by rewrite lookup_insert_ne.
    + simpl. by rewrite lookup_insert_ne.
  - rewrite bool_decide_eq_false_2 by (by intros [? ?]).
    simpl. by rewrite lookup_insert_ne.
Qed.

(** A run writes the density model and the dataset, and no other file. *)
Lemma train_and_save_frame (eps : Q) (min_samples : Z) fs (path : string) :
  path ≠ MODELS_DIR </> DBSCAN_FILENAME ->
  path ≠ PROCESSED_DIR </> RFM_FILENAME ->
  (train_and_save eps min_samples fs).2 !! path = fs !! path.
Proof.
  intros Hmodel Hdata.
  pose proof (fit_dbscan_frame eps min_samples fs path Hmodel) as Hfit.
  unfold train_and_save. revert Hfit. store_steps.
  destruct (fit_dbscan eps min_samples fs) as [[fresh|e] fs1]; simpl; [|done].
  intros <-. by apply merge_and_save_frame.
Qed.

(** C7. The scaled features of the density trainer are the loaded
    scaler's [transform] of the log features that the centroid path
    ([prepare_for_clustering]) computes from the same RFM table; the
    scaler is read, never fitted, and its file is the same after the
    whole run.  When the loaded scaler is the one the centroid path fits
    on that table, the two feature matrices are equal. *)
Theorem C7_density_reuses_scaler fs fs' (rfm : list RFM) (X : list (F * F * F)) :
  scaled_features fs = (Ok (rfm, X), fs') ->
  ∃ scaler rfm_log,
    fs !! (MODELS_DIR </> SCALER_FILENAME) = Some (JoblibFile (ScalerObj scaler)) ∧
    apply_log1p rfm = Ok rfm_log ∧
    transform scaler rfm_log = Ok X ∧
    (∀ rfm_log' rfm_scaled scaler',
       prepare_for_clustering rfm = Ok (rfm_log', rfm_scaled, scaler') ->
       rfm_log' = rfm_log ∧ (scaler = scaler' -> X = rfm_scaled)) ∧
    fs' = fs ∧
    (∀ eps min_samples,
       (train_and_save eps min_samples fs).2 !! (MODELS_DIR </> SCALER_FILENAME)
         = fs !! (MODELS_DIR </> SCALER_FILENAME)).
Proof.
  intros (scaler & df & Hfile & _ & _ & (rfm_log & Hlog & HX) & ->)%scaled_features_inv.
  exists scaler, rfm_log. split; [done|]. split; [done|]. split; [done|].
  split; [|split; [done|]].
  - intros rfm_log' rfm_scaled scaler'. unfold prepare_for_clustering, fit_transform.
    rewrite Hlog. simpl.
    destruct (fit rfm_log) as [sc|e]; [|discriminate]. simpl.
    destruct (transform sc rfm_log) as [X'|e] eqn:HX'; [|discriminate]. simpl.
    intros [= <- <- <-]. split; [done|]. intros ->. congruence.
  - intros eps min_samples. by apply train_and_save_frame.
Qed.

End density_frame.

(** ** The query service (app/app.py) *)

Ltac app_steps :=
  unfold mbind, mret, app.App_bind, app.App_ret, app.pure, app.on_disk,
    app.read_rfm_df, app.write_rfm_df, path_exists, read_parquet.

Section service.
Import config app.
Context `{!Extern, !Builtins}.
Implicit Types st : state.

Lemma get_rfm_df_absent st :
  dataset_absent st -> get_rfm_df st = (Ok None, st).
Proof.
  intros [Hcache Hfile]. destruct st as [fs cache]. simpl in *. subst cache.
  unfold get_rfm_df. app_steps. simpl. rewrite Hfile.
  rewrite bool_decide_eq_false_2; [done|]. by intros [? ?].
Qed.

Lemma get_rfm_df_served st (df : DataFrame) :
  dataset_served st df ->
  get_rfm_df st = (Ok (Some df), {| disk := disk st; _rfm_df := Some df |}).
Proof.
  destruct st as [fs cache]. simpl.
  intros [Hcache|[Hcache Hfile]]; simpl in *; subst cache.
  - done.
  - unfold get_rfm_df. app_steps. simpl. rewrite Hfile.
    rewrite bool_decide_eq_true_2 by eauto. simpl. by rewrite Hfile.
Qed.

(** C2 (amended). A customer ID that is not numeric gets the 400
    response whenever the dataset is served, from the cache or from
    disk; when the dataset is absent the route answers 503 before it
    looks at the ID. *)
Theorem C2_non_numeric_id_after_dataset_check st (customer_id : string) :
  py_float customer_id = None ->
  (∀ df, dataset_served st df ->
     analytics_customer customer_id st
       = (Ok (error "customer_id must be numeric" 400),
          {| disk := disk st; _rfm_df := Some df |})) ∧
  (dataset_absent st -> analytics_customer customer_id st = (Ok no_data, st)).
Proof.
  intros Hid. split.
  - intros df Hserved. unfold analytics_customer.
    unfold mbind at 1. unfold App_bind at 1.
    rewrite (get_rfm_df_served st df Hserved). by rewrite Hid.
  - intros Habsent. unfold analytics_customer.
    unfold mbind at 1. unfold App_bind at 1.
    by rewrite (get_rfm_df_absent st Habsent).
Qed.

(** C8 (amended). When the dataset file is absent and the process has not
    cached the dataset, each of the four read routes returns the 503
    response, raises nothing and leaves the process state as it was. *)
Theorem C8_absent_dataset_gives_503 st :
  dataset_absent st ->
  analytics_overview st = (Ok no_data, st) ∧
  analytics_segments st = (Ok no_data, st) ∧
  analytics_summary st = (Ok no_data, st) ∧
  (∀ customer_id, analytics_customer customer_id st = (Ok no_data, st)) ∧
  status no_data = 503.
Proof.
  intros Habsent.
  pose proof (get_rfm_df_absent st Habsent) as Hget.
  repeat split; try intros customer_id;
    unfold analytics_overview, analytics_segments, analytics_summary, analytics_customer;
    unfold mbind at 1; unfold App_bind at 1; by rewrite Hget.
Qed.
End service.

(** ** The claims on the fixtures *)

(** An equation between closed terms, checked by evaluation. *)
Ltac vm_refl :=
  lazymatch goal with |- ?lhs = ?rhs => vm_cast_no_check (@eq_refl _ rhs) end.

Section fixtures_checks.
Import config data data_load preprocessing app fixtures.
#[local] Existing Instances toy builtins.

Example after_kmeans_dataset :
  after_kmeans !! (PROCESSED_DIR </> RFM_FILENAME) = Some (ParquetFile kmeans_dataset).
Proof. vm_refl. Qed.

Example fit_on_new_customer :
  train_dbscan.fit_dbscan (1 # 2) 5 new_customer = (Ok fresh_table, dbscan_dumped).
Proof. vm_refl. Qed.

Example run_on_new_customer :
  train_dbscan.train_and_save (1 # 2) 5 new_customer
  = (Ok merged_table,
     <[PROCESSED_DIR </> RFM_FILENAME := ParquetFile merged_table]> dbscan_dumped).
Proof. vm_refl. Qed.

Example customer_17850_warm :
  (analytics_customer "17850" warm).1
  = Ok {| body := JObj [("CustomerID", JNum 17850); ("Segment", JStr "Low Value");
                        ("Cluster", JInt 3); ("Recency", JNum 1);
                        ("Frequency", JNum 2); ("Monetary", JNum (23930000 # 1000000))];
          status := 200 |}.
Proof. vm_refl. Qed.

Lemma C1_witness :
  train_dbscan.fit_dbscan (1 # 2) 5 new_customer = (Ok fresh_table, dbscan_dumped) ∧
  ∃ out,
    train_dbscan.train_and_save (1 # 2) 5 new_customer
      = (Ok out, <[PROCESSED_DIR </> RFM_FILENAME := ParquetFile out]> dbscan_dumped) ∧
    out = merged_table ∧
    (∀ l, l ∈ rows fresh_table -> ∃ o, o ∈ rows out ∧ l ⊆ o) ∧
    (∀ o, o ∈ rows out ->
       ∃ l, l ∈ rows fresh_table ∧ l ⊆ o ∧
         ((∃ p, p ∈ rows kmeans_dataset ∧ p !! "CustomerID" = l !! "CustomerID" ∧
                o !! "Cluster" = p !! "Cluster" ∧ o !! "Segment" = p !! "Segment") ∨
          ((∀ p, p ∈ rows kmeans_dataset -> p !! "CustomerID" ≠ l !! "CustomerID") ∧
           o !! "Cluster" = Some Null ∧ o !! "Segment" = Some Null))).
Proof.
  assert (train_dbscan.fit_dbscan (1 # 2) 5 new_customer = (Ok fresh_table, dbscan_dumped))
    as Hfit by vm_refl.
  split; [exact Hfit|].
  destruct (C1_density_merge_preserves_labels (1 # 2) 5 new_customer dbscan_dumped
              fresh_table Hfit) as [Hmerge _].
  destruct (Hmerge kmeans_dataset) as (labelled & out & Hsel & Hout & Hrun & _ & Hrows & Hall & _).
  - vm_refl.
  - in_list.
  - in_list.
  - in_list.
  - exists out. split; [exact Hrun|]. split; [|split; [exact Hall|exact Hrows]].
    rewrite Hout. injection Hsel as <-. vm_refl.
Defined.

Lemma C3_witness :
  untrained !! (MODELS_DIR </> SCALER_FILENAME) = None ∧
  train_dbscan.train_and_save (1 # 2) 5 untrained
    = (Raise (FileNotFoundError "models/scaler.joblib"), untrained).
Proof.
  assert (untrained !! (MODELS_DIR </> SCALER_FILENAME) = None) as Hmissing
    by vm_refl.
  split; [exact Hmissing|].
  exact (C3_density_requires_scaler (1 # 2) 5 untrained Hmissing).
Defined.

Lemma C7_witness :
  let rfm := [rfm_13047; rfm_17850] in
  let X := [(Finite (1 # 1), Finite (1 # 1), Finite (1250 # 100));
            (Finite (5 # 1), Finite (2 # 1), Finite (23930000 # 1000000))]%Q in
  train_dbscan.scaled_features new_customer = (Ok (rfm, X), new_customer) ∧
  ∃ (scaler : StandardScaler) rfm_log,
    new_customer !! (MODELS_DIR </> SCALER_FILENAME) = Some (JoblibFile (ScalerObj scaler)) ∧
    apply_log1p rfm = Ok rfm_log ∧
    transform scaler rfm_log = Ok X ∧
    (train_dbscan.train_and_save (1 # 2) 5 new_customer).2 !! (MODELS_DIR </> SCALER_FILENAME)
      = new_customer !! (MODELS_DIR </> SCALER_FILENAME).
Proof.
  intros rfm X.
  assert (train_dbscan.scaled_features new_customer = (Ok (rfm, X), new_customer)) as Hrun
    by vm_refl.
  split; [exact Hrun|].
  destruct (C7_density_reuses_scaler new_customer new_customer rfm X Hrun)
    as (scaler & rfm_log & Hfile & Hlog & HX & _ & _ & Hframe).
  exists scaler, rfm_log. split; [exact Hfile|]. split; [exact Hlog|].
  split; [exact HX|]. exact (Hframe (1 # 2)%Q 5).
Defined.

Lemma C10_witness :
  ∃ out fs',
    train_kmeans.train_and_save 6 42 true untrained = (Ok out, fs') ∧
    rows out = [labelled_row rfm_13047 5; labelled_row rfm_17850 5] ∧
    (∀ row, row ∈ rows out ->
       ∃ k, k ∈ [5; 5] ∧ row !! "Cluster" = Some (Int k) ∧
            (¬ (0 ≤ k ≤ 3) -> row !! "Segment" = Some Null) ∧
            (∀ name, train_kmeans.DEFAULT_SEGMENT_MAP !! k = Some name ->
                     row !! "Segment" = Some (Str name))) ∧
    (true = true -> fs' !! (PROCESSED_DIR </> RFM_FILENAME) = Some (ParquetFile out)).
Proof.
  apply (C10_segments_from_fixed_map 6 42 true untrained cleaned_batch
           (log1p_row <$> [rfm_13047; rfm_17850]) (log1p_row <$> [rfm_13047; rfm_17850])
           tt [5; 5]).
  - vm_refl.
  - vm_refl.
  - vm_refl.
  - vm_refl.
Defined.

Lemma C2_witness :
  py_float "abc" = None ∧
  analytics_customer "abc" warm
    = (Ok (error "customer_id must be numeric" 400),
       {| disk := disk warm; _rfm_df := Some kmeans_dataset |}) ∧
  analytics_customer "abc" cold = (Ok no_data, cold).
Proof.
  assert (py_float "abc" = None) as Hid by vm_refl.
  split; [exact Hid|].
  destruct (C2_non_numeric_id_after_dataset_check warm "abc" Hid) as [Hserved _].
  destruct (C2_non_numeric_id_after_dataset_check cold "abc" Hid) as [_ Habsent].
  split.
  - apply Hserved. right. split; vm_refl.
  - apply Habsent. split; vm_refl.
Defined.

(** C2, as stated, fails: before any training the route answers a
    non-numeric ID with 503, not 400. *)
Lemma C2_counterexample :
  py_float "abc" = None ∧
  disk cold !! (PROCESSED_DIR </> RFM_FILENAME) = None ∧
  status_code (analytics_customer "abc" cold).1 = Some 503.
Proof. repeat split; vm_refl. Qed.

Lemma C8_witness :
  dataset_absent cold ∧
  analytics_overview cold = (Ok no_data, cold) ∧
  analytics_segments cold = (Ok no_data, cold) ∧
  analytics_summary cold = (Ok no_data, cold) ∧
  (∀ customer_id, analytics_customer customer_id cold = (Ok no_data, cold)) ∧
  status no_data = 503.
Proof.
  assert (dataset_absent cold) as Habsent by (split; vm_refl).
  split; [exact Habsent|].
  exact (C8_absent_dataset_gives_503 cold Habsent).
Defined.

(** C8, as stated, fails: a process that loaded the dataset while the
    file existed keeps answering from its cache after the file is gone. *)
Lemma C8_counterexample :
  disk stale !! (PROCESSED_DIR </> RFM_FILENAME) = None ∧
  status_code (analytics_customer "17850" stale).1 = Some 200 ∧
  status_code (analytics_overview stale).1 = Some 200.
Proof. repeat split; vm_refl. Qed.
End fixtures_checks.

(** * Further properties *)

(** ** The RFM table *)

Section rfm_more.
Import data preprocessing.
Context `{!Extern}.

Lemma compute_rfm_keys (df : list Clean.row) :
  CustomerID <$> compute_rfm df = group_keys df.
Proof.
  unfold compute_rfm. rewrite <- list_fmap_compose. simpl. apply list_fmap_id.
Qed.

Lemma NoDup_group_keys (df : list Clean.row) : NoDup (group_keys df).
Proof.
  unfold group_keys. rewrite merge_sort_Permutation. apply NoDup_remove_dups.
Qed.

Lemma StronglySorted_le_lt (l : list Z) :
  StronglySorted Z.le l -> NoDup l -> StronglySorted Z.lt l.
Proof.
  induction 1 as [|x l Hl IH Hx]; intros Hnd; [constructor|].
  apply NoDup_cons in Hnd as [Hnotin Hnd].
  constructor; [by apply IH|].
  apply Forall_forall. intros y Hy.
  pose proof (proj1 (Forall_forall _ _) Hx y Hy).
  assert (x ≠ y) by (by intros ->). lia.
Qed.

(** X1. The RFM table has exactly one row per customer of the input, in
    strictly ascending order of customer ID. *)
Theorem X1_one_row_per_customer_ascending (df : list Clean.row) :
  StronglySorted Z.lt (CustomerID <$> compute_rfm df) ∧
  NoDup (CustomerID <$> compute_rfm df) ∧
  ∀ c, c ∈ (CustomerID <$> compute_rfm df) ↔ ∃ t, t ∈ df ∧ Clean.CustomerID t = c.
Proof.
  rewrite compute_rfm_keys. split; [|split].
  - apply StronglySorted_le_lt; [|apply NoDup_group_keys].
    unfold group_keys. apply (StronglySorted_merge_sort Z.le).
  - apply NoDup_group_keys.
  - apply elem_of_group_keys.
Qed.

(** X2. A customer who has an invoice at the latest date of the whole
    table has Recency exactly 1, whether or not other rows lack a date. *)
Theorem X2_latest_customer_has_recency_one (df : list Clean.row) (t : Clean.row) (d : Z)
    (r : RFM) :
  t ∈ df -> Clean.InvoiceDate t = Some d ->
  (∀ t' d', t' ∈ df -> Clean.InvoiceDate t' = Some d' -> d' ≤ d) ->
  r ∈ compute_rfm df -> CustomerID r = Clean.CustomerID t ->
  Recency r = Some 1.
Proof.
  intros Ht Hd Hmax Hr Hid.
  destruct (recency_of_row df r t d Hr Ht (eq_sym Hid) Hd)
    as (latest & own & Hlatest & _ & Hge & Hle & ->).
  apply series_max_spec in Hlatest as [(t1 & Hd1 & Ht1)%list_elem_of_fmap _].
  pose proof (Hmax t1 latest Ht1 (eq_sym Hd1)).
  assert (own = latest) as -> by lia.
  unfold days. f_equal.
  replace (latest + Timedelta_day - latest) with Timedelta_day by lia.
  by apply Z.div_same.
Qed.

(** X3. Recency is antitone in the date of the last purchase: of two
    customers with dated rows, the one whose latest invoice is later has
    the smaller or equal Recency. *)
Theorem X3_recency_antitone (df : list Clean.row) (r1 r2 : RFM) (d1 d2 : Z) :
  r1 ∈ compute_rfm df -> r2 ∈ compute_rfm df ->
  last_invoice df (CustomerID r1) = Some d1 ->
  last_invoice df (CustomerID r2) = Some d2 ->
  d1 ≤ d2 ->
  ∃ n1 n2, Recency r1 = Some n1 ∧ Recency r2 = Some n2 ∧ n2 ≤ n1.
Proof.
  intros Hr1 Hr2 Hd1 Hd2 Hle.
  assert (∀ r d, r ∈ compute_rfm df -> last_invoice df (CustomerID r) = Some d ->
            ∃ latest, series_max (Clean.InvoiceDate <$> df) = Some latest ∧
                      Recency r = Some (days (latest + Timedelta_day - d))) as Hrow.
  { intros r d Hr Hlast.
    pose proof (series_max_spec _ _ Hlast) as [(t & Ht & Hc & Hd)%elem_of_group_dates _].
    destruct (recency_of_row df r t d Hr Ht Hc Hd)
      as (latest & own & Hlatest & Hown & _ & _ & ->).
    exists latest. split; [done|]. congruence. }
  destruct (Hrow r1 d1 Hr1 Hd1) as (latest & Hlatest & ->).
  destruct (Hrow r2 d2 Hr2 Hd2) as (latest' & Hlatest' & ->).
  rewrite Hlatest in Hlatest'. injection Hlatest' as <-.
  eexists _, _. split; [done|]. split; [done|].
  unfold days. apply Z.div_le_mono; [done|lia].
Qed.

Lemma length_remove_dups_le {A} `{EqDecision A} (l : list A) :
  (length (remove_dups l) ≤ length l)%nat.
Proof.
  induction l as [|x l IH]; simpl; [done|].
  destruct (decide_rel elem_of x l); simpl; lia.
Qed.

Lemma length_omap_le {A B} (f : A -> option B) (l : list A) :
  (length (omap f l) ≤ length l)%nat.
Proof.
  induction l as [|x l IH]; [done|]. cbn. destruct (f x); cbn; lia.
Qed.

(** X4. The Frequency of a customer never exceeds the number of the
    customer's rows. *)
Theorem X4_frequency_at_most_row_count (df : list Clean.row) (r : RFM) :
  r ∈ compute_rfm df ->
  Frequency r ≤ Z.of_nat (length (group df (CustomerID r))).
Proof.
  intros (t & _ & ->)%elem_of_compute_rfm. simpl. unfold nunique.
  rewrite omap_id_fmap.
  pose proof (length_remove_dups_le (omap Clean.InvoiceNo (group df (CustomerID r)))).
  pose proof (length_omap_le Clean.InvoiceNo (group df (CustomerID r))).
  lia.
Qed.
End rfm_more.

Section monetary.
Import data preprocessing.
Context `{!Extern}.

Lemma wrap64_mod (z : Z) : wrap64 z mod 2 ^ 64 = z mod 2 ^ 64.
Proof.
  unfold wrap64.
  rewrite <- Zminus_mod_idemp_l, Z.mod_mod by lia.
  rewrite Zminus_mod_idemp_l. f_equal. lia.
Qed.

(** Wrapping depends on the exact value modulo 2^64 only. *)
Lemma wrap64_congr (x y : Z) : x mod 2 ^ 64 = y mod 2 ^ 64 -> wrap64 x = wrap64 y.
Proof.
  intros Hxy. unfold wrap64.
  rewrite <- (Zplus_mod_idemp_l x), <- (Zplus_mod_idemp_l y), Hxy. done.
Qed.

Lemma wrap64_add (x y : Z) : wrap64 (wrap64 x + y) = wrap64 (x + y).
Proof.
  apply wrap64_congr.
  by rewrite <- Zplus_mod_idemp_l, wrap64_mod, Zplus_mod_idemp_l.
Qed.

Lemma Zsum_wrap (x : list Z) : wrap64 (Zsum (wrap64 <$> x)) = wrap64 (Zsum x).
Proof.
  induction x as [|z x IH]; [done|]. rewrite fmap_cons. simpl.
  rewrite wrap64_add, (Z.add_comm z), <- wrap64_add, IH, wrap64_add.
  f_equal. lia.
Qed.

Lemma int64_column_Some (x : list Number) (zs : list Z) :
  int64_column x = Some zs ↔ x = I64 <$> zs.
Proof.
  revert zs. induction x as [|a x IH]; intros zs; simpl.
  - split; [by intros [= <-]|]. by destruct zs.
  - destruct a as [z|f].
    + destruct (int64_column x) as [zs'|] eqn:Hx; simpl.
      * split.
        -- intros [= <-]. rewrite fmap_cons. f_equal. by apply IH.
        -- destruct zs as [|z' zs]; [done|]. rewrite fmap_cons. intros [= -> Hzs].
           apply IH in Hzs. by injection Hzs as ->.
      * split; [done|]. destruct zs as [|z' zs]; [done|]. rewrite fmap_cons.
        intros [= -> Hzs]. apply IH in Hzs. done.
    + split; [done|]. by destruct zs.
Qed.

Lemma series_sum_int64 (zs : list Z) : series_sum (I64 <$> zs) = I64 (wrap64 (Zsum zs)).
Proof.
  unfold series_sum. rewrite (proj2 (int64_column_Some _ zs)) by done.
  by rewrite foldl_add_Zsum.
Qed.

Lemma Zsum_cons (z : Z) (x : list Z) : Zsum (z :: x) = z + Zsum x.
Proof. reflexivity. Qed.

Lemma Zsum_fmap_ext {A} (f g : A -> Z) (ks : list A) :
  (∀ k, k ∈ ks -> f k = g k) -> Zsum (f <$> ks) = Zsum (g <$> ks).
Proof.
  induction ks as [|k ks IH]; intros Hfg; [reflexivity|].
  rewrite !fmap_cons, !Zsum_cons.
  rewrite (Hfg k) by left. rewrite IH; [reflexivity|].
  intros k' Hk'. apply Hfg. by right.
Qed.

Lemma Zsum_fmap_plus {A} (f g : A -> Z) (ks : list A) :
  Zsum ((fun k => f k + g k) <$> ks) = Zsum (f <$> ks) + Zsum (g <$> ks).
Proof.
  induction ks as [|k ks IH]; [done|].
  rewrite !fmap_cons, !Zsum_cons, IH. lia.
Qed.

Lemma Zsum_indicator_absent (c v : Z) (ks : list Z) :
  c ∉ ks -> Zsum ((fun k => if decide (c = k) then v else 0) <$> ks) = 0.
Proof.
  induction ks as [|k ks IH]; intros Hc; [reflexivity|].
  apply not_elem_of_cons in Hc as [Hne Hc].
  rewrite fmap_cons, Zsum_cons.
  rewrite decide_False by done. rewrite IH by done. lia.
Qed.

Lemma Zsum_indicator (c v : Z) (ks : list Z) :
  NoDup ks -> c ∈ ks ->
  Zsum ((fun k => if decide (c = k) then v else 0) <$> ks) = v.
Proof.
  induction 1 as [|k ks Hk Hnd IH]; intros Hc; [by apply elem_of_nil in Hc|].
  rewrite fmap_cons, Zsum_cons.
  destruct (decide (c = k)) as [->|Hne].
  - rewrite Zsum_indicator_absent by done. lia.
  - apply elem_of_cons in Hc as [?|Hc]; [done|]. rewrite IH by done. lia.
Qed.

(** Summing group by group is summing the whole column. *)
Lemma Zsum_groups {A} (key : A -> Z) (value : A -> Z) (df : list A) (ks : list Z) :
  NoDup ks -> (∀ t, t ∈ df -> key t ∈ ks) ->
  Zsum ((fun k => Zsum (value <$> filter (fun t => key t = k) df)) <$> ks)
  = Zsum (value <$> df).
Proof.
  intros Hnd. induction df as [|t df IH]; intros Hks.
  - clear. induction ks as [|k ks IH]; [reflexivity|].
    rewrite fmap_cons, Zsum_cons, IH. reflexivity.
  - rewrite (Zsum_fmap_ext _
      (fun k => (if decide (key t = k) then value t else 0)
                + Zsum (value <$> filter (fun t => key t = k) df))).
    + rewrite Zsum_fmap_plus, Zsum_indicator; [|done|apply Hks; left].
      rewrite IH; [reflexivity|]. intros t' Ht'. apply Hks. by right.
    + intros k _. rewrite filter_cons.
      destruct (decide (key t = k)); rewrite ?fmap_cons, ?Zsum_cons; lia.
Qed.

Lemma fmap_I64_inj (a b : list Z) : I64 <$> a = I64 <$> b -> a = b.
Proof.
  revert b. induction a as [|x a IH]; intros [|y b]; try done.
  rewrite !fmap_cons. intros [= -> Hab]. f_equal. by apply IH.
Qed.

Lemma wrap64_mod_eq (a b : Z) : wrap64 a = wrap64 b -> a mod 2 ^ 64 = b mod 2 ^ 64.
Proof. intros Hab. by rewrite <- (wrap64_mod a), Hab, wrap64_mod. Qed.

Lemma wrap64_in_int64 (z : Z) : in_int64 (wrap64 z).
Proof.
  unfold in_int64, wrap64.
  pose proof (Z.mod_pos_bound (z + 2 ^ 63) (2 ^ 64)). lia.
Qed.

(** X5. On an integer [TotalPrice] column aggregation loses no money, in
    [int64] arithmetic: every Monetary value is an [int64], and together
    they add up to the sum of the [TotalPrice] column modulo 2^64; when no
    customer's exact total leaves [int64] the two sums are equal. *)
Theorem X5_monetary_adds_up (df : list Clean.row) (totals : list Z) :
  Clean.TotalPrice <$> df = I64 <$> totals ->
  ∃ monetary,
    Monetary <$> compute_rfm df = I64 <$> monetary ∧
    Forall in_int64 monetary ∧
    Zsum monetary mod 2 ^ 64 = Zsum totals mod 2 ^ 64 ∧
    ((∀ c, in_int64 (Zsum (omap (fun t => match Clean.TotalPrice t with
                                          | I64 z => Some z
                                          | F64 _ => None
                                          end) (group df c)))) ->
     Zsum monetary = Zsum totals).
Proof.
  intros Htotals.
  set (value := fun t => match Clean.TotalPrice t with I64 z => Some z | F64 _ => None end).
  assert (∃ total : Clean.row -> Z, ∀ t, t ∈ df -> Clean.TotalPrice t = I64 (total t))
    as [total Htotal].
  { exists (fun t => match Clean.TotalPrice t with I64 z => z | F64 _ => 0 end).
    intros t Ht. apply list_elem_of_lookup in Ht as [i Hi].
    assert ((Clean.TotalPrice <$> df) !! i = Some (Clean.TotalPrice t)) as Hcell
      by (by rewrite list_lookup_fmap, Hi).
    rewrite Htotals, list_lookup_fmap in Hcell.
    destruct (totals !! i) as [z|]; [|discriminate]. injection Hcell as <-. done. }
  assert (∀ l : list Clean.row,
            (∀ t, t ∈ l -> t ∈ df) -> Clean.TotalPrice <$> l = I64 <$> (total <$> l))
    as Hcolumn.
  { intros l Hl. rewrite <- list_fmap_compose. apply list_fmap_ext.
    intros i t Hi. apply Htotal, Hl. by apply list_elem_of_lookup_2 in Hi. }
  assert (∀ l : list Clean.row, (∀ t, t ∈ l -> t ∈ df) -> omap value l = total <$> l)
    as Hvalues.
  { intros l Hl. induction l as [|t l IH]; [done|]. cbn. unfold value at 1.
    rewrite (Htotal t) by (apply Hl; left). cbn. f_equal.
    apply IH. intros t' Ht'. apply Hl. by right. }
  assert (totals = total <$> df) as ->.
  { apply fmap_I64_inj. by rewrite <- Htotals, (Hcolumn df). }
  assert (Zsum ((fun k => Zsum (total <$> group df k)) <$> group_keys df)
          = Zsum (total <$> df)) as Hgroups.
  { unfold group. apply (Zsum_groups Clean.CustomerID total); [apply NoDup_group_keys|].
    intros t Ht. apply elem_of_group_keys. eauto. }
  exists ((fun k => wrap64 (Zsum (total <$> group df k))) <$> group_keys df).
  split; [|split; [|split]].
  - unfold compute_rfm. rewrite <- !list_fmap_compose. apply list_fmap_ext.
    intros i k _. simpl.
    change (map Clean.TotalPrice (group df k)) with (Clean.TotalPrice <$> group df k).
    rewrite (Hcolumn (group df k)) by (by intros t [_ ?]%elem_of_group).
    apply series_sum_int64.
  - apply Forall_fmap, Forall_forall. intros k _. apply wrap64_in_int64.
  - apply wrap64_mod_eq. rewrite <- Hgroups.
    rewrite <- (Zsum_wrap ((fun k => Zsum (total <$> group df k)) <$> group_keys df)).
    by rewrite <- list_fmap_compose.
  - intros Hfits. rewrite <- Hgroups. apply Zsum_fmap_ext. intros k _.
    apply wrap64_id. specialize (Hfits k).
    by rewrite Hvalues in Hfits by (by intros t [_ ?]%elem_of_group).
Qed.
End monetary.

(** ** Cleaning *)

Section cleaning_more.
Import data.
Context `{!Extern}.

(** The rows that reach the parser are the valid rows, each with its own
    customer ID. *)
Lemma kept_valid (df : list Raw.row) :
  kept df = omap (fun r => c ← Raw.CustomerID r; Some (c, r)) (filter spec_valid_row df).
Proof.
  induction df as [|r df IH]; [done|].
  rewrite kept_cons, filter_cons.
  destruct (decide (spec_valid_row r)) as [Hv|Hv].
  - destruct Hv as ([c Hc] & _). rewrite Hc. cbn. rewrite Hc. cbn. by rewrite IH.
  - by destruct (Raw.CustomerID r).
Qed.

(** X6. The outcome of cleaning, rows or error, depends on the valid rows
    alone: a row that the filters remove has no influence, whatever its
    date.  Cleaning raises exactly when [pd.to_datetime] raises on the
    date column of the valid rows, and then with that error. *)
Theorem X6_cleaning_fails_only_on_dates_of_kept_rows (df : list Raw.row) :
  (∀ df', filter spec_valid_row df' = filter spec_valid_row df ->
          clean_transactions df' = clean_transactions df) ∧
  (∀ e, clean_transactions df = Raise e ↔
        to_datetime (Raw.InvoiceDate <$> filter spec_valid_row df) = Raise e) ∧
  ((∃ out, clean_transactions df = Ok out) ↔
   (∃ dates, to_datetime (Raw.InvoiceDate <$> filter spec_valid_row df) = Ok dates)).
Proof.
  split; [|split].
  - intros df' Hsame. by rewrite !clean_transactions_kept, !kept_valid, Hsame.
  - apply clean_transactions_Raise.
  - split.
    + intros [out [Hdates _]%clean_transactions_rows]. eauto.
    + intros [dates Hdates].
      destruct (clean_transactions_Ok df dates Hdates) as (out & Hout & _). eauto.
Qed.
End cleaning_more.

(** ** The centroid trainer's files *)

Section centroid_more.
Import config data data_load preprocessing train_kmeans.
Context `{!Extern}.
Implicit Types fs : gmap string File.

(** X8. A centroid run that raises has written nothing.  A run that
    returns has written the fitted scaler, the model and the fixed segment
    map, and the dataset exactly when [save_rfm] is set; every other file
    is as before. *)
Theorem X8_centroid_run_writes (n_clusters random_state : Z) (save_rfm : bool) fs :
  (∀ e fs', train_and_save n_clusters random_state save_rfm fs = (Raise e, fs') -> fs' = fs) ∧
  (∀ out fs', train_and_save n_clusters random_state save_rfm fs = (Ok out, fs') ->
     ∃ df rfm_log rfm_scaled scaler labels,
       (load_clean None fs).1 = Ok df ∧
       prepare_for_clustering (compute_rfm df) = Ok (rfm_log, rfm_scaled, scaler) ∧
       KMeans_fit_predict n_clusters random_state rfm_scaled = Ok labels ∧
       fs' !! (MODELS_DIR </> SCALER_FILENAME) = Some (JoblibFile (ScalerObj scaler)) ∧
       fs' !! (MODELS_DIR </> KMEANS_FILENAME)
         = Some (JoblibFile (KMeansObj n_clusters random_state labels)) ∧
       fs' !! (MODELS_DIR </> SEGMENT_MAP_FILENAME)
         = Some (JoblibFile (SegmentMapObj DEFAULT_SEGMENT_MAP)) ∧
       fs' !! (PROCESSED_DIR </> RFM_FILENAME)
         = (if save_rfm then Some (ParquetFile out) else fs !! (PROCESSED_DIR </> RFM_FILENAME)) ∧
       (∀ path, path ≠ MODELS_DIR </> SCALER_FILENAME ->
                path ≠ MODELS_DIR </> KMEANS_FILENAME ->
                path ≠ MODELS_DIR </> SEGMENT_MAP_FILENAME ->
                path ≠ PROCESSED_DIR </> RFM_FILENAME ->
                fs' !! path = fs !! path)).
Proof.
  pose proof (load_clean_store None fs) as Hstore.
  unfold train_and_save. store_steps.
  destruct (load_clean None fs) as [[df|e0] fs0]; simpl in Hstore; subst fs0.
  2:{ split; intros ? ? [= ]; by subst. }
  destruct (prepare_for_clustering (compute_rfm df))
    as [[[rfm_log rfm_scaled] scaler]|e0] eqn:Hprepare; simpl.
  2:{ split; intros ? ? [= ]; by subst. }
  destruct (KMeans_fit_predict _ _ _) as [labels|e0] eqn:Hfit.
  2:{ split; intros ? ? [= ]; by subst. }
  destruct (assign_column "Cluster" _ _) as [rfm1|e0].
  2:{ split; intros ? ? [= ]; by subst. }
  destruct (get_column "Cluster" rfm1) as [cluster|e0].
  2:{ split; intros ? ? [= ]; by subst. }
  destruct (assign_column "Segment" _ _) as [rfm2|e0].
  2:{ split; intros ? ? [= ]; by subst. }
  split; [by destruct save_rfm|].
  intros out fs'. destruct save_rfm; intros [= <- <-];
    exists df, rfm_log, rfm_scaled, scaler, labels;
    (split; [done|]); (split; [done|]); (split; [done|]).
  - repeat split.
    + by rewrite !lookup_insert_ne, lookup_insert_eq by done.
    + by rewrite !lookup_insert_ne, lookup_insert_eq by done.
    + by rewrite lookup_insert_ne, lookup_insert_eq by done.
    + by rewrite lookup_insert_eq.
    + intros path H1 H2 H3 H4. by rewrite !lookup_insert_ne by done.
  - repeat split.
    + by rewrite !lookup_insert_ne, lookup_insert_eq by done.
    + by rewrite lookup_insert_ne, lookup_insert_eq by done.
    + by rewrite lookup_insert_eq.
    + by rewrite !lookup_insert_ne by done.
    + intros path H1 H2 H3 H4. by rewrite !lookup_insert_ne by done.
Qed.
End centroid_more.

(** ** The density trainer's files *)

Section density_more.
Import config data data_load preprocessing train_dbscan.
Context `{!Extern}.
Implicit Types fs : gmap string File.

Lemma merge_and_save_Raise (rfm : DataFrame) fs fs' (e : exn) :
  merge_and_save rfm fs = (Raise e, fs') -> fs' = fs.
Proof.
  unfold merge_and_save, read_parquet. store_steps.
  destruct (fs !! (PROCESSED_DIR </> RFM_FILENAME)) as [file|] eqn:Hfile.
  - rewrite bool_decide_eq_true_2 by eauto. simpl. rewrite Hfile.
    destruct file as [table|obj|existing]; simpl; try (by intros [= _ <-]).
    destruct (has_column "Segment" existing && has_column "Cluster" existing); [|done].
    destruct (select _ existing) as [labelled|e0]; simpl; [done|by intros [= _ <-]].
  - rewrite bool_decide_eq_false_2 by (by intros [? ?]). done.
Qed.

Lemma fit_dbscan_Raise (eps : Q) (min_samples : Z) fs fs' (e : exn) :
  fit_dbscan eps min_samples fs = (Raise e, fs') -> fs' = fs.
Proof.
  unfold fit_dbscan.
  pose proof (scaled_features_store fs) as Hstore. revert Hstore. store_steps.
  destruct (scaled_features fs) as [[[rfm X]|e0] fs0]; simpl; intros ->;
    [|by intros [= _ <-]].
  destruct (DBSCAN_fit_predict eps min_samples X) as [labels|e0]; [|by intros [= _ <-]].
  destruct (assign_column _ _ _) as [out|e0]; [done|by intros [= _ <-]].
Qed.

(** X9. Whatever its outcome, a density run changes no file but its model
    and the dataset.  A run that raises leaves the dataset file as it was:
    it has written nothing at all, or only the density model. *)
Theorem X9_density_run_writes (eps : Q) (min_samples : Z) fs :
  (∀ path, path ≠ MODELS_DIR </> DBSCAN_FILENAME ->
           path ≠ PROCESSED_DIR </> RFM_FILENAME ->
           (train_and_save eps min_samples fs).2 !! path = fs !! path) ∧
  (∀ e fs', train_and_save eps min_samples fs = (Raise e, fs') ->
     fs' !! (PROCESSED_DIR </> RFM_FILENAME) = fs !! (PROCESSED_DIR </> RFM_FILENAME) ∧
     (fs' = fs ∨
      ∃ labels, fs' = <[MODELS_DIR </> DBSCAN_FILENAME :=
                          JoblibFile (DBSCANObj eps min_samples labels)]> fs)).
Proof.
  split; [intros path; apply train_and_save_frame|].
  intros e fs'. unfold train_and_save. store_steps.
  destruct (fit_dbscan eps min_samples fs) as [[fresh|e0] fs1] eqn:Hfit.
  - intros ->%merge_and_save_Raise.
    apply fit_dbscan_inv in Hfit as (rfm & X & labels & _ & _ & _ & ->).
    split; [by rewrite lookup_insert_ne|]. right. eauto.
  - intros [= <- <-]. apply fit_dbscan_Raise in Hfit as ->. eauto.
Qed.
End density_more.

(** ** The two trainers together *)

Section merge_unique.
Import config data data_load preprocessing train_kmeans train_dbscan.
Context `{!Extern}.
Implicit Types (fs : gmap string File) (l o p q : gmap string Cell).

Lemma filter_none {A} (P : A -> Prop) `{∀ x, Decision (P x)} (xs : list A) :
  (∀ x, x ∈ xs -> ¬ P x) -> filter P xs = [].
Proof.
  induction xs as [|y xs IH]; intros Hnone; [done|].
  rewrite filter_cons, decide_False by (apply Hnone; left).
  apply IH. intros x Hx. apply Hnone. by right.
Qed.

Lemma filter_unique_key {A B} `{EqDecision B} (key : A -> B) (xs : list A) (x : A) :
  NoDup (key <$> xs) -> x ∈ xs -> filter (fun y => key y = key x) xs = [x].
Proof.
  induction xs as [|y xs IH]; intros Hnd Hx; [by apply elem_of_nil in Hx|].
  rewrite fmap_cons in Hnd. apply NoDup_cons in Hnd as [Hy Hnd].
  rewrite filter_cons.
  destruct (decide (key y = key x)) as [Heq|Hne].
  - apply elem_of_cons in Hx as [->|Hx].
    + f_equal. apply filter_none. intros z Hz Hkey.
      apply Hy. rewrite <- Hkey. by apply list_elem_of_fmap_2.
    + destruct Hy. rewrite Heq. by apply list_elem_of_fmap_2.
  - apply elem_of_cons in Hx as [->|Hx]; [done|]. by apply IH.
Qed.

(** A left join whose right rows have distinct keys and are aligned with
    the left rows pairs the rows off. *)
Lemma merge_rows_aligned (on : string) (ls ps all : list (gmap string Cell))
    (extra : list string) :
  NoDup ((fun p => p !! on) <$> all) ->
  Forall2 (fun l p => key_match on l p ∧ p ∈ all) ls ps ->
  (l ← ls;
   match filter (key_match on l) all with
   | [] => [l ∪ null_row extra]
   | ms => map (fun r => l ∪ r) ms
   end) = zip_with (∪) ls ps.
Proof.
  intros Hnd. induction 1 as [|l p ls ps [[Hsome Hkey] Hp] _ IH]; [done|].
  rewrite bind_cons, IH. simpl.
  rewrite (list_filter_iff _ (fun q => q !! on = p !! on)).
  - by rewrite (filter_unique_key (fun q => q !! on) all p Hnd Hp).
  - intros q. unfold key_match. rewrite Hkey. split; [by intros [_ ->]|].
    intros ->. split; [by rewrite <- Hkey|done].
Qed.
End merge_unique.

Section pipeline.
Import config data data_load preprocessing train_kmeans.
Context `{!Extern}.
Implicit Types (fs : gmap string File) (l o p q : gmap string Cell).

Lemma train_kmeans_inv (n_clusters random_state : Z) (save_rfm : bool) fs fs' (out : DataFrame) :
  train_and_save n_clusters random_state save_rfm fs = (Ok out, fs') ->
  ∃ df labels,
    (load_clean None fs).1 = Ok df ∧
    length labels = length (compute_rfm df) ∧
    rows out = zip_with labelled_row (compute_rfm df) labels ∧
    columns out = ["CustomerID"; "Recency"; "Frequency"; "Monetary"; "Cluster"; "Segment"] ∧
    fs' !! RAW_DATA_PATH = fs !! RAW_DATA_PATH ∧
    (∃ rfm_log rfm_scaled scaler,
       prepare_for_clustering (compute_rfm df) = Ok (rfm_log, rfm_scaled, scaler) ∧
       fs' !! (MODELS_DIR </> SCALER_FILENAME) = Some (JoblibFile (ScalerObj scaler))) ∧
    (save_rfm = true -> fs' !! (PROCESSED_DIR </> RFM_FILENAME) = Some (ParquetFile out)).
Proof.
  pose proof (load_clean_store None fs) as Hstore.
  unfold train_and_save. store_steps.
  destruct (load_clean None fs) as [[df|e0] fs0]; simpl in Hstore; subst fs0; [|done].
  destruct (prepare_for_clustering (compute_rfm df))
    as [[[rfm_log rfm_scaled] scaler]|e0] eqn:Hprepare; simpl; [|done].
  destruct (KMeans_fit_predict _ _ _) as [labels|e0] eqn:Hfit; [|done].
  destruct (assign_column "Cluster" _ _) as [rfm1|e0] eqn:H1; [|done].
  pose proof (assign_column_inv _ _ _ _ H1) as (Hlen & _).
  simpl in Hlen. rewrite !length_fmap in Hlen.
  destruct (assign_labels (compute_rfm df) labels Hlen)
    as (out1 & out2 & Hout1 & Hcol & Hout2 & Hrows & Hcols).
  rewrite Hout1 in H1. injection H1 as <-. rewrite Hcol, Hout2.
  intros Hrun. exists df, labels.
  destruct save_rfm; injection Hrun as <- <-; repeat split; try done.
  all: try intros _.
  all: try (exists rfm_log, rfm_scaled, scaler; split; [done|]).
  all: repeat (rewrite lookup_insert_ne by done).
  all: by rewrite ?lookup_insert_eq.
Qed.

Lemma load_clean_raw (data_path : option string) fs fs' :
  fs' !! default RAW_DATA_PATH data_path = fs !! default RAW_DATA_PATH data_path ->
  (load_clean data_path fs').1 = (load_clean data_path fs).1.
Proof.
  intros Hraw. unfold load_clean, load_raw, read_csv. store_steps. rewrite Hraw.
  by destruct (fs !! default RAW_DATA_PATH data_path) as [[]|].
Qed.
End pipeline.

Section pipeline2.
Import config data data_load preprocessing train_kmeans.
Context `{!Extern}.
Implicit Types (fs : gmap string File) (l o p q : gmap string Cell).

Lemma Forall2_elem_of_r {A B} (P : A -> B -> Prop) (ls : list A) (ps all : list B) :
  Forall2 P ls ps -> (∀ y, y ∈ ps -> y ∈ all) ->
  Forall2 (fun x y => P x y ∧ y ∈ all) ls ps.
Proof.
  induction 1 as [|x y ls ps Hxy _ IH]; intros Hall; constructor.
  - split; [done|]. apply Hall. left.
  - apply IH. intros z Hz. apply Hall. by right.
Qed.

Lemma Forall2_zip_with_same {A B C D E} (P : D -> E -> Prop)
    (f : A -> B -> D) (g : A -> C -> E) (rs : list A) (bs : list B) (cs : list C) :
  length bs = length rs -> length cs = length rs ->
  (∀ r b c, P (f r b) (g r c)) ->
  Forall2 P (zip_with f rs bs) (zip_with g rs cs).
Proof.
  intros Hb Hc HP. revert bs cs Hb Hc.
  induction rs as [|r rs IH]; intros [|b bs] [|c cs] Hb Hc;
    try discriminate; simpl; constructor; [done|].
  apply IH; simpl in *; lia.
Qed.

(** The fresh row of the density trainer for one RFM row. *)
Lemma lookup_labels_labelled_row (r : RFM) (k : Z) :
  labels_of (labelled_row r k) !! "CustomerID" = Some (Int (CustomerID r)).
Proof.
  rewrite lookup_labels_of by in_list. unfold labelled_row, cells. by simplify_map_eq.
Qed.

Lemma labelled_keys (rs : list RFM) (kl : list Z) :
  length kl = length rs ->
  (fun p => p !! "CustomerID") <$> (labels_of <$> zip_with labelled_row rs kl)
  = (fun c => Some (Int c)) <$> (CustomerID <$> rs).
Proof.
  revert kl. induction rs as [|r rs IH]; intros [|k kl] Hlen; try done.
  simpl. rewrite lookup_labels_labelled_row. f_equal. apply IH. simpl in Hlen. lia.
Qed.

Lemma dbscan_cell_union_labels (r : RFM) (k d : Z) :
  <["DBSCAN_Cluster" := Int d]>
    (cells r)
  ∪ labels_of (labelled_row r k)
  = <["DBSCAN_Cluster" := Int d]> (labelled_row r k).
Proof.
  apply map_eq. intros i. rewrite lookup_union. unfold labels_of, labelled_row, cells.
  rewrite map_lookup_filter.
  destruct (decide (i = "DBSCAN_Cluster")) as [->|?]; [by simplify_map_eq|].
  destruct (decide (i = "Segment")) as [->|?]; [by simplify_map_eq|].
  destruct (decide (i = "Cluster")) as [->|?]; [by simplify_map_eq|].
  destruct (decide (i = "CustomerID")) as [->|?]; [by simplify_map_eq|].
  destruct (decide (i = "Recency")) as [->|?]; [by simplify_map_eq|].
  destruct (decide (i = "Frequency")) as [->|?]; [by simplify_map_eq|].
  destruct (decide (i = "Monetary")) as [->|?]; [by simplify_map_eq|].
  by simplify_map_eq.
Qed.
End pipeline2.

Section pipeline3.
Import config data data_load preprocessing train_kmeans.
Context `{!Extern}.
Implicit Types (fs : gmap string File) (l o p q : gmap string Cell).

(** X10. Centroid training followed by density training on the same raw
    file: the density run returns and persists a dataset whose rows are, in
    order and one for one, the rows of the centroid dataset, each extended
    by its [DBSCAN_Cluster] cell and otherwise unchanged. *)
Theorem X10_density_after_centroid_extends_rows (n_clusters random_state : Z)
    (eps : Q) (min_samples : Z) fs fs1 fs2 (ds fresh : DataFrame) :
  train_and_save n_clusters random_state true fs = (Ok ds, fs1) ->
  train_dbscan.fit_dbscan eps min_samples fs1 = (Ok fresh, fs2) ->
  ∃ out,
    train_dbscan.train_and_save eps min_samples fs1
      = (Ok out, <[PROCESSED_DIR </> RFM_FILENAME := ParquetFile out]> fs2) ∧
    columns out = ["CustomerID"; "Recency"; "Frequency"; "Monetary"; "DBSCAN_Cluster";
                   "Cluster"; "Segment"] ∧
    Forall2 (fun p o => p ⊆ o ∧ ∃ d, o = <["DBSCAN_Cluster" := Int d]> p)
            (rows ds) (rows out).
Proof.
  intros (df & kl & Hload & Hkl & Hrows & Hcols & Hraw & _ & Hds)%train_kmeans_inv Hfit.
  specialize (Hds eq_refl).
  pose proof (fit_dbscan_dataset _ _ _ _ _ Hfit) as Hdisk.
  pose proof (fresh_columns _ _ _ _ _ Hfit) as Hfcols.
  pose proof Hfit as (rfm & X & dl & Hsf & _ & Hassign & _)%fit_dbscan_inv.
  apply scaled_features_inv in Hsf as (scaler & df' & _ & Hload' & -> & _ & _).
  assert (df' = df) as ->.
  { pose proof (load_clean_raw None fs fs1 Hraw) as Heq.
    rewrite Hload' in Heq. simpl in Heq. rewrite Hload in Heq. by injection Heq. }
  apply assign_column_inv in Hassign as (Hdl & Hfrows & _).
  simpl in Hdl. rewrite !length_fmap in Hdl.
  assert (rows fresh
          = zip_with (fun r d => <["DBSCAN_Cluster" := Int d]> (cells r))
                     (compute_rfm df) dl) as Hfresh.
  { rewrite Hfrows. simpl. by rewrite zip_with_fmap_l, zip_with_fmap_r. }
  assert ("CustomerID" ∈ columns ds ∧ "Cluster" ∈ columns ds ∧ "Segment" ∈ columns ds)
    as (Hc1 & Hc2 & Hc3) by (rewrite Hcols; repeat split; in_list).
  pose proof (select_labels ds Hc1 Hc2 Hc3) as Hsel. unfold label_columns in Hsel at 1.
  exists (merge_left "CustomerID" fresh
            {| columns := label_columns; rows := map labels_of (rows ds) |}).
  split; [|split].
  - unfold train_dbscan.train_and_save. store_steps. rewrite Hfit.
    apply (merge_and_save_labelled fresh ds); [rewrite Hdisk; exact Hds|done..].
  - simpl. by rewrite Hfcols.
  - cbn [merge_left rows].
    rewrite (merge_rows_aligned "CustomerID" (rows fresh) (map labels_of (rows ds))
               (map labels_of (rows ds))).
    + rewrite Hfresh, Hrows. clear -Hkl Hdl. revert kl dl Hkl Hdl.
      induction (compute_rfm df) as [|r rs IH]; intros [|k kl] [|d dl] Hkl Hdl;
        try discriminate; simpl; constructor.
      * rewrite dbscan_cell_union_labels. split; [|eauto].
        apply insert_subseteq. unfold labelled_row, cells. by simplify_map_eq.
      * apply IH; simpl in *; lia.
    + rewrite Hrows.
      change (map labels_of (zip_with labelled_row (compute_rfm df) kl))
        with (labels_of <$> zip_with labelled_row (compute_rfm df) kl).
      rewrite labelled_keys by done.
      apply NoDup_fmap_2; [by intros c1 c2 [= ->]|].
      rewrite compute_rfm_keys. apply NoDup_group_keys.
    + apply Forall2_elem_of_r; [|done].
      rewrite Hfresh, Hrows. clear -Hkl Hdl. revert kl dl Hkl Hdl.
      induction (compute_rfm df) as [|r rs IH]; intros [|k kl] [|d dl] Hkl Hdl;
        try discriminate; simpl; constructor.
      * unfold key_match. rewrite lookup_labels_labelled_row.
        unfold cells.
        split; [|by simplify_map_eq]. exists (Int (CustomerID r)). by simplify_map_eq.
      * apply IH; simpl in *; lia.
Qed.
End pipeline3.

Section idem.
Import config data data_load preprocessing train_dbscan.
Context `{!Extern}.
Implicit Types (fs : gmap string File) (l o p q : gmap string Cell).

Lemma select_inv (cols : list string) (df d : DataFrame) :
  select cols df = Ok d ->
  d = {| columns := cols; rows := map (filter (fun kv => kv.1 ∈ cols)) (rows df) |} ∧
  ∀ c, c ∈ cols -> c ∈ columns df.
Proof.
  unfold select. destruct (list_find _ cols) as [[i c]|] eqn:Hfind; [done|].
  intros [= <-]. split; [done|]. intros c Hc.
  apply list_find_None in Hfind.
  pose proof (proj1 (Forall_forall _ _) Hfind c Hc) as Hin.
  by apply dec_stable in Hin.
Qed.

Lemma merge_and_save_inv (rfm out : DataFrame) fs fs' :
  merge_and_save rfm fs = (Ok out, fs') ->
  fs' = <[PROCESSED_DIR </> RFM_FILENAME := ParquetFile out]> fs ∧
  ((out = rfm ∧
    (fs !! (PROCESSED_DIR </> RFM_FILENAME) = None ∨
     (∃ existing, fs !! (PROCESSED_DIR </> RFM_FILENAME) = Some (ParquetFile existing) ∧
                  ¬ ("Cluster" ∈ columns existing ∧ "Segment" ∈ columns existing)))) ∨
   (∃ existing,
      fs !! (PROCESSED_DIR </> RFM_FILENAME) = Some (ParquetFile existing) ∧
      "CustomerID" ∈ columns existing ∧
      "Cluster" ∈ columns existing ∧ "Segment" ∈ columns existing ∧
      out = merge_left "CustomerID" rfm
              {| columns := label_columns; rows := map labels_of (rows existing) |})).
Proof.
  unfold merge_and_save, read_parquet. store_steps.
  destruct (fs !! (PROCESSED_DIR </> RFM_FILENAME)) as [file|] eqn:Hfile.
  - rewrite bool_decide_eq_true_2 by eauto. simpl. rewrite Hfile.
    destruct file as [table|obj|existing]; simpl; try done.
    destruct (has_column "Segment" existing) eqn:Hseg; simpl.
    + destruct (has_column "Cluster" existing) eqn:Hcl; simpl.
      * destruct (select _ existing) as [labelled|e0] eqn:Hsel; simpl; [|done].
        apply select_inv in Hsel as [-> Hcols].
        intros [= <- <-]. split; [done|]. right. exists existing.
        apply has_column_true in Hseg, Hcl.
        repeat split; try done. apply Hcols. in_list.
      * intros [= <- <-]. split; [done|]. left. split; [done|]. right.
        exists existing. split; [done|]. intros [Hc _].
        apply has_column_true in Hc. congruence.
    + intros [= <- <-]. split; [done|]. left. split; [done|]. right.
      exists existing. split; [done|]. intros [_ Hc].
      apply has_column_true in Hc. congruence.
  - rewrite bool_decide_eq_false_2 by (by intros [? ?]).
    intros [= <- <-]. split; [done|]. left. eauto.
Qed.

(** The first part of a density run reads only the scaler and the raw file. *)
Lemma fit_dbscan_reads (eps : Q) (min_samples : Z) fs fs' :
  fs' !! (MODELS_DIR </> SCALER_FILENAME) = fs !! (MODELS_DIR </> SCALER_FILENAME) ->
  fs' !! RAW_DATA_PATH = fs !! RAW_DATA_PATH ->
  (fit_dbscan eps min_samples fs').1 = (fit_dbscan eps min_samples fs).1.
Proof.
  intros Hscaler Hraw.
  unfold fit_dbscan, scaled_features, joblib_load, load_clean, load_raw, read_csv.
  store_steps. rewrite Hscaler.
  destruct (fs !! (MODELS_DIR </> SCALER_FILENAME)) as [[|obj|]|]; try done.
  change (default RAW_DATA_PATH None) with RAW_DATA_PATH. rewrite Hraw.
  destruct (fs !! RAW_DATA_PATH) as [[table| |]|]; try done. simpl.
  destruct (clean_transactions table) as [df|e0]; [|done]. simpl.
  destruct (apply_log1p (compute_rfm df)) as [rfm_log|e0]; [|done]. simpl.
  destruct (scaler_transform obj _) as [X|e0]; [|done]. simpl.
  destruct (DBSCAN_fit_predict eps min_samples X) as [labels|e0]; [|done]. simpl.
  by destruct (assign_column _ _ _).
Qed.
End idem.

Section remerge.
Context `{!Extern}.
Implicit Types (l o p q : gmap string Cell).

Lemma filter_fmap_list {A B} (P : B -> Prop) `{∀ y, Decision (P y)} (f : A -> B) (xs : list A) :
  filter P (f <$> xs) = f <$> filter (fun x => P (f x)) xs.
Proof.
  induction xs as [|x xs IH]; [done|].
  rewrite fmap_cons, !filter_cons, IH. by destruct (decide (P (f x))).
Qed.

Lemma filter_all {A} (P : A -> Prop) `{∀ x, Decision (P x)} (xs : list A) :
  (∀ x, x ∈ xs -> P x) -> filter P xs = xs.
Proof.
  induction xs as [|x xs IH]; intros Hall; [done|].
  rewrite filter_cons, decide_True by (apply Hall; left).
  f_equal. apply IH. intros y Hy. apply Hall. by right.
Qed.

Lemma bind_ext_elem {A B} (f g : A -> list B) (xs : list A) :
  (∀ x, x ∈ xs -> f x = g x) -> xs ≫= f = xs ≫= g.
Proof.
  induction xs as [|x xs IH]; intros Hfg; [done|].
  rewrite !bind_cons, (Hfg x) by left. f_equal. apply IH.
  intros y Hy. apply Hfg. by right.
Qed.

(** Among the rows produced group by group from rows with distinct keys,
    those with the key of [x] are the group of [x]. *)
Lemma filter_bind_unique {K} `{EqDecision K} (key : gmap string Cell -> K)
    (G : gmap string Cell -> list (gmap string Cell)) (xs : list (gmap string Cell)) x :
  NoDup (key <$> xs) -> x ∈ xs ->
  (∀ y o, y ∈ xs -> o ∈ G y -> key o = key y) ->
  filter (fun o => key o = key x) (xs ≫= G) = G x.
Proof.
  induction xs as [|y xs IH]; intros Hnd Hx HG; [by apply elem_of_nil in Hx|].
  rewrite fmap_cons in Hnd. apply NoDup_cons in Hnd as [Hy Hnd].
  rewrite bind_cons, filter_app.
  assert (∀ z, z ∈ xs -> key z ≠ key y) as Hother.
  { intros z Hz Heq. apply Hy. rewrite <- Heq. by apply list_elem_of_fmap_2. }
  apply elem_of_cons in Hx as [->|Hx].
  - rewrite filter_all by (intros o Ho; apply (HG y); [left|done]).
    rewrite (filter_none _ (xs ≫= G)); [by rewrite app_nil_r|].
    intros o (z & Ho & Hz)%list_elem_of_bind Heq.
    apply (Hother z Hz). rewrite <- Heq. symmetry. apply HG; [by right|done].
  - rewrite (filter_none _ (G y)).
    + simpl. apply IH; [done..|]. intros z o Hz. apply HG. by right.
    + intros o Ho Heq. apply (Hother x Hx). rewrite <- Heq.
      apply HG; [left|done].
Qed.
End remerge.

Section remerge2.
Import config data data_load preprocessing train_dbscan.
Context `{!Extern}.
Implicit Types (fs : gmap string File) (l o p q : gmap string Cell).

Lemma union_labels_of_union l p :
  (∀ i, i ∉ label_columns -> p !! i = None) -> l ∪ labels_of (l ∪ p) = l ∪ p.
Proof.
  intros Hdom. apply map_eq. intros i. rewrite !lookup_union.
  destruct (l !! i) as [v|] eqn:Hl; [by destruct (labels_of (l ∪ p) !! i), (p !! i)|].
  rewrite !(left_id_L None _).
  destruct (decide (i ∈ label_columns)) as [Hi|Hi].
  - rewrite lookup_labels_of by done. rewrite lookup_union, Hl. by rewrite (left_id_L None _).
  - rewrite (Hdom i Hi). apply map_lookup_filter_None. by right; intros ? _ ?.
Qed.

Lemma labels_of_dom p i : i ∉ label_columns -> labels_of p !! i = None.
Proof. intros Hi. apply map_lookup_filter_None. by right; intros ? _ ?. Qed.

Lemma null_row_dom i : i ∉ label_columns -> null_row ["Cluster"; "Segment"] !! i = None.
Proof.
  intros Hi. unfold null_row. simpl.
  rewrite !lookup_insert_ne; [done|..]; intros <-; apply Hi; in_list.
Qed.

(** Joining the labels of a join's own output onto the same left table
    gives that output again. *)
Lemma remerge (fresh existing : DataFrame) :
  NoDup ((fun l => l !! "CustomerID") <$> rows fresh) ->
  (∀ l, l ∈ rows fresh -> is_Some (l !! "CustomerID")) ->
  let out := merge_left "CustomerID" fresh
               {| columns := label_columns; rows := map labels_of (rows existing) |} in
  merge_left "CustomerID" fresh {| columns := label_columns; rows := map labels_of (rows out) |}
  = out.
Proof.
  intros Hnd Hkey out. subst out. unfold merge_left. cbn [rows columns]. f_equal.
  set (ex := filter (fun c : string => c ≠ "CustomerID") label_columns).
  set (G := fun l => match filter (key_match "CustomerID" l) (map labels_of (rows existing)) with
                     | [] => [l ∪ null_row ex]
                     | ms => map (fun r => l ∪ r) ms
                     end).
  apply bind_ext_elem. intros l Hl.
  assert (∀ y o, y ∈ rows fresh -> o ∈ G y ->
            ∃ p', o = y ∪ p' ∧ ∀ i, i ∉ label_columns -> p' !! i = None) as HG.
  { intros y o Hy. unfold G.
    destruct (filter (key_match "CustomerID" y) (map labels_of (rows existing)))
      as [|m ms] eqn:Hf.
    - intros ->%list_elem_of_singleton. exists (null_row ex). split; [done|].
      apply null_row_dom.
    - change (o ∈ (fun r => y ∪ r) <$> (m :: ms) -> ∃ p', o = y ∪ p' ∧
                ∀ i, i ∉ label_columns -> p' !! i = None).
      intros (p' & -> & Hp')%list_elem_of_fmap. exists p'. split; [done|].
      rewrite <- Hf in Hp'. apply list_elem_of_filter in Hp' as [_ Hp'].
      apply list_elem_of_fmap in Hp' as (p & -> & _). apply labels_of_dom. }
  change (map labels_of (rows fresh ≫= G)) with (labels_of <$> (rows fresh ≫= G)).
  rewrite filter_fmap_list.
  rewrite (list_filter_iff _ (fun o => o !! "CustomerID" = l !! "CustomerID")).
  2:{ intros o. unfold key_match. rewrite lookup_labels_of by in_list.
      split; [by intros [_ ->]|]. intros ->. split; [by apply Hkey|done]. }
  rewrite (filter_bind_unique (fun o => o !! "CustomerID") G (rows fresh) l Hnd Hl).
  2:{ intros y o Hy Ho. destruct (HG y o Hy Ho) as (p' & -> & _).
      destruct (Hkey y Hy) as [c Hc]. by rewrite (lookup_union_Some_l _ _ _ _ Hc). }
  assert ((fun r => l ∪ r) <$> (labels_of <$> G l) = G l) as Hsame.
  { rewrite <- list_fmap_compose. rewrite <- (list_fmap_id (G l)) at 2.
    apply Forall_fmap_ext_1, Forall_forall. intros o Ho. simpl.
    destruct (HG l o Hl Ho) as (p' & -> & Hdom). by apply union_labels_of_union. }
  destruct (G l) as [|o os] eqn:HGl.
  - exfalso. revert HGl. unfold G.
    by destruct (filter (key_match "CustomerID" l) (map labels_of (rows existing))).
  - exact Hsame.
Qed.
End remerge2.

Section idem2.
Import config data data_load preprocessing train_dbscan.
Context `{!Extern}.
Implicit Types (fs : gmap string File) (l o p q : gmap string Cell).

Lemma fit_dbscan_again (eps : Q) (min_samples : Z) fs fs' fs1 (fresh : DataFrame) :
  fs' !! (MODELS_DIR </> SCALER_FILENAME) = fs !! (MODELS_DIR </> SCALER_FILENAME) ->
  fs' !! RAW_DATA_PATH = fs !! RAW_DATA_PATH ->
  fit_dbscan eps min_samples fs = (Ok fresh, fs1) ->
  ∃ obj, fs1 = <[MODELS_DIR </> DBSCAN_FILENAME := obj]> fs ∧
         fit_dbscan eps min_samples fs' = (Ok fresh, <[MODELS_DIR </> DBSCAN_FILENAME := obj]> fs').
Proof.
  intros Hscaler Hraw.
  unfold fit_dbscan, scaled_features, joblib_load, load_clean, load_raw, read_csv.
  store_steps. rewrite Hscaler.
  destruct (fs !! (MODELS_DIR </> SCALER_FILENAME)) as [[|obj|]|]; try done.
  change (default RAW_DATA_PATH None) with RAW_DATA_PATH. rewrite Hraw.
  destruct (fs !! RAW_DATA_PATH) as [[table| |]|]; try done. simpl.
  destruct (clean_transactions table) as [df|e0]; [|done]. simpl.
  destruct (apply_log1p (compute_rfm df)) as [rfm_log|e0]; [|done]. simpl.
  destruct (scaler_transform obj _) as [X|e0]; [|done]. simpl.
  destruct (DBSCAN_fit_predict eps min_samples X) as [labels|e0]; [|done]. simpl.
  destruct (assign_column _ _ _) as [out|e0]; [|done]. simpl.
  intros [= <- <-]. eauto.
Qed.

Lemma fresh_keys (eps : Q) (min_samples : Z) fs fs1 (fresh : DataFrame) :
  fit_dbscan eps min_samples fs = (Ok fresh, fs1) ->
  NoDup ((fun l => l !! "CustomerID") <$> rows fresh).
Proof.
  intros (rfm & X & dl & Hsf & _ & Hassign & _)%fit_dbscan_inv.
  apply scaled_features_inv in Hsf as (_ & df & _ & _ & -> & _ & _).
  apply assign_column_inv in Hassign as (Hlen & -> & _).
  simpl in Hlen. rewrite !length_fmap in Hlen. simpl.
  assert (∀ (rs : list RFM) (ds : list Z), length ds = length rs ->
            (fun l : gmap string Cell => l !! "CustomerID")
              <$> zip_with (fun r v => <["DBSCAN_Cluster" := v]> r)
                    (map cells rs) (Int <$> ds)
            = (fun c => Some (Int c)) <$> (CustomerID <$> rs)) as Hkeys.
  { induction rs as [|r rs IH]; intros [|d ds] Hds; try done.
    simpl. unfold cells at 1. rewrite lookup_insert_ne by done. rewrite lookup_insert_eq.
    f_equal. apply IH. simpl in Hds. lia. }
  rewrite Hkeys by done.
  apply NoDup_fmap_2; [by intros c1 c2 [= ->]|].
  rewrite compute_rfm_keys. apply NoDup_group_keys.
Qed.
End idem2.

Section idem3.
Import config data data_load preprocessing train_dbscan.
Context `{!Extern}.
Implicit Types (fs : gmap string File) (l o p q : gmap string Cell).

(** X11. Running the density trainer again changes nothing: on the store a
    successful run leaves behind, a second run with the same parameters
    returns the same dataset and leaves every file as it is, although the
    second run joins against the dataset the first one wrote. *)
Theorem X11_density_run_idempotent (eps : Q) (min_samples : Z) fs fs' (out : DataFrame) :
  train_and_save eps min_samples fs = (Ok out, fs') ->
  train_and_save eps min_samples fs' = (Ok out, fs').
Proof.
  unfold train_and_save. store_steps.
  destruct (fit_dbscan eps min_samples fs) as [[fresh|e0] fs1] eqn:Hfit; [|done].
  intros [Hfs' Hcase]%merge_and_save_inv.
  pose proof (fresh_keys _ _ _ _ _ Hfit) as Hnd.
  pose proof (fresh_columns _ _ _ _ _ Hfit) as Hcols.
  assert (∀ l, l ∈ rows fresh -> is_Some (l !! "CustomerID")) as Hkey.
  { intros l Hl. destruct (fresh_row _ _ _ _ _ l Hfit Hl) as ([c Hc] & _). eauto. }
  assert (∀ path, path ≠ MODELS_DIR </> DBSCAN_FILENAME ->
            path ≠ PROCESSED_DIR </> RFM_FILENAME -> fs' !! path = fs !! path) as Hframe.
  { intros path H1 H2. subst fs'. rewrite lookup_insert_ne by done.
    pose proof (fit_dbscan_frame eps min_samples fs path H1) as Hf.
    by rewrite Hfit in Hf. }
  destruct (fit_dbscan_again eps min_samples fs fs' fs1 fresh) as (obj & -> & Hfit');
    [by apply Hframe..|done|].
  rewrite Hfit'.
  assert (<[MODELS_DIR </> DBSCAN_FILENAME := obj]> fs' = fs') as ->.
  { apply insert_id. subst fs'. by rewrite lookup_insert_ne, lookup_insert_eq by done. }
  assert (fs' !! (PROCESSED_DIR </> RFM_FILENAME) = Some (ParquetFile out)) as Hfile.
  { subst fs'. by rewrite lookup_insert_eq. }
  assert (<[PROCESSED_DIR </> RFM_FILENAME := ParquetFile out]> fs' = fs') as Hid
    by (by apply insert_id).
  destruct Hcase as [[-> _]|(existing & _ & _ & _ & _ & ->)].
  - rewrite (merge_and_save_unlabelled fresh fresh fs' Hfile); [by rewrite Hid|].
    rewrite Hcols. intros [Hc _]. revert Hc. not_in_list.
  - set (out := merge_left "CustomerID" fresh
                  {| columns := label_columns; rows := map labels_of (rows existing) |}) in *.
    assert (columns out = ["CustomerID"; "Recency"; "Frequency"; "Monetary";
                           "DBSCAN_Cluster"; "Cluster"; "Segment"]) as Hocols
      by (unfold out; simpl; by rewrite Hcols).
    assert ("CustomerID" ∈ columns out ∧ "Cluster" ∈ columns out ∧ "Segment" ∈ columns out)
      as (Hc1 & Hc2 & Hc3) by (rewrite Hocols; repeat split; in_list).
    pose proof (select_labels out Hc1 Hc2 Hc3) as Hsel. unfold label_columns in Hsel at 1.
    rewrite (merge_and_save_labelled fresh out _ fs' Hfile Hc2 Hc3 Hsel).
    pose proof (remerge fresh existing Hnd Hkey) as Hre.
    cbv zeta in Hre. fold out in Hre. rewrite Hre. by rewrite Hid.
Qed.
End idem3.

(** ** The query service *)

Section service_more.
Import config app.
Context `{!Extern, !Builtins}.
Implicit Types st : state.

Lemma customer_route_served st (df : DataFrame) (customer_id : string) :
  dataset_served st df ->
  analytics_customer customer_id st
  = (match py_float customer_id with
     | None => mret (error "customer_id must be numeric" 400)
     | Some cid =>
         _ ← pure (get_column "CustomerID" df);
         match matching_rows df cid with
         | [] => mret (error ("Customer " +:+ customer_id +:+ " not found") 404)
         | r :: _ =>
             id ← pure (item df r "CustomerID" ≫= float_);
             segment ← pure (item df r "Segment");
             cluster ← pure (item df r "Cluster" ≫= int_);
             recency ← pure (item df r "Recency" ≫= float_);
             frequency ← pure (item df r "Frequency" ≫= float_);
             monetary ← pure (item df r "Monetary" ≫= float_);
             let out := [("CustomerID", id); ("Segment", json_of_cell segment);
                         ("Cluster", cluster); ("Recency", recency);
                         ("Frequency", frequency); ("Monetary", monetary)] in
             if has_column "DBSCAN_Cluster" df
             then
               dbscan ← pure (item df r "DBSCAN_Cluster" ≫= int_);
               mret {| body := JObj (out ++ [("DBSCAN_Cluster", dbscan)]); status := 200 |}
             else mret {| body := JObj out; status := 200 |}
         end
     end) {| disk := disk st; _rfm_df := Some df |}.
Proof.
  intros Hserved. unfold analytics_customer.
  unfold mbind at 1. unfold App_bind at 1.
  by rewrite (get_rfm_df_served st df Hserved).
Qed.

(** X12. With the dataset served, an ID that parses to a number equal to
    no customer ID gets the 404 response that quotes the ID as sent.  The
    float [nan] parses and equals no ID, and [inf] parses and equals no ID
    that is finite, so they get 404 and not 400. *)
Theorem X12_unknown_customer_404 st (df : DataFrame) (customer_id : string) (cid : PyFloat) :
  dataset_served st df -> "CustomerID" ∈ columns df ->
  py_float customer_id = Some cid ->
  (∀ r, r ∈ rows df -> cell_eq_float (default Null (r !! "CustomerID")) cid = false) ∨
  cid = NaN ∨
  ((∀ q, cid ≠ Finite q) ∧
   (∀ r negative, r ∈ rows df -> r !! "CustomerID" ≠ Some (Inf negative))) ->
  analytics_customer customer_id st
  = (Ok (error ("Customer " +:+ customer_id +:+ " not found") 404),
     {| disk := disk st; _rfm_df := Some df |}).
Proof.
  intros Hserved Hcol Hid Hnone.
  rewrite (customer_route_served st df customer_id Hserved), Hid.
  assert (matching_rows df cid = []) as ->.
  { apply filter_none. intros r Hr. destruct Hnone as [Hnone|[->|[Hinf Hcells]]].
    - by rewrite Hnone.
    - by destruct (default Null (r !! "CustomerID")) as [| | |[]|].
    - specialize (Hcells r). destruct (r !! "CustomerID") as [[|z|q|negative|s]|]; simpl;
        try (by destruct cid).
      + destruct cid as [q'| | |]; [by destruct (Hinf q')|done..].
      + destruct cid as [q'| | |]; [by destruct (Hinf q')|done..].
      + by destruct (Hcells negative Hr). }
  app_steps. unfold get_column. by rewrite (proj2 (has_column_true _ _) Hcol).
Qed.
End service_more.

Section service_raises.
Import config app.
Context `{!Extern, !Builtins}.
Implicit Types st : state.

Lemma matching_row_id (df : DataFrame) (cid : PyFloat) (r : gmap string Cell)
    (rest : list (gmap string Cell)) :
  "CustomerID" ∈ columns df -> matching_rows df cid = r :: rest ->
  ∃ j, (item df r "CustomerID" ≫= float_) = Ok j.
Proof.
  intros Hcol Hrows.
  assert (r ∈ matching_rows df cid) as [Heq _]%list_elem_of_filter by (rewrite Hrows; left).
  unfold item. rewrite (proj2 (has_column_true _ _) Hcol).
  destruct (default Null (r !! "CustomerID")) as [|z|q|negative|s]; simpl in *;
    try discriminate; by destruct cid; eauto.
Qed.

(** X13. A dataset without a [Segment] column, as the density trainer
    persists when no centroid run came before, makes the routes raise:
    the overview raises [KeyError] on the column, and so does the customer
    route for every customer that exists. *)
Theorem X13_no_segment_column_raises st (df : DataFrame) :
  dataset_served st df -> "Segment" ∉ columns df ->
  analytics_overview st
    = (Raise (KeyError "Segment"), {| disk := disk st; _rfm_df := Some df |}) ∧
  (∀ customer_id cid r rest,
     py_float customer_id = Some cid -> "CustomerID" ∈ columns df ->
     matching_rows df cid = r :: rest ->
     analytics_customer customer_id st
       = (Raise (KeyError "Segment"), {| disk := disk st; _rfm_df := Some df |})).
Proof.
  intros Hserved Hno.
  assert (has_column "Segment" df = false) as Hseg by (by apply bool_decide_eq_false).
  split.
  - unfold analytics_overview. unfold mbind at 1. unfold App_bind at 1.
    rewrite (get_rfm_df_served st df Hserved). app_steps.
    unfold get_column. by rewrite Hseg.
  - intros customer_id cid r rest Hid Hcol Hrows.
    destruct (matching_row_id df cid r rest Hcol Hrows) as [j Hj].
    rewrite (customer_route_served st df customer_id Hserved), Hid, Hrows.
    app_steps. unfold get_column. rewrite (proj2 (has_column_true _ _) Hcol).
    unfold mbind in Hj. rewrite Hj. unfold item at 1. by rewrite Hseg.
Qed.

(** X14. A customer whose [Cluster] cell is null, as the density join
    leaves a customer that the centroid run never saw, makes the customer
    route raise [ValueError]: [int] of a NaN. *)
Theorem X14_null_cluster_raises st (df : DataFrame) (customer_id : string) (cid : PyFloat)
    (r : gmap string Cell) (rest : list (gmap string Cell)) :
  dataset_served st df ->
  "CustomerID" ∈ columns df -> "Segment" ∈ columns df -> "Cluster" ∈ columns df ->
  py_float customer_id = Some cid ->
  matching_rows df cid = r :: rest ->
  default Null (r !! "Cluster") = Null ->
  analytics_customer customer_id st
    = (Raise (ValueError "cannot convert float NaN to integer"),
       {| disk := disk st; _rfm_df := Some df |}).
Proof.
  intros Hserved Hcol Hseg Hcl Hid Hrows Hnull.
  destruct (matching_row_id df cid r rest Hcol Hrows) as [j Hj].
  rewrite (customer_route_served st df customer_id Hserved), Hid, Hrows.
  app_steps. unfold get_column. rewrite (proj2 (has_column_true _ _) Hcol).
  unfold mbind in Hj. rewrite Hj. unfold item.
  rewrite (proj2 (has_column_true _ _) Hseg), (proj2 (has_column_true _ _) Hcl).
  by rewrite Hnull.
Qed.
End service_raises.

Section service_success.
Import config preprocessing train_kmeans app.
Context `{!Extern, !Builtins}.
Implicit Types st : state.



End service_success.

Section service_cache.
Import config app.
Context `{!Extern, !Builtins}.
Implicit Types st : state.

Lemma stateless_pure {A} (r : result A) : stateless (pure r).
Proof. by exists r. Qed.

Lemma stateless_ret {A} (a : A) : stateless (mret a : App A).
Proof. by exists (Ok a). Qed.

Lemma stateless_bind {A B} (m : App A) (k : A -> App B) :
  stateless m -> (∀ a, stateless (k a)) -> stateless (m ≫= k).
Proof.
  intros [r Hm] Hk. destruct r as [a|e].
  - destruct (Hk a) as [rb Hb]. exists rb. intros st.
    unfold mbind, App_bind. by rewrite Hm, Hb.
  - exists (Raise e). intros st. unfold mbind, App_bind. by rewrite Hm.
Qed.

Lemma stateless_customer_body (df : DataFrame) (customer_id : string) :
  stateless
    (match py_float customer_id with
     | None => mret (error "customer_id must be numeric" 400)
     | Some cid =>
         _ ← pure (get_column "CustomerID" df);
         match matching_rows df cid with
         | [] => mret (error ("Customer " +:+ customer_id +:+ " not found") 404)
         | r :: _ =>
             id ← pure (item df r "CustomerID" ≫= float_);
             segment ← pure (item df r "Segment");
             cluster ← pure (item df r "Cluster" ≫= int_);
             recency ← pure (item df r "Recency" ≫= float_);
             frequency ← pure (item df r "Frequency" ≫= float_);
             monetary ← pure (item df r "Monetary" ≫= float_);
             let out := [("CustomerID", id); ("Segment", json_of_cell segment);
                         ("Cluster", cluster); ("Recency", recency);
                         ("Frequency", frequency); ("Monetary", monetary)] in
             if has_column "DBSCAN_Cluster" df
             then
               dbscan ← pure (item df r "DBSCAN_Cluster" ≫= int_);
               mret {| body := JObj (out ++ [("DBSCAN_Cluster", dbscan)]); status := 200 |}
             else mret {| body := JObj out; status := 200 |}
         end
     end : App Response).
Proof.
  destruct (py_float customer_id) as [cid|]; [|apply stateless_ret].
  apply stateless_bind; [apply stateless_pure|]. intros _.
  destruct (matching_rows df cid) as [|r rest]; [apply stateless_ret|].
  repeat (apply stateless_bind; [apply stateless_pure|]; intros ?).
  destruct (has_column "DBSCAN_Cluster" df); [|apply stateless_ret].
  apply stateless_bind; [apply stateless_pure|]. intros ?. apply stateless_ret.
Qed.

(** X16. Once the dataset is cached the routes never look at the disk
    again: a request leaves the cached state as it is, and its response is
    the one the first request gave, whatever has since been written to or
    removed from the disk. *)
Theorem X16_cached_dataset_hides_disk st (df : DataFrame) (fs' : gmap string File) :
  dataset_served st df ->
  let cached := {| disk := disk st; _rfm_df := Some df |} in
  let later := {| disk := fs'; _rfm_df := Some df |} in
  (analytics_overview st).2 = cached ∧
  analytics_overview later = ((analytics_overview st).1, later) ∧
  (analytics_segments st).2 = cached ∧
  analytics_segments later = ((analytics_segments st).1, later) ∧
  (analytics_summary st).2 = cached ∧
  analytics_summary later = ((analytics_summary st).1, later) ∧
  (∀ customer_id,
     (analytics_customer customer_id st).2 = cached ∧
     analytics_customer customer_id later = ((analytics_customer customer_id st).1, later)).
Proof.
  intros Hserved cached later.
  assert (dataset_served later df) as Hlater by (by left).
  pose proof (get_rfm_df_served st df Hserved) as Hst.
  pose proof (get_rfm_df_served later df Hlater) as Hl. simpl in Hl. fold later in Hl.
  fold cached in Hst.
  assert (∀ (k : option DataFrame -> App Response),
            stateless (k (Some df)) ->
            ((get_rfm_df ≫= k) st).2 = cached ∧
            (get_rfm_df ≫= k) later = (((get_rfm_df ≫= k) st).1, later)) as Hroute.
  { intros k [r Hk]. unfold mbind, App_bind. by rewrite Hst, Hl, !Hk. }
  repeat split; try intros customer_id; try split.
  all: try (apply Hroute; clear).
  all: try (apply stateless_bind; [apply stateless_pure|]; intros ?).
  all: try (apply stateless_bind; [apply stateless_pure|]; intros ?).
  all: try apply stateless_ret.
  all: try apply stateless_customer_body.
Qed.
End service_cache.

(** ** The cached handles and the health route *)

Section handles_more.
Import config data data_load preprocessing app_handles.
Context `{!Extern}.
Implicit Types (fs : gmap string File) (h : handles).

Lemma train_kmeans_models (n_clusters random_state : Z) (save_rfm : bool) fs fs'
    (out : DataFrame) :
  train_kmeans.train_and_save n_clusters random_state save_rfm fs = (Ok out, fs') ->
  ∃ labels,
    fs' !! (MODELS_DIR </> KMEANS_FILENAME)
      = Some (JoblibFile (KMeansObj n_clusters random_state labels)) ∧
    fs' !! (MODELS_DIR </> SEGMENT_MAP_FILENAME)
      = Some (JoblibFile (SegmentMapObj train_kmeans.DEFAULT_SEGMENT_MAP)) ∧
    fs' !! (MODELS_DIR </> DBSCAN_FILENAME) = fs !! (MODELS_DIR </> DBSCAN_FILENAME) ∧
    fs' !! (PROCESSED_DIR </> RFM_FILENAME)
      = (if save_rfm then Some (ParquetFile out) else fs !! (PROCESSED_DIR </> RFM_FILENAME)).
Proof.
  pose proof (load_clean_store None fs) as Hstore.
  unfold train_kmeans.train_and_save. store_steps.
  destruct (load_clean None fs) as [[df|e0] fs0]; simpl in Hstore; subst fs0; [|done].
  destruct (prepare_for_clustering (compute_rfm df))
    as [[[rfm_log rfm_scaled] scaler]|e0]; simpl; [|done].
  destruct (KMeans_fit_predict _ _ _) as [labels|e0]; [|done].
  destruct (assign_column "Cluster" _ _) as [rfm1|e0]; [|done].
  destruct (get_column "Cluster" rfm1) as [cluster|e0]; [|done].
  destruct (assign_column "Segment" _ _) as [rfm2|e0]; [|done].
  intros Hrun. exists labels.
  destruct save_rfm; injection Hrun as <- <-; repeat split.
  all: repeat (rewrite lookup_insert_ne by done).
  all: by rewrite ?lookup_insert_eq.
Qed.

(** X17. What the health route reports after training.  After a centroid
    run that returned, [models_loaded] is true and [rfm_data_available] is
    true if the run saved the dataset (else as before); [dbscan_loaded] is
    as before.  After a density run that returned, [dbscan_loaded] and
    [rfm_data_available] are true, and [models_loaded] tells whether the
    centroid model file exists. *)
Theorem X17_health_after_training fs :
  (∀ n_clusters random_state save_rfm out fs',
     train_kmeans.train_and_save n_clusters random_state save_rfm fs = (Ok out, fs') ->
     health fs' = {| status := "ok"; models_loaded := true;
                     dbscan_loaded := dbscan_loaded (health fs);
                     rfm_data_available := save_rfm || rfm_data_available (health fs) |}) ∧
  (∀ eps min_samples out fs',
     train_dbscan.train_and_save eps min_samples fs = (Ok out, fs') ->
     health fs' = {| status := "ok";
                     models_loaded := exists_ (MODELS_DIR </> "kmeans.joblib") fs;
                     dbscan_loaded := true;
                     rfm_data_available := true |}).
Proof.
  split.
  - intros n_clusters random_state save_rfm out fs' Hrun.
    pose proof Hrun as (labels & Hk & _ & Hd & Hr)%train_kmeans_models.
    apply train_kmeans_inv in Hrun as (df & _ & _ & _ & _ & _ & _ & Hfitted & _).
    destruct Hfitted as (rfm_log & rfm_scaled & scaler & _ & Hs).
    unfold health, exists_. simpl.
    change (MODELS_DIR </> "scaler.joblib") with (MODELS_DIR </> SCALER_FILENAME).
    change (MODELS_DIR </> "kmeans.joblib") with (MODELS_DIR </> KMEANS_FILENAME).
    change (MODELS_DIR </> "dbscan.joblib") with (MODELS_DIR </> DBSCAN_FILENAME).
    rewrite Hs, Hk, Hd, Hr.
    rewrite !bool_decide_eq_true_2 by eauto. simpl. f_equal.
    destruct save_rfm; [by rewrite bool_decide_eq_true_2 by eauto|done].
  - intros eps min_samples out fs'. unfold train_dbscan.train_and_save. store_steps.
    destruct (train_dbscan.fit_dbscan eps min_samples fs) as [[fresh|e0] fs1] eqn:Hfit;
      [|done].
    intros [-> _]%merge_and_save_inv.
    pose proof Hfit as (rfm & X & labels & Hsf & _ & _ & ->)%fit_dbscan_inv.
    apply scaled_features_inv in Hsf as (scaler & _ & Hscaler & _).
    unfold health, exists_. simpl.
    change (MODELS_DIR </> "scaler.joblib") with (MODELS_DIR </> SCALER_FILENAME).
    change (MODELS_DIR </> "kmeans.joblib") with (MODELS_DIR </> KMEANS_FILENAME).
    change (MODELS_DIR </> "dbscan.joblib") with (MODELS_DIR </> DBSCAN_FILENAME).
    rewrite lookup_insert_eq.
    rewrite !(lookup_insert_ne _ (PROCESSED_DIR </> RFM_FILENAME)) by done.
    rewrite lookup_insert_eq.
    rewrite !(lookup_insert_ne _ (MODELS_DIR </> DBSCAN_FILENAME)) by done.
    rewrite Hscaler. by rewrite !bool_decide_eq_true_2 by eauto.
Qed.
End handles_more.

Section getters_more.
Import config data data_load preprocessing app_handles.
Context `{!Extern}.
Implicit Types (fs : gmap string File) (h : handles).

(** X18. The density model is optional to the service, the scaler is not.
    With no file and an empty handle, [get_dbscan] returns [None] without
    raising and caches nothing, while [get_scaler] raises
    [FileNotFoundError] on its path.  After a density run has written the
    model, the same process's next [get_dbscan] loads that run's model, and
    from then on returns it whatever the disk holds. *)
Theorem X18_optional_density_model (eps : Q) (min_samples : Z) fs fs' h (out : DataFrame) :
  _dbscan h = None -> fs !! (MODELS_DIR </> DBSCAN_FILENAME) = None ->
  train_dbscan.train_and_save eps min_samples fs = (Ok out, fs') ->
  get_dbscan fs h = (Ok None, h) ∧
  (_scaler h = None -> ∀ fs0, fs0 !! (MODELS_DIR </> SCALER_FILENAME) = None ->
     get_scaler fs0 h = (Raise (FileNotFoundError (MODELS_DIR </> SCALER_FILENAME)), h)) ∧
  ∃ labels,
    let model := DBSCANObj eps min_samples labels in
    get_dbscan fs' h = (Ok (Some model), set_dbscan model h) ∧
    ∀ fs'', get_dbscan fs'' (set_dbscan model h) = (Ok (Some model), set_dbscan model h).
Proof.
  intros Hh Hfile. unfold train_dbscan.train_and_save. store_steps.
  destruct (train_dbscan.fit_dbscan eps min_samples fs) as [[fresh|e0] fs1] eqn:Hfit; [|done].
  intros [-> _]%merge_and_save_inv.
  apply fit_dbscan_inv in Hfit as (rfm & X & labels & _ & _ & _ & ->).
  split; [|split].
  - unfold get_dbscan, exists_. rewrite Hh.
    change (MODELS_DIR </> "dbscan.joblib") with (MODELS_DIR </> DBSCAN_FILENAME).
    rewrite Hfile. rewrite bool_decide_eq_false_2; [done|]. by intros [? ?].
  - intros Hs fs0 Hmissing. unfold get_scaler, joblib_load. rewrite Hs.
    change (MODELS_DIR </> "scaler.joblib") with (MODELS_DIR </> SCALER_FILENAME).
    by rewrite Hmissing.
  - exists labels. split.
    + unfold get_dbscan, exists_, joblib_load. rewrite Hh.
      change (MODELS_DIR </> "dbscan.joblib") with (MODELS_DIR </> DBSCAN_FILENAME).
      rewrite lookup_insert_ne, lookup_insert_eq by done.
      by rewrite bool_decide_eq_true_2 by eauto.
    + intros fs''. unfold get_dbscan. done.
Qed.

(** X19. What a centroid run dumps is what the service's getters load: on
    the store the run leaves, a process with empty handles gets the fitted
    scaler, the model with the run's parameters and the fixed segment map,
    and caches each of them. *)
Theorem X19_getters_load_centroid_artifacts (n_clusters random_state : Z) (save_rfm : bool)
    fs fs' h (out : DataFrame) :
  _scaler h = None -> _kmeans h = None -> _segment_map h = None ->
  train_kmeans.train_and_save n_clusters random_state save_rfm fs = (Ok out, fs') ->
  ∃ df rfm_log rfm_scaled fitted labels,
    (load_clean None fs).1 = Ok df ∧
    prepare_for_clustering (compute_rfm df) = Ok (rfm_log, rfm_scaled, fitted) ∧
    let scaler := ScalerObj fitted in
    let model := KMeansObj n_clusters random_state labels in
    let names := SegmentMapObj train_kmeans.DEFAULT_SEGMENT_MAP in
    get_scaler fs' h = (Ok scaler, set_scaler scaler h) ∧
    get_kmeans fs' h = (Ok model, set_kmeans model h) ∧
    get_segment_map fs' h = (Ok names, set_segment_map names h).
Proof.
  intros Hs Hk Hm Hrun.
  pose proof Hrun as (labels & Hkm & Hsm & _)%train_kmeans_models.
  apply train_kmeans_inv in Hrun as (df & _ & Hload & _ & _ & _ & _ & Hfitted & _).
  destruct Hfitted as (rfm_log & rfm_scaled & fitted & Hprepare & Hsc).
  exists df, rfm_log, rfm_scaled, fitted, labels. split; [done|]. split; [done|].
  unfold get_scaler, get_kmeans, get_segment_map, joblib_load. rewrite Hs, Hk, Hm.
  change (MODELS_DIR </> "scaler.joblib") with (MODELS_DIR </> SCALER_FILENAME).
  change (MODELS_DIR </> "kmeans.joblib") with (MODELS_DIR </> KMEANS_FILENAME).
  change (MODELS_DIR </> "segment_map.joblib") with (MODELS_DIR </> SEGMENT_MAP_FILENAME).
  by rewrite Hsc, Hkm, Hsm.
Qed.
End getters_more.

(** ** The raw file *)

Section raw_missing.
Import config data data_load preprocessing.
Context `{!Extern}.
Implicit Types fs : gmap string File.

(** X20. Without the raw file neither trainer gets anywhere: the centroid
    run, and the density run once it has loaded the scaler, raise
    [FileNotFoundError] on the raw path and leave the store as it was. *)
Theorem X20_missing_raw_file fs :
  fs !! RAW_DATA_PATH = None ->
  (∀ n_clusters random_state save_rfm,
     train_kmeans.train_and_save n_clusters random_state save_rfm fs
     = (Raise (FileNotFoundError RAW_DATA_PATH), fs)) ∧
  (∀ eps min_samples scaler,
     fs !! (MODELS_DIR </> SCALER_FILENAME) = Some (JoblibFile (ScalerObj scaler)) ->
     train_dbscan.train_and_save eps min_samples fs
     = (Raise (FileNotFoundError RAW_DATA_PATH), fs)).
Proof.
  intros Hraw.
  assert (load_clean None fs = (Raise (FileNotFoundError RAW_DATA_PATH), fs)) as Hload.
  { unfold load_clean, load_raw, read_csv. store_steps.
    change (default RAW_DATA_PATH None) with RAW_DATA_PATH. by rewrite Hraw. }
  split.
  - intros n_clusters random_state save_rfm.
    unfold train_kmeans.train_and_save. unfold mbind at 1. unfold M_bind at 1.
    by rewrite Hload.
  - intros eps min_samples scaler Hscaler.
    unfold train_dbscan.train_and_save, train_dbscan.fit_dbscan,
      train_dbscan.scaled_features, joblib_load.
    store_steps. rewrite Hscaler.
    unfold mbind, M_bind in Hload. by rewrite Hload.
Qed.
End raw_missing.

(** ** The further properties on the fixtures *)

Section more_checks.
Import config data data_load preprocessing app fixtures.
#[local] Existing Instances toy builtins.

Lemma X2_witness :
  rfm_13047 ∈ compute_rfm cleaned_batch ∧ Recency rfm_13047 = Some 1.
Proof.
  assert (rfm_13047 ∈ compute_rfm cleaned_batch) as Hin by (vm_compute; left).
  split; [exact Hin|].
  refine (X2_latest_customer_has_recency_one cleaned_batch
            (clean (InvNum 536383) 10 (day 15317 + 46200000000000) (125 # 100) 13047)
            (day 15317 + 46200000000000) rfm_13047 _ eq_refl _ Hin eq_refl).
  - vm_compute. do 3 right. left.
  - intros t' d' Ht' Hd'. unfold cleaned_batch in Ht'.
    repeat (apply elem_of_cons in Ht' as [->|Ht'];
            [simpl in Hd'; injection Hd' as <-; by vm_compute|]).
    by apply elem_of_nil in Ht'.
Defined.

Lemma X3_witness :
  rfm_17850 ∈ compute_rfm cleaned_batch ∧ rfm_13047 ∈ compute_rfm cleaned_batch ∧
  ∃ n1 n2, Recency rfm_17850 = Some n1 ∧ Recency rfm_13047 = Some n2 ∧ n2 ≤ n1.
Proof.
  assert (rfm_17850 ∈ compute_rfm cleaned_batch) as H1 by (vm_compute; right; left).
  assert (rfm_13047 ∈ compute_rfm cleaned_batch) as H2 by (vm_compute; left).
  split; [exact H1|]. split; [exact H2|].
  refine (X3_recency_antitone cleaned_batch rfm_17850 rfm_13047
            (day 15313 + 36000000000000) (day 15317 + 46200000000000) H1 H2 _ _ _).
  - vm_compute. reflexivity.
  - vm_compute. reflexivity.
  - by vm_compute.
Defined.

Lemma X4_witness :
  rfm_17850 ∈ compute_rfm cleaned_batch ∧
  Frequency rfm_17850 ≤ Z.of_nat (length (group cleaned_batch (CustomerID rfm_17850))).
Proof.
  assert (rfm_17850 ∈ compute_rfm cleaned_batch) as Hin by (vm_compute; right; left).
  split; [exact Hin|].
  exact (X4_frequency_at_most_row_count cleaned_batch rfm_17850 Hin).
Defined.

Lemma X5_witness :
  ∃ monetary,
    Monetary <$> compute_rfm integer_cleaned = I64 <$> monetary ∧
    Forall in_int64 monetary ∧
    Zsum monetary mod 2 ^ 64 = Zsum [12; 10] mod 2 ^ 64 ∧
    ((∀ c, in_int64 (Zsum (omap (fun t => match Clean.TotalPrice t with
                                          | I64 z => Some z
                                          | F64 _ => None
                                          end) (group integer_cleaned c)))) ->
     Zsum monetary = Zsum [12; 10]).
Proof. exact (X5_monetary_adds_up integer_cleaned [12; 10] eq_refl). Defined.

Lemma X10_witness :
  train_kmeans.train_and_save 4 42 true more_fixtures.one_customer
    = (Ok kmeans_dataset, after_kmeans) ∧
  train_dbscan.fit_dbscan (1 # 2) 5 after_kmeans
    = (Ok more_fixtures.fresh_one, more_fixtures.dumped_one) ∧
  ∃ out,
    train_dbscan.train_and_save (1 # 2) 5 after_kmeans
      = (Ok out, <[PROCESSED_DIR </> RFM_FILENAME := ParquetFile out]> more_fixtures.dumped_one) ∧
    columns out = ["CustomerID"; "Recency"; "Frequency"; "Monetary"; "DBSCAN_Cluster";
                   "Cluster"; "Segment"] ∧
    Forall2 (fun p o => p ⊆ o ∧ ∃ d, o = <["DBSCAN_Cluster" := Int d]> p)
            (rows kmeans_dataset) (rows out).
Proof.
  assert (train_kmeans.train_and_save 4 42 true more_fixtures.one_customer
          = (Ok kmeans_dataset, after_kmeans)) as Hcentroid.
  { vm_cast_no_check (@eq_refl _ (Ok kmeans_dataset : result DataFrame, after_kmeans)). }
  assert (train_dbscan.fit_dbscan (1 # 2) 5 after_kmeans
          = (Ok more_fixtures.fresh_one, more_fixtures.dumped_one)) as Hfit.
  { vm_cast_no_check
      (@eq_refl _ (Ok more_fixtures.fresh_one : result DataFrame, more_fixtures.dumped_one)). }
  split; [exact Hcentroid|]. split; [exact Hfit|].
  exact (X10_density_after_centroid_extends_rows 4 42 (1 # 2) 5 _ _ _ _ _ Hcentroid Hfit).
Defined.

Lemma X11_witness :
  train_dbscan.train_and_save (1 # 2) 5 new_customer
    = (Ok merged_table, more_fixtures.after_dbscan) ∧
  train_dbscan.train_and_save (1 # 2) 5 more_fixtures.after_dbscan
    = (Ok merged_table, more_fixtures.after_dbscan).
Proof.
  assert (train_dbscan.train_and_save (1 # 2) 5 new_customer
          = (Ok merged_table, more_fixtures.after_dbscan)) as Hrun.
  { vm_cast_no_check
      (@eq_refl _ (Ok merged_table : result DataFrame, more_fixtures.after_dbscan)). }
  split; [exact Hrun|].
  exact (X11_density_run_idempotent (1 # 2) 5 _ _ _ Hrun).
Defined.
Lemma warm_served : dataset_served warm kmeans_dataset.
Proof.
  right. split; [reflexivity|].
  vm_cast_no_check (@eq_refl _ (Some (ParquetFile kmeans_dataset))).
Qed.

Lemma X12_witness :
  analytics_customer "99999" warm
    = (Ok (error "Customer 99999 not found" 404),
       {| disk := disk warm; _rfm_df := Some kmeans_dataset |}).
Proof.
  refine (X12_unknown_customer_404 warm kmeans_dataset "99999" (Finite 99999) _ _ _ _).
  - exact warm_served.
  - in_list.
  - vm_compute. reflexivity.
  - left. intros r Hr. apply list_elem_of_singleton in Hr as ->.
    vm_compute. reflexivity.
Defined.

Lemma X13_witness :
  analytics_overview more_fixtures.density_only
    = (Raise (KeyError "Segment"),
       {| disk := disk more_fixtures.density_only; _rfm_df := Some fresh_table |}) ∧
  analytics_customer "17850" more_fixtures.density_only
    = (Raise (KeyError "Segment"),
       {| disk := disk more_fixtures.density_only; _rfm_df := Some fresh_table |}).
Proof.
  assert (dataset_served more_fixtures.density_only fresh_table) as Hserved.
  { right. split; [reflexivity|].
    vm_cast_no_check (@eq_refl _ (Some (ParquetFile fresh_table))). }
  assert ("Segment" ∉ columns fresh_table) as Hno by not_in_list.
  destruct (X13_no_segment_column_raises more_fixtures.density_only fresh_table Hserved Hno)
    as [Hoverview Hcustomer].
  split; [exact Hoverview|].
  apply (Hcustomer "17850" (Finite 17850) more_fixtures.fresh_17850 []).
  - vm_compute. reflexivity.
  - in_list.
  - vm_cast_no_check (@eq_refl _ [more_fixtures.fresh_17850]).
Defined.

Lemma X14_witness :
  analytics_customer "13047" more_fixtures.merged
    = (Raise (ValueError "cannot convert float NaN to integer"),
       {| disk := disk more_fixtures.merged; _rfm_df := Some merged_table |}).
Proof.
  apply (X14_null_cluster_raises more_fixtures.merged merged_table "13047" (Finite 13047)
           more_fixtures.merged_13047 []).
  - right. split; [reflexivity|].
    vm_cast_no_check (@eq_refl _ (Some (ParquetFile merged_table))).
  - in_list.
  - in_list.
  - in_list.
  - vm_compute. reflexivity.
  - vm_cast_no_check (@eq_refl _ [more_fixtures.merged_13047]).
  - vm_compute. reflexivity.
Defined.


Lemma X16_witness :
  (analytics_customer "17850" warm).2 = {| disk := disk warm; _rfm_df := Some kmeans_dataset |} ∧
  analytics_customer "17850" {| disk := untrained; _rfm_df := Some kmeans_dataset |}
    = ((analytics_customer "17850" warm).1,
       {| disk := untrained; _rfm_df := Some kmeans_dataset |}).
Proof.
  destruct (X16_cached_dataset_hides_disk warm kmeans_dataset untrained warm_served)
    as (_ & _ & _ & _ & _ & _ & Hcustomer).
  exact (Hcustomer "17850").
Defined.

Lemma X18_witness :
  app_handles.get_dbscan new_customer more_fixtures.no_handles
    = (Ok None, more_fixtures.no_handles) ∧
  ∃ labels,
    app_handles.get_dbscan more_fixtures.after_dbscan more_fixtures.no_handles
      = (Ok (Some (DBSCANObj (1 # 2) 5 labels)),
         app_handles.set_dbscan (DBSCANObj (1 # 2) 5 labels) more_fixtures.no_handles).
Proof.
  destruct (X18_optional_density_model (1 # 2) 5 new_customer more_fixtures.after_dbscan
              more_fixtures.no_handles merged_table) as (Hnone & _ & labels & Hload & _).
  - reflexivity.
  - vm_compute. reflexivity.
  - vm_cast_no_check
      (@eq_refl _ (Ok merged_table : result DataFrame, more_fixtures.after_dbscan)).
  - split; [exact Hnone|]. exists labels. exact Hload.
Defined.

Lemma X19_witness :
  ∃ obj, app_handles.get_segment_map after_kmeans more_fixtures.no_handles
         = (Ok obj, app_handles.set_segment_map obj more_fixtures.no_handles) ∧
         obj = SegmentMapObj train_kmeans.DEFAULT_SEGMENT_MAP.
Proof.
  destruct (X19_getters_load_centroid_artifacts 4 42 true more_fixtures.one_customer
              after_kmeans more_fixtures.no_handles kmeans_dataset)
    as (df & rfm_log & rfm_scaled & fitted & labels & _ & _ & _ & _ & Hmap).
  - reflexivity.
  - reflexivity.
  - reflexivity.
  - vm_cast_no_check (@eq_refl _ (Ok kmeans_dataset : result DataFrame, after_kmeans)).
  - eexists. split; [exact Hmap|reflexivity].
Defined.
Lemma X20_witness :
  train_kmeans.train_and_save 4 42 true ∅ = (Raise (FileNotFoundError RAW_DATA_PATH), ∅).
Proof.
  destruct (X20_missing_raw_file ∅) as [Hcentroid _]; [reflexivity|].
  exact (Hcentroid 4 42 true).
Defined.
End more_checks.
